(** * RideWise dashboard: the aggregation and recommendation pipeline

    A shallow embedding of [final_project.py].  The script is a linear
    Streamlit page: it loads two data frames, reads four sidebar selections
    and then runs four sections (monthly trend, hourly pattern, heatmap,
    recommendation).  The pandas operations the script calls are modelled by
    small executable functions over an explicit data-frame type; the script
    itself is a program in a state-and-exception monad whose state holds the
    heap of data-frame objects and the list of elements rendered so far.

    Numbers are exact rationals ([Qc]); a missing number (NaN) is [None].
    Rounding of binary floating point is not modelled. *)

From Stdlib Require Import QArith Qcanon Qround Ascii String Lia Lra.
From stdpp Require Import base list numbers strings option sorting.

Local Open Scope Z_scope.
Local Open Scope string_scope.
Local Open Scope list_scope.

(** ** Python strings *)

Module PyStr.

(** [str.lower()] on the ASCII range. *)
Definition lower_ascii (c : ascii) : ascii :=
  let n := nat_of_ascii c in
  if ((65 <=? n)%nat && (n <=? 90)%nat)%bool then ascii_of_nat (n + 32) else c.

Fixpoint lower (s : string) : string :=
  match s with
  | EmptyString => EmptyString
  | String c s' => String (lower_ascii c) (lower s')
  end.

(** [sub in s]: [sub] occurs in [s] at some position. *)
Fixpoint contains (sub s : string) : bool :=
  String.prefix sub s ||
  match s with
  | EmptyString => false
  | String _ s' => contains sub s'
  end.

(** [str.strip()] on the ASCII range: the white space of Python is
    tab to carriage return (9-13), the separators 28-31 and the space. *)
Definition is_space (c : ascii) : bool :=
  let n := nat_of_ascii c in
  (((9 <=? n)%nat && (n <=? 13)%nat) || ((28 <=? n)%nat && (n <=? 32)%nat))%bool.

Fixpoint lstrip (s : string) : string :=
  match s with
  | EmptyString => EmptyString
  | String c s' => if is_space c then lstrip s' else s
  end.

Fixpoint rstrip (s : string) : string :=
  match s with
  | EmptyString => EmptyString
  | String c s' =>
      match rstrip s' with
      | EmptyString => if is_space c then EmptyString else String c EmptyString
      | t => String c t
      end
  end.

Definition strip (s : string) : string := lstrip (rstrip s).

End PyStr.

(** ** Timestamps *)

Record Timestamp := mkTs {
  year : Z; month : Z; day : Z; hour : Z; minute : Z; second : Z
}.

Global Instance Timestamp_eq_dec : EqDecision Timestamp.
Proof. solve_decision. Defined.

Definition ts_fields (t : Timestamp) : list Z :=
  [year t; month t; day t; hour t; minute t; second t].

(** Chronological comparison, field by field. *)
Fixpoint lex_compare (a b : list Z) : comparison :=
  match a, b with
  | [], [] => Eq
  | [], _ :: _ => Lt
  | _ :: _, [] => Gt
  | x :: a', y :: b' =>
      match Z.compare x y with
      | Eq => lex_compare a' b'
      | c => c
      end
  end.

Definition ts_compare (a b : Timestamp) : comparison :=
  lex_compare (ts_fields a) (ts_fields b).

Definition ts_leb (a b : Timestamp) : bool :=
  match ts_compare a b with Gt => false | _ => true end.

(** [pd.to_datetime(d)] of a calendar date: midnight of that day. *)
Record Date := mkDate { dyear : Z; dmonth : Z; dday : Z }.

Definition to_datetime_date (d : Date) : Timestamp :=
  mkTs (dyear d) (dmonth d) (dday d) 0 0 0.

(** [.dt.to_period("M").dt.to_timestamp()]: first instant of the month. *)
Definition month_start (t : Timestamp) : Timestamp :=
  mkTs (year t) (month t) 1 0 0 0.

(** ** Data frames *)

(** The three kinds of column the script distinguishes.  [number] is what
    [select_dtypes(include=["number"])] keeps. *)
Inductive dtype := number | datetime | object.

Global Instance dtype_eq_dec : EqDecision dtype.
Proof. solve_decision. Defined.

(** A cell; [None] is the missing value of its kind (NaN, NaT, NaN). *)
Inductive cell :=
| CNum (x : option Qc)
| CTime (t : option Timestamp)
| CStr (s : option string).

Global Instance cell_eq_dec : EqDecision cell.
Proof. solve_decision. Defined.

Abbreviation row := (list cell).

Record DataFrame := mkDF {
  columns : list (string * dtype);
  rows : list row
}.

Global Instance DataFrame_eq_dec : EqDecision DataFrame.
Proof. solve_decision. Defined.

(** A column taken out of a frame. *)
Record Series := mkSeries { sdtype : dtype; values : list cell }.

(** ** Exceptions and results *)

Inductive exn :=
| KeyError (key : string)
| IndexError
| ValueError (msg : string)
| TypeError (msg : string)
| NameError.

Global Instance exn_eq_dec : EqDecision exn.
Proof. solve_decision. Defined.

Inductive result (A : Type) :=
| Ok (a : A)
| Raise (e : exn).
Arguments Ok {A} a.
Arguments Raise {A} e.

Global Instance result_eq_dec `{EqDecision A} : EqDecision (result A).
Proof. solve_decision. Defined.

Definition result_bind {A B} (r : result A) (f : A -> result B) : result B :=
  match r with
  | Ok a => f a
  | Raise e => Raise e
  end.

(** ** Ordered group keys *)

(** [groupby] sorts its group keys; the keys of this script are numbers
    (hours), timestamps (months) and, in the pivot, pairs of an hour and a
    label. *)
Class KeyOrder (K : Type) := {
  kcmp : K -> K -> comparison;
  kcmp_eq : forall a b, kcmp a b = Eq <-> a = b;
  kcmp_antisym : forall a b, kcmp b a = CompOpp (kcmp a b);
  kcmp_trans : forall a b c, kcmp a b = Lt -> kcmp b c = Lt -> kcmp a c = Lt
}.

Lemma lex_compare_eq a b : lex_compare a b = Eq <-> a = b.
Proof.
  revert b; induction a as [|x a IH]; intros [|y b]; simpl; try done.
  destruct (Z.compare_spec x y) as [->| |]; [|split; [done|intros [= ]; lia]..].
  rewrite IH. split; [by intros ->|by intros [= ]].
Qed.

Lemma lex_compare_antisym a b : lex_compare b a = CompOpp (lex_compare a b).
Proof.
  revert b; induction a as [|x a IH]; intros [|y b]; simpl; try done.
  rewrite (Z.compare_antisym x y).
  destruct (x ?= y)%Z; simpl; auto.
Qed.

Lemma lex_compare_trans a b c :
  lex_compare a b = Lt -> lex_compare b c = Lt -> lex_compare a c = Lt.
Proof.
  revert b c; induction a as [|x a IH]; intros [|y b] [|z c]; simpl; try done.
  destruct (Z.compare_spec x y) as [->| |]; try done.
  - destruct (Z.compare_spec y z) as [->| |]; try done. apply IH.
  - destruct (Z.compare_spec y z) as [->| |]; try done.
    + intros _ _. destruct (Z.compare_spec x z); try done; lia.
    + intros _ _. destruct (Z.compare_spec x z); try done; lia.
Qed.

Lemma ts_compare_eq a b : ts_compare a b = Eq <-> a = b.
Proof.
  destruct a, b; unfold ts_compare. rewrite lex_compare_eq; simpl.
  split; [by intros [= -> -> -> -> -> ->]|by intros [= -> -> -> -> -> ->]].
Qed.

Global Instance Timestamp_order : KeyOrder Timestamp :=
  {| kcmp := ts_compare;
     kcmp_eq := ts_compare_eq;
     kcmp_antisym a b := lex_compare_antisym (ts_fields a) (ts_fields b);
     kcmp_trans a b c := lex_compare_trans (ts_fields a) (ts_fields b) (ts_fields c) |}.

Definition str_codes (s : string) : list Z :=
  (fun c => Z.of_nat (nat_of_ascii c)) <$> list_ascii_of_string s.

Lemma str_codes_inj s1 s2 : str_codes s1 = str_codes s2 -> s1 = s2.
Proof.
  revert s2; induction s1 as [|c s1 IH]; intros [|d s2]; simpl; try done.
  intros [= Hc Hs]. f_equal; [|by apply IH].
  apply Nat2Z.inj in Hc.
  rewrite <- (ascii_nat_embedding c), <- (ascii_nat_embedding d). by rewrite Hc.
Qed.

(** Python compares strings by code point. *)
Definition str_compare (a b : string) : comparison :=
  lex_compare (str_codes a) (str_codes b).

Lemma str_compare_eq a b : str_compare a b = Eq <-> a = b.
Proof.
  unfold str_compare. rewrite lex_compare_eq.
  split; [apply str_codes_inj|by intros ->].
Qed.

Global Instance string_order : KeyOrder string :=
  {| kcmp := str_compare;
     kcmp_eq := str_compare_eq;
     kcmp_antisym a b := lex_compare_antisym (str_codes a) (str_codes b);
     kcmp_trans a b c := lex_compare_trans (str_codes a) (str_codes b) (str_codes c) |}.

Lemma Qccompare_eq (a b : Qc) : Qccompare a b = Eq <-> a = b.
Proof. symmetry. apply Qceq_alt. Qed.

Lemma Qccompare_antisym (a b : Qc) : Qccompare b a = CompOpp (Qccompare a b).
Proof. unfold Qccompare. by rewrite <- Qcompare_antisym. Qed.

Lemma Qccompare_trans (a b c : Qc) :
  Qccompare a b = Lt -> Qccompare b c = Lt -> Qccompare a c = Lt.
Proof. rewrite <- !Qclt_alt. apply Qclt_trans. Qed.

Global Instance Qc_order : KeyOrder Qc :=
  {| kcmp := Qccompare;
     kcmp_eq := Qccompare_eq;
     kcmp_antisym := Qccompare_antisym;
     kcmp_trans := Qccompare_trans |}.

(** Keys of a two-level grouping compare first on the outer key. *)
Section PairOrder.
Context `{KeyOrder A, KeyOrder B}.

Definition pair_compare (p q : A * B) : comparison :=
  match kcmp (fst p) (fst q) with
  | Eq => kcmp (snd p) (snd q)
  | c => c
  end.

Lemma pair_compare_eq p q : pair_compare p q = Eq <-> p = q.
Proof.
  destruct p as [a1 b1], q as [a2 b2]; unfold pair_compare; simpl.
  destruct (kcmp a1 a2) eqn:E.
  - apply kcmp_eq in E as ->. rewrite kcmp_eq.
    split; [by intros ->|by intros [= ]].
  - split; [done|]. intros [= -> ->].
    assert (kcmp a2 a2 = Eq) by by apply kcmp_eq. congruence.
  - split; [done|]. intros [= -> ->].
    assert (kcmp a2 a2 = Eq) by by apply kcmp_eq. congruence.
Qed.

Lemma pair_compare_antisym p q : pair_compare q p = CompOpp (pair_compare p q).
Proof.
  destruct p as [a1 b1], q as [a2 b2]; unfold pair_compare; simpl.
  rewrite (kcmp_antisym a1 a2). destruct (kcmp a1 a2); simpl; auto.
  apply kcmp_antisym.
Qed.

Lemma pair_compare_trans p q r :
  pair_compare p q = Lt -> pair_compare q r = Lt -> pair_compare p r = Lt.
Proof.
  destruct p as [a1 b1], q as [a2 b2], r as [a3 b3]; unfold pair_compare; simpl.
  destruct (kcmp a1 a2) eqn:E12; try done.
  - apply kcmp_eq in E12 as ->. destruct (kcmp a2 a3); try done. apply kcmp_trans.
  - destruct (kcmp a2 a3) eqn:E23; try done.
    + apply kcmp_eq in E23 as ->. by rewrite E12.
    + by rewrite (kcmp_trans _ _ _ E12 E23).
Qed.

Global Instance pair_order : KeyOrder (A * B) :=
  {| kcmp := pair_compare;
     kcmp_eq := pair_compare_eq;
     kcmp_antisym := pair_compare_antisym;
     kcmp_trans := pair_compare_trans |}.
End PairOrder.

(** ** The pandas operations the script uses *)

Module Pandas.

(** Position of a column label; labels are taken to be distinct (of equal
    labels the first counts). *)
Fixpoint col_index (name : string) (cols : list (string * dtype)) : option nat :=
  match cols with
  | [] => None
  | (n, _) :: cols' =>
      if decide (n = name) then Some O else S <$> col_index name cols'
  end.

(** [name in df.columns] *)
Definition has_column (name : string) (df : DataFrame) : bool :=
  bool_decide (is_Some (col_index name (columns df))).

Definition cell_at (i : nat) (r : row) : cell := nth i r (CStr None).

(** [df[name]] *)
Definition getitem (name : string) (df : DataFrame) : result Series :=
  match col_index name (columns df) with
  | None => Raise (KeyError name)
  | Some i =>
      Ok (mkSeries (nth i (snd <$> columns df) object) (cell_at i <$> rows df))
  end.

(** [df.empty] for a frame that has columns: no rows. *)
Definition empty (df : DataFrame) : bool :=
  match rows df with [] => true | _ => false end.

(** [df.select_dtypes(include=["number"]).columns.tolist()] *)
Definition select_dtypes_number (df : DataFrame) : list string :=
  fst <$> List.filter (fun c => bool_decide (snd c = number)) (columns df).

(** [df[mask]] and [df.loc[mask]] with a boolean mask: the rows where the
    mask is true, in their order, as a new frame. *)
Fixpoint filter_mask {A} (mask : list bool) (l : list A) : list A :=
  match mask, l with
  | b :: mask', x :: l' =>
      if b then x :: filter_mask mask' l' else filter_mask mask' l'
  | _, _ => []
  end.

Definition getitem_mask (mask : list bool) (df : DataFrame) : DataFrame :=
  mkDF (columns df) (filter_mask mask (rows df)).

(** [mask1 & mask2] *)
Definition mask_and (m1 m2 : list bool) : list bool := zip_with andb m1 m2.

(** [df[name] = vals]: replaces the column when the label exists, appends
    it on the right otherwise. *)
Definition setitem (name : string) (dt : dtype) (vals : list cell)
    (df : DataFrame) : DataFrame :=
  match col_index name (columns df) with
  | Some i =>
      mkDF (<[i := (name, dt)]> (columns df))
           (zip_with (fun v (r : row) => <[i := v]> r) vals (rows df))
  | None =>
      mkDF (columns df ++ [(name, dt)])
           (zip_with (fun v (r : row) => r ++ [v]) vals (rows df))
  end.

(** *** Numeric cells *)

Definition Qc_of_nat (n : nat) : Qc := Qc_of_Z (Z.of_nat n).

(** The number in a cell; NaN for a missing number and for a cell that is
    not a number. *)
Definition num_of_cell (c : cell) : option Qc :=
  match c with
  | CNum x => x
  | _ => None
  end.

(** The values left after [skipna]. *)
Definition dropna (vs : list (option Qc)) : list Qc := omap id vs.

Definition Qc_sum (xs : list Qc) : Qc := foldr Qcplus (Qc_of_Z 0) xs.

(** [.sum()]: NaN is skipped, the sum of nothing is 0. *)
Definition nansum (vs : list (option Qc)) : Qc := Qc_sum (dropna vs).

(** [.mean()]: NaN is skipped, the mean of nothing is NaN. *)
Definition nanmean (vs : list (option Qc)) : option Qc :=
  match dropna vs with
  | [] => None
  | xs => Some (Qc_sum xs / Qc_of_nat (length xs))%Qc
  end.

(** [int(x)] and [.astype(int)] of a number: truncation toward zero. *)
Definition Qc_trunc (x : Qc) : Z :=
  if decide (Qc_of_Z 0 ≤ x)%Qc then Qfloor x else Qceiling x.

(** *** groupby *)

Section GroupBy.
Context `{KeyOrder K} {V : Type}.

(** Adds one observation to the groups, which are kept in ascending key
    order; within a group the observations keep their order. *)
Fixpoint insert_group (k : K) (v : V) (gs : list (K * list V)) : list (K * list V) :=
  match gs with
  | [] => [(k, [v])]
  | (k', vs) :: gs' =>
      match kcmp k k' with
      | Lt => (k, [v]) :: (k', vs) :: gs'
      | Eq => (k', vs ++ [v]) :: gs'
      | Gt => (k', vs) :: insert_group k v gs'
      end
  end.

(** [groupby(key)] with the defaults [sort=True, dropna=True]: observations
    with a missing key are left out. *)
Definition groupby (kvs : list (option K * V)) : list (K * list V) :=
  fold_left (fun gs kv =>
               match fst kv with
               | Some k => insert_group k (snd kv) gs
               | None => gs
               end) kvs [].

(** [sort_values(key)] on a frame of (key, value) rows. *)
Fixpoint insert_sorted {B} (r : K * B) (l : list (K * B)) : list (K * B) :=
  match l with
  | [] => [r]
  | r' :: l' =>
      match kcmp (fst r) (fst r') with
      | Gt => r' :: insert_sorted r l'
      | _ => r :: r' :: l'
      end
  end.

Definition sort_values {B} (l : list (K * B)) : list (K * B) :=
  foldr insert_sorted [] l.

End GroupBy.

(** [df.groupby(key)[col].agg()] followed by [reset_index()]: one
    (key, aggregate) row per group. *)
Definition groupby_agg `{KeyOrder K} {B} (agg : list (option Qc) -> B)
      (keys : list (option K)) (vals : list cell) : list (K * B) :=
  (fun g => (fst g, agg (num_of_cell <$> snd g))) <$> groupby (zip keys vals).

(** *** idxmax *)

(** Scans for the first position holding the largest value, NaN skipped. *)
Fixpoint idxmax_from (best : option (nat * Qc)) (i : nat) (vs : list (option Qc))
    : option (nat * Qc) :=
  match vs with
  | [] => best
  | None :: vs' => idxmax_from best (S i) vs'
  | Some x :: vs' =>
      match best with
      | None => idxmax_from (Some (i, x)) (S i) vs'
      | Some (_, m) =>
          if decide (m < x)%Qc then idxmax_from (Some (i, x)) (S i) vs'
          else idxmax_from best (S i) vs'
      end
  end.

(** [s.idxmax()] on a series with the default index 0..n-1.  An empty or
    all-NaN series has no maximum and the lookup of the peak fails; current
    pandas raises [ValueError] in [idxmax] itself. *)
Definition idxmax (vs : list (option Qc)) : result nat :=
  match idxmax_from None 0 vs with
  | Some (i, _) => Ok i
  | None => Raise (ValueError "attempt to get argmax of an empty sequence")
  end.

(** *** quantile *)

Fixpoint insert_Qc (x : Qc) (l : list Qc) : list Qc :=
  match l with
  | [] => [x]
  | y :: l' => if decide (x ≤ y)%Qc then x :: y :: l' else y :: insert_Qc x l'
  end.

Definition sort_Qc (l : list Qc) : list Qc := foldr insert_Qc [] l.

(** [s.quantile(q)] with the default linear interpolation: NaN is dropped,
    the values are sorted, the virtual index is [q * (n - 1)], and the result
    lies between the order statistics at its floor and at the next position
    (which is clipped to the last one).  NaN when nothing is left. *)
Definition quantile (q : Qc) (vs : list (option Qc)) : option Qc :=
  let arr := sort_Qc (dropna vs) in
  match arr with
  | [] => None
  | _ =>
      let n := length arr in
      let virtual_index := (q * (Qc_of_nat n - Qc_of_Z 1))%Qc in
      let previous := Z.to_nat (Qfloor virtual_index) in
      let next := Nat.min (previous + 1) (n - 1) in
      let gamma := (virtual_index - Qc_of_Z (Qfloor virtual_index))%Qc in
      let lo := nth previous arr (Qc_of_Z 0) in
      let hi := nth next arr (Qc_of_Z 0) in
      Some (lo + gamma * (hi - lo))%Qc
  end.

End Pandas.

(** ** What the page renders *)

Inductive Role := Tourist | Worker.

Inductive warning :=
| NoNumericDaily      (* "No numeric ridership column found in daily dataset." *)
| NoMonthlyData       (* "No monthly data found for the selected filters." *)
| NoTimeColumn        (* "No valid time or hour column found in hourly dataset." *)
| NoHourlyData.       (* "No hourly data available for the selected line and day type." *)

(** The data-bearing elements, in the order the script emits them.  Titles,
    subheaders and the footer are fixed text and are not recorded. *)
Inductive element :=
| Warning (w : warning)
| MonthlyChart (monthly_summary : list (Timestamp * Qc))
| MonthlyInfo (avg : option Qc) (peak_month : Timestamp) (peak_total : Qc)
| HourlyBar (hourly_avg : list (Qc * option Qc))
| HourlyLine (hourly_avg : list (Qc * option Qc))
| PeakHourInfo (peak_hour : Z)
| Heatmap (pivot_df : list ((Qc * string) * Qc))
| TouristSuccess (hours : list Z)
| WorkerInfo (hours : list Z)
| RecChart (avg_ridership : list (Qc * option Qc)) (hline : option Qc).

Global Instance Role_eq_dec : EqDecision Role.
Proof. solve_decision. Defined.
Global Instance warning_eq_dec : EqDecision warning.
Proof. solve_decision. Defined.
Global Instance element_eq_dec : EqDecision element.
Proof. solve_decision. Defined.

(** The sidebar selections. *)
Record Selection := mkSel {
  role : Role;
  day_type : string;
  line : string;
  date_range : Date * Date
}.

(** ** The script's state: data-frame objects and rendered elements *)

(** A Python variable holds a reference to a frame object; [df[mask]]
    creates a new object, [df[name] = ...] changes the object in place. *)
Record state := mkState {
  heap : list DataFrame;
  rendered : list element
}.

Global Instance state_eq_dec : EqDecision state.
Proof. solve_decision. Defined.

Definition M (A : Type) : Type := state -> state * result A.

Global Instance M_ret : MRet M := fun A a s => (s, Ok a).

Global Instance M_bind : MBind M := fun A B f m s =>
  match m s with
  | (s', Ok a) => f a s'
  | (s', Raise e) => (s', Raise e)
  end.

(** A pandas call that may raise. *)
Definition lift {A} (r : result A) : M A := fun s => (s, r).

(** Reading the object a variable refers to. *)
Definition deref (r : nat) : M DataFrame := fun s =>
  match heap s !! r with
  | Some df => (s, Ok df)
  | None => (s, Raise NameError)
  end.

(** A new frame object. *)
Definition alloc (df : DataFrame) : M nat := fun s =>
  (mkState (heap s ++ [df]) (rendered s), Ok (length (heap s))).

(** In-place update of a frame object. *)
Definition assign (r : nat) (df : DataFrame) : M unit := fun s =>
  (mkState (<[r := df]> (heap s)) (rendered s), Ok tt).

(** [st.warning], [st.info], [st.success], [st.plotly_chart]; building a
    chart from a frame ([px.line], [px.bar], [px.imshow]) is taken not to
    fail. *)
Definition render (e : element) : M unit := fun s =>
  (mkState (heap s) (rendered s ++ [e]), Ok tt).

(** ** Column auto-detection (lines 79-80 and 143-144) *)

Definition ridership_like (c : string) : bool :=
  PyStr.contains "ridership" (PyStr.lower c) || PyStr.contains "passenger" (PyStr.lower c).

(** [ridership_col = [c for c in numeric_cols if ...]] then
    [ridership_col[0] if ridership_col else numeric_cols[0]]. *)
Definition pick_ridership_col (numeric_cols : list string) : result string :=
  match List.filter ridership_like numeric_cols with
  | c :: _ => Ok c
  | [] =>
      match numeric_cols with
      | c :: _ => Ok c
      | [] => Raise IndexError
      end
  end.

(** ** The script *)

Section Script.

(** Conversions of values of another kind than the one the column is read
    as, which the script leaves to Python: [str(x)] of a value that is not a
    string, [pd.to_datetime(x, errors="coerce")] of a value that is not a
    timestamp, [int(x)] of a value that is not a number ([None] when it
    raises). *)
Variable py_str : cell -> string.
Variable py_to_datetime : cell -> option Timestamp.
Variable py_int : cell -> option Z.

(** [s.astype(str)] *)
Definition str_of_cell (c : cell) : string :=
  match c with
  | CStr (Some s) => s
  | CStr None => "nan"
  | _ => py_str c
  end.

(** [s.astype(str).str.lower() == x.lower()] *)
Definition eq_lower (x : string) (s : Series) : list bool :=
  (fun c => bool_decide (PyStr.lower (str_of_cell c) = PyStr.lower x)) <$> values s.

(** [s == x] for a string [x] *)
Definition eq_str (x : string) (s : Series) : list bool :=
  (fun c => bool_decide (c = CStr (Some x))) <$> values s.

Definition ts_of_cell (c : cell) : option Timestamp :=
  match c with
  | CTime t => t
  | _ => None
  end.

Definition in_range (a b : Timestamp) (c : cell) : bool :=
  match ts_of_cell c with
  | Some t => ts_leb a t && ts_leb t b
  | None => false
  end.

(** [s.between(a, b)] with timestamps [a], [b]: both ends included, NaT is
    in no range; a column that does not hold timestamps cannot be compared
    with one. *)
Definition between_ts (a b : Timestamp) (s : Series) : result (list bool) :=
  match sdtype s with
  | datetime => Ok (in_range a b <$> values s)
  | _ => Raise (TypeError "Invalid comparison with Timestamp")
  end.

(** [s.dt.to_period("M").dt.to_timestamp()] *)
Definition dt_month_start (s : Series) : list cell :=
  (fun c => CTime (month_start <$> ts_of_cell c)) <$> values s.

(** [pd.to_datetime(s, errors="coerce").dt.hour] *)
Definition to_datetime_cell (c : cell) : option Timestamp :=
  match c with
  | CTime t => t
  | _ => py_to_datetime c
  end.

Definition dt_hour (s : Series) : list cell :=
  (fun c => CNum (Qc_of_Z ∘ hour <$> to_datetime_cell c)) <$> values s.

(** [s.astype(int)]: raises on a missing value. *)
Definition int_of_cell (c : cell) : option Z :=
  match c with
  | CNum x => Pandas.Qc_trunc <$> x
  | _ => py_int c
  end.

Definition astype_int (s : Series) : result (list cell) :=
  match mapM int_of_cell (values s) with
  | Some zs => Ok ((fun z => CNum (Some (Qc_of_Z z))) <$> zs)
  | None => Raise (ValueError "cannot convert to integer")
  end.

(** [df.groupby(key)[col].agg().reset_index()].  The key column and the
    value column must exist, the aggregate is numeric, and [reset_index]
    cannot insert the key as a column beside a value column of that name. *)
Definition groupby_reset `{KeyOrder K} {B} (key_of : cell -> option K)
    (agg : list (option Qc) -> B) (key col : string) (df : DataFrame)
  : result (list (K * B)) :=
  result_bind (Pandas.getitem key df) (fun k =>
  result_bind (Pandas.getitem col df) (fun v =>
  if negb (bool_decide (sdtype v = number)) then
    Raise (TypeError "agg function failed")
  else if bool_decide (key = col) then
    Raise (ValueError "cannot insert, already exists")
  else Ok (Pandas.groupby_agg agg (key_of <$> values k) (values v)))).

(** [frame.loc[i]] on the default index. *)
Definition loc {A} (i : nat) (l : list A) : result A :=
  match l !! i with
  | Some x => Ok x
  | None => Raise (KeyError "index")
  end.

Definition label_of_cell (c : cell) : option string :=
  match c with
  | CStr s => s
  | _ => None
  end.

(** [df.pivot_table(values=v, index=i, columns=c, aggfunc="mean")]: the mean
    of [v] per pair of an index value and a column label; pairs without a
    value are left undefined. *)
Definition pivot_table_mean (v i c : string) (df : DataFrame)
  : result (list ((Qc * string) * Qc)) :=
  result_bind (Pandas.getitem v df) (fun vs =>
  result_bind (Pandas.getitem i df) (fun idx =>
  result_bind (Pandas.getitem c df) (fun cols =>
  if negb (bool_decide (sdtype vs = number)) then
    Raise (TypeError "agg function failed")
  else
    let keys := zip_with (fun a b => h ← Pandas.num_of_cell a; d ← label_of_cell b; Some (h, d))
                         (values idx) (values cols) in
    Ok (omap (fun g => pair (fst g) <$> snd g)
             (Pandas.groupby_agg Pandas.nanmean keys (values vs)))))).

(** *** Monthly ridership trend (lines 73-122) *)

Definition date_mask (df : DataFrame) (date_range : Date * Date) : result (list bool) :=
  result_bind (Pandas.getitem "date" df)
    (between_ts (to_datetime_date (fst date_range)) (to_datetime_date (snd date_range))).

(** The filter of lines 83-91. *)
Definition daily_filter (df : DataFrame) (line : string) (date_range : Date * Date)
  : result DataFrame :=
  if Pandas.has_column "line" df then
    result_bind (date_mask df date_range) (fun dates =>
    result_bind (Pandas.getitem "line" df) (fun lines =>
    Ok (Pandas.getitem_mask (Pandas.mask_and dates (eq_lower line lines)) df)))
  else
    result_bind (date_mask df date_range) (fun dates =>
    Ok (Pandas.getitem_mask dates df)).

Definition totals (monthly_summary : list (Timestamp * Qc)) : list (option Qc) :=
  (fun r => Some (snd r)) <$> monthly_summary.

Definition monthly_section (daily_df daily_filtered : nat) (sel : Selection) : M nat :=
  df ← deref daily_df;
  let numeric_cols := Pandas.select_dtypes_number df in
  if bool_decide (length numeric_cols = 0%nat) then
    render (Warning NoNumericDaily);;
    mret daily_filtered
  else
    ridership_col ← lift (pick_ridership_col numeric_cols);
    filtered ← lift (daily_filter df (line sel) (date_range sel));
    daily_filtered ← alloc filtered;
    filtered ← deref daily_filtered;
    (if negb (Pandas.empty filtered) then
       date ← lift (Pandas.getitem "date" filtered);
       assign daily_filtered (Pandas.setitem "month" datetime (dt_month_start date) filtered);;
       filtered ← deref daily_filtered;
       monthly_summary ← lift (groupby_reset ts_of_cell Pandas.nansum "month" ridership_col filtered);
       render (MonthlyChart monthly_summary);;
       let avg := Pandas.nanmean (totals monthly_summary) in
       i ← lift (Pandas.idxmax (totals monthly_summary));
       peak ← lift (loc i monthly_summary);
       render (MonthlyInfo avg (fst peak) (snd peak))
     else render (Warning NoMonthlyData));;
    mret daily_filtered.

(** *** Average hourly ridership pattern (lines 126-183) *)

(** The filter of lines 127-130. *)
Definition hourly_filter (df : DataFrame) (day_type line : string) : result DataFrame :=
  result_bind (Pandas.getitem "day_type" df) (fun day_types =>
  result_bind (Pandas.getitem "line_tag" df) (fun line_tags =>
  Ok (Pandas.getitem_mask
        (Pandas.mask_and (eq_lower day_type day_types) (eq_lower line line_tags)) df))).

(** Lines 134-139: the [hour] column of the filtered frame. *)
Definition prepare_hour (hourly_filtered : nat) : M unit :=
  hf ← deref hourly_filtered;
  if Pandas.has_column "time" hf then
    time ← lift (Pandas.getitem "time" hf);
    assign hourly_filtered (Pandas.setitem "hour" number (dt_hour time) hf)
  else if Pandas.has_column "hour" hf then
    hours ← lift (Pandas.getitem "hour" hf);
    ints ← lift (astype_int hours);
    assign hourly_filtered (Pandas.setitem "hour" number ints hf)
  else render (Warning NoTimeColumn).

Definition hourly_section (hourly_df : nat) (sel : Selection) : M nat :=
  df ← deref hourly_df;
  filtered ← lift (hourly_filter df (day_type sel) (line sel));
  hourly_filtered ← alloc filtered;
  hf ← deref hourly_filtered;
  (if negb (Pandas.empty hf) then
     prepare_hour hourly_filtered;;
     hf ← deref hourly_filtered;
     let numeric_cols := Pandas.select_dtypes_number hf in
     ridership_col ← lift (pick_ridership_col numeric_cols);
     grouped ← lift (groupby_reset Pandas.num_of_cell Pandas.nanmean "hour" ridership_col hf);
     let hourly_avg := Pandas.sort_values grouped in
     render (HourlyBar hourly_avg);;
     render (HourlyLine hourly_avg);;
     i ← lift (Pandas.idxmax (snd <$> hourly_avg));
     peak ← lift (loc i hourly_avg);
     render (PeakHourInfo (Pandas.Qc_trunc (fst peak)))
   else render (Warning NoHourlyData));;
  mret hourly_filtered.

(** *** Heatmap (lines 186-200) *)

Definition heatmap_section (hourly_filtered : nat) : M unit :=
  hf ← deref hourly_filtered;
  if Pandas.has_column "day_type" hf then
    pivot_df ← lift (pivot_table_mean "ridership" "hour" "day_type" hf);
    render (Heatmap pivot_df)
  else mret tt.

(** *** Role-based recommendation (lines 205-232) *)

(** [x <= threshold] on floats: false when either side is NaN. *)
Definition le_nan (x threshold : option Qc) : bool :=
  match x, threshold with
  | Some a, Some t => bool_decide (a ≤ t)%Qc
  | _, _ => false
  end.

(** [s.between(a, b)] on numbers. *)
Definition between_Z (a b : Z) (h : Qc) : bool :=
  bool_decide (Qc_of_Z a ≤ h)%Qc && bool_decide (h ≤ Qc_of_Z b)%Qc.

Definition hours_of (recommended : list (Qc * option Qc)) : list Z :=
  (fun r => Pandas.Qc_trunc (fst r)) <$> recommended.

Definition recommendation_section (hourly_filtered : nat) (role : Role) : M unit :=
  hf ← deref hourly_filtered;
  if negb (Pandas.empty hf) then
    avg_ridership ← lift (groupby_reset Pandas.num_of_cell Pandas.nanmean "hour" "ridership" hf);
    threshold ←
      match role with
      | Tourist =>
          let threshold := Pandas.quantile (Q2Qc (3 # 10)) (snd <$> avg_ridership) in
          let recommended := List.filter (fun r => le_nan (snd r) threshold) avg_ridership in
          render (TouristSuccess (hours_of recommended));;
          mret threshold
      | Worker =>
          let recommended :=
            List.filter (fun r => between_Z 7 9 (fst r) || between_Z 17 19 (fst r))
                        avg_ridership in
          render (WorkerInfo (hours_of recommended));;
          mret None
      end;
    render (RecChart avg_ridership
              (match role with
               | Tourist => threshold
               | Worker => Pandas.quantile (Q2Qc (7 # 10)) (snd <$> avg_ridership)
               end))
  else mret tt.

(** *** The page (lines 36-232) *)

(** [daily_df] and [hourly_df] are the two objects [load_data()] returns. *)
Definition daily_df : nat := 0.
Definition hourly_df : nat := 1.

Definition script (sel : Selection) : M unit :=
  (* sidebar: the selectors read day_type, line_tag and date *)
  hdf ← deref hourly_df;
  day_types ← lift (Pandas.getitem "day_type" hdf);
  line_tags ← lift (Pandas.getitem "line_tag" hdf);
  ddf ← deref daily_df;
  (* lines 59-66 *)
  mask ← lift (date_mask ddf (date_range sel));
  daily_filtered ← alloc (Pandas.getitem_mask mask ddf);
  hourly_filtered ← alloc (Pandas.getitem_mask
                             (Pandas.mask_and (eq_str (day_type sel) day_types)
                                              (eq_str (line sel) line_tags)) hdf);
  daily_filtered ← monthly_section daily_df daily_filtered sel;
  hourly_filtered ← hourly_section hourly_df sel;
  heatmap_section hourly_filtered;;
  recommendation_section hourly_filtered (role sel).

(** One run of the page on the loaded frames. *)
Definition run (daily hourly : DataFrame) (sel : Selection) : state * result unit :=
  script sel (mkState [daily; hourly] []).

End Script.

(** ** Loading (lines 23-34) *)

Section Loader.
Variable py_to_datetime : cell -> option Timestamp.

(** [df.columns = df.columns.str.strip().str.lower()] *)
Definition normalize_name (name : string) : string := PyStr.lower (PyStr.strip name).

Definition normalize_columns (df : DataFrame) : DataFrame :=
  mkDF ((fun c => (normalize_name (fst c), snd c)) <$> columns df) (rows df).

(** [if name in df.columns: df[name] = pd.to_datetime(df[name], errors="coerce")] *)
Definition parse_column (name : string) (df : DataFrame) : DataFrame :=
  if Pandas.has_column name df then
    match Pandas.getitem name df with
    | Ok s =>
        Pandas.setitem name datetime
          ((fun c => CTime (to_datetime_cell py_to_datetime c)) <$> values s) df
    | Raise _ => df
    end
  else df.

(** [load_data()] on the two frames [pd.read_csv] returns: the pair
    [(daily, hourly)]. *)
Definition load_data (daily hourly : DataFrame) : DataFrame * DataFrame :=
  let daily := normalize_columns daily in
  let hourly := normalize_columns hourly in
  let hourly := parse_column "time" hourly in
  let daily := parse_column "date" daily in
  (daily, hourly).

End Loader.

(** ** Sidebar defaults (lines 45-56) *)

(** [sorted(s.dropna().unique())] of a column of labels. *)
Fixpoint insert_option (x : string) (l : list string) : list string :=
  match l with
  | [] => [x]
  | y :: l' =>
      match str_compare x y with
      | Lt => x :: y :: l'
      | Eq => y :: l'
      | Gt => y :: insert_option x l'
      end
  end.

Definition options (s : Series) : list string :=
  foldr insert_option [] (omap label_of_cell (values s)).

(** [s.min()] and [s.max()] of a column of timestamps; NaT is skipped, and
    there is none (NaT) when the column holds no timestamp. *)
Definition ts_min (a b : Timestamp) : Timestamp := if ts_leb a b then a else b.
Definition ts_max (a b : Timestamp) : Timestamp := if ts_leb a b then b else a.

Definition series_min (s : Series) : option Timestamp :=
  match omap ts_of_cell (values s) with
  | [] => None
  | t :: ts => Some (foldr ts_min t ts)
  end.

Definition series_max (s : Series) : option Timestamp :=
  match omap ts_of_cell (values s) with
  | [] => None
  | t :: ts => Some (foldr ts_max t ts)
  end.

(** The calendar date of a timestamp, as [st.date_input] keeps it. *)
Definition date_of (t : Timestamp) : Date := mkDate (year t) (month t) (day t).

(** The date range the page starts with:
    [value=[daily_df["date"].min(), daily_df["date"].max()]]. *)
Definition default_date_range (df : DataFrame) : result (option (Date * Date)) :=
  result_bind (Pandas.getitem "date" df) (fun date =>
  Ok (a ← series_min date; b ← series_max date; Some (date_of a, date_of b))).

(** * Reference definitions *)

Local Open Scope Qc_scope.

(** ** The specification's wording *)

(** The percentile as the specification words it: for sorted values the
    index is [p * (n - 1)], and the result is interpolated between the
    values at the floor and at the ceiling of the index. *)
Definition spec_percentile (p : Qc) (sorted : list Qc) : Qc :=
  let index := p * (Pandas.Qc_of_nat (length sorted) - Qc_of_Z 1) in
  let below := nth (Z.to_nat (Qfloor index)) sorted (Qc_of_Z 0) in
  let above := nth (Z.to_nat (Qceiling index)) sorted (Qc_of_Z 0) in
  below + (index - Qc_of_Z (Qfloor index)) * (above - below).

(** Reference: sum and arithmetic mean. *)
Definition spec_sum (xs : list Qc) : Qc := foldr Qcplus 0 xs.

Definition spec_mean (xs : list Qc) : option Qc :=
  match xs with
  | [] => None
  | _ => Some (spec_sum xs / Qc_of_Z (Z.of_nat (length xs)))
  end.

(** Reference: the character classes of Python on the ASCII range, by code
    point, and what [str.strip()] followed by [str.lower()] makes of a
    label. *)
Definition space_code (n : nat) : Prop := (9 <= n <= 13)%nat \/ (28 <= n <= 32)%nat.
Definition upper_code (n : nat) : Prop := (65 <= n <= 90)%nat.

Definition ascii_label (s : string) : Prop :=
  Forall (fun c => (nat_of_ascii c < 128)%nat) (list_ascii_of_string s).

(** The lower-case letter of an upper-case letter is 32 code points up;
    every other character is kept. *)
Definition lowered_char (c c' : ascii) : Prop :=
  (upper_code (nat_of_ascii c) -> nat_of_ascii c' = (nat_of_ascii c + 32)%nat) /\
  (~ upper_code (nat_of_ascii c) -> c' = c).

(** [new] is [raw] without the white space at its ends and with its
    letters lower-cased. *)
Definition stripped_lowered (raw new : string) : Prop :=
  exists pre core post,
    list_ascii_of_string raw = pre ++ core ++ post /\
    Forall (fun c => space_code (nat_of_ascii c)) pre /\
    Forall (fun c => space_code (nat_of_ascii c)) post /\
    (forall c, head core = Some c -> ~ space_code (nat_of_ascii c)) /\
    (forall c, last core = Some c -> ~ space_code (nat_of_ascii c)) /\
    Forall2 lowered_char core (list_ascii_of_string new).

(** The normalized name contains the substring. *)
Definition named (sub c : string) : bool := PyStr.contains sub (PyStr.lower c).

(** The choice as the specification words it: a ridership-named numeric
    column first, then a passenger-named one, then the first numeric one. *)
Definition preferred_col (numeric_cols : list string) : option string :=
  match List.filter (named "ridership") numeric_cols with
  | c :: _ => Some c
  | [] =>
      match List.filter (named "passenger") numeric_cols with
      | c :: _ => Some c
      | [] => head numeric_cols
      end
  end.

(** The fixed commuting hours, 7-9 and 17-19. *)
Definition commute_hours : list Z := [7; 8; 9; 17; 18; 19]%Z.

(** ** Conditions on frames and cells *)

(** Every row has one cell per column. *)
Definition well_formed (df : DataFrame) : Prop :=
  Forall (fun r : row => length r = length (columns df)) (rows df).

(** An integer-valued number, as every value of a prepared [hour] column. *)
Definition integral (x : Qc) : Prop := x = Qc_of_Z (Pandas.Qc_trunc x).

(** What the hourly section stores in the [hour] column: an integer, or
    NaN. *)
Definition hour_cell (c : cell) : Prop :=
  exists o, c = CNum o /\ forall x, o = Some x -> integral x.

(** The line condition of the daily filter on one row: the row's line,
    as a lower-cased string, is the selected line, lower-cased; no condition
    when the frame has no [line] column. *)
Definition line_matches (py_str : cell -> string) (df : DataFrame) (line : string) (r : row) : bool :=
  match Pandas.col_index "line" (columns df) with
  | Some j => bool_decide (PyStr.lower (str_of_cell py_str (Pandas.cell_at j r)) = PyStr.lower line)
  | None => true
  end.

(** ** Example frames *)

(** Cells of the examples. *)
Definition ex_ts (y m d h : Z) : cell := CTime (Some (mkTs y m d h 0 0)).
Definition ex_num (z : Z) : cell := CNum (Some (Qc_of_Z z)).
Definition ex_str (x : string) : cell := CStr (Some x).

(** Conversions for frames whose cells all have the kind of their column;
    the script never calls them on such frames. *)
Definition no_str (c : cell) : string := "".
Definition no_datetime (c : cell) : option Timestamp := None.
Definition no_int (c : cell) : option Z := None.

(** A daily frame: two months of line A (once spelled in lower case), a
    row without a date, a row of line B. *)
Definition ex_daily : DataFrame :=
  mkDF [("date", datetime); ("line", object); ("ridership", number)]
    [ [ex_ts 2024 1 5 0; ex_str "A"; ex_num 10];
      [ex_ts 2024 1 20 0; ex_str "a"; ex_num 20];
      [ex_ts 2024 2 3 0; ex_str "A"; ex_num 30];
      [CTime None; ex_str "A"; ex_num 1000];
      [ex_ts 2024 2 4 0; ex_str "B"; ex_num 7] ].

(** A daily frame without any numeric column. *)
Definition ex_daily_no_numbers : DataFrame :=
  mkDF [("date", datetime); ("line", object)]
    [ [ex_ts 2024 1 5 0; ex_str "A"]; [ex_ts 2024 2 3 0; ex_str "A"] ].

(** An hourly frame: weekday rows of line A, one of them without a time,
    and a weekend row of line B. *)
Definition ex_hourly : DataFrame :=
  mkDF [("time", datetime); ("day_type", object); ("line_tag", object); ("ridership", number)]
    [ [ex_ts 2024 1 1 7; ex_str "Weekday"; ex_str "A"; ex_num 100];
      [ex_ts 2024 1 2 7; ex_str "Weekday"; ex_str "A"; ex_num 50];
      [ex_ts 2024 1 1 8; ex_str "Weekday"; ex_str "A"; ex_num 200];
      [CTime None; ex_str "Weekday"; ex_str "A"; ex_num 999];
      [ex_ts 2024 1 1 12; ex_str "Weekday"; ex_str "A"; ex_num 20];
      [ex_ts 2024 1 6 9; ex_str "Weekend"; ex_str "B"; ex_num 5] ].

(** The same frame with its count column named [passenger_count]. *)
Definition ex_hourly_passengers : DataFrame :=
  mkDF [("time", datetime); ("day_type", object); ("line_tag", object);
        ("passenger_count", number)]
    (rows ex_hourly).

(** The hourly frame of the example after the hourly section:
    filtered, with its [hour] column. *)
Definition ex_filtered_passengers : DataFrame :=
  mkDF [("time", datetime); ("day_type", object); ("line_tag", object);
        ("passenger_count", number); ("hour", number)]
    [ [ex_ts 2024 1 1 7; ex_str "Weekday"; ex_str "A"; ex_num 100; ex_num 7];
      [ex_ts 2024 1 2 7; ex_str "Weekday"; ex_str "A"; ex_num 50; ex_num 7];
      [ex_ts 2024 1 1 8; ex_str "Weekday"; ex_str "A"; ex_num 200; ex_num 8];
      [CTime None; ex_str "Weekday"; ex_str "A"; ex_num 999; CNum None];
      [ex_ts 2024 1 1 12; ex_str "Weekday"; ex_str "A"; ex_num 20; ex_num 12] ].

(** The filtered frame of the example, with its [hour] column. *)
Definition ex_filtered : DataFrame :=
  mkDF [("time", datetime); ("day_type", object); ("line_tag", object);
        ("ridership", number); ("hour", number)]
    (rows ex_filtered_passengers).

(** A frame with a passenger-named numeric column declared before a
    ridership-named one. *)
Definition two_candidates : DataFrame :=
  mkDF [("date", datetime); ("passenger_count", number); ("ridership_total", number)] [].

(** Selections over the whole year, and a run of the page that keeps what
    was rendered and how the run ended. *)
Definition ex_range : Date * Date := (mkDate 2024 1 1, mkDate 2024 12 31).

Definition ex_sel (r : Role) (d l : string) : Selection := mkSel r d l ex_range.

Definition ex_run (daily hourly : DataFrame) (sel : Selection) : list element * result unit :=
  let r := run no_str no_datetime no_int daily hourly sel in (rendered (fst r), snd r).

(** A state in which object 2 is the filtered hourly frame. *)
Definition ex_state : state := mkState [ex_daily; ex_hourly; ex_filtered] [].

(** * Properties *)

(** A closed decidable statement, by evaluation of its decision procedure. *)
Ltac by_compute :=
  lazymatch goal with
  | |- ?P => apply (bool_decide_eq_true_1 P); vm_compute; reflexivity
  end.

(** ** Key orders *)

Section KeyOrderFacts.
Context `{KeyOrder K}.

Lemma kcmp_refl (a : K) : kcmp a a = Eq.
Proof. by apply kcmp_eq. Qed.

Lemma kcmp_gt_lt (a b : K) : kcmp a b = Gt <-> kcmp b a = Lt.
Proof. rewrite (kcmp_antisym a b). destruct (kcmp a b); simpl; split; congruence. Qed.

(** [a <= b] in the key order. *)
Definition kle (a b : K) : Prop := kcmp a b <> Gt.
Definition klt (a b : K) : Prop := kcmp a b = Lt.

Lemma kle_trans (a b c : K) : kle a b -> kle b c -> kle a c.
Proof.
  unfold kle. intros Hab Hbc.
  destruct (kcmp a b) eqn:E1; [| |done].
  - apply kcmp_eq in E1 as ->. done.
  - destruct (kcmp b c) eqn:E2; [| |done].
    + apply kcmp_eq in E2 as <-. by rewrite E1.
    + by rewrite (kcmp_trans _ _ _ E1 E2).
Qed.

End KeyOrderFacts.

(** ** groupby *)

Section GroupByFacts.
Context `{KeyOrder K} {V : Type}.
Implicit Types (k : K) (v : V) (gs : list (K * list V)) (kvs : list (option K * V)).

(** The observations of a group, empty when the key has no group. *)
Fixpoint group_of k gs : list V :=
  match gs with
  | [] => []
  | (k', vs) :: gs' =>
      match kcmp k k' with
      | Eq => vs
      | _ => group_of k gs'
      end
  end.

(** The observations recorded under a key, in their order. *)
Fixpoint observed k kvs : list V :=
  match kvs with
  | [] => []
  | (Some k', v) :: kvs' =>
      match kcmp k k' with
      | Eq => v :: observed k kvs'
      | _ => observed k kvs'
      end
  | (None, _) :: kvs' => observed k kvs'
  end.

Definition ascending gs : Prop := StronglySorted (fun a b => klt (fst a) (fst b)) gs.
Definition inhabited gs : Prop := Forall (fun g => snd g <> []) gs.

Lemma group_of_below k gs :
  Forall (fun g => klt k (fst g)) gs -> group_of k gs = [].
Proof.
  induction 1 as [|[k' vs] gs Hk _ IH]; simpl; [done|].
  unfold klt in Hk; simpl in Hk. by rewrite Hk.
Qed.

Lemma insert_group_fst k v gs (P : K -> Prop) :
  P k -> Forall (fun g => P (fst g)) gs ->
  Forall (fun g => P (fst g)) (Pandas.insert_group k v gs).
Proof.
  intros Hk. induction 1 as [|[k' vs] gs Hk' Hgs IH]; simpl.
  - by repeat constructor.
  - destruct (kcmp k k'); repeat constructor; auto.
Qed.

Lemma insert_group_ascending k v gs :
  ascending gs -> ascending (Pandas.insert_group k v gs).
Proof.
  induction 1 as [|[k' vs] gs Hgs IH Hall]; simpl.
  - repeat constructor.
  - destruct (kcmp k k') eqn:E.
    + constructor; auto.
    + constructor; [by constructor|].
      constructor; [done|].
      eapply Forall_impl; [exact Hall|]. intros g Hg. simpl in *.
      unfold klt in *. eauto using kcmp_trans.
    + constructor; [done|].
      apply (insert_group_fst k v gs (fun x => klt k' x)); [|done].
      by apply kcmp_gt_lt.
Qed.

Lemma insert_group_inhabited k v gs :
  inhabited gs -> inhabited (Pandas.insert_group k v gs).
Proof.
  induction 1 as [|[k' vs] gs Hne Hgs IH]; simpl.
  - by repeat constructor.
  - destruct (kcmp k k'); repeat constructor; auto; simpl in *.
    by destruct vs.
Qed.

Lemma group_of_insert k v gs k0 :
  ascending gs ->
  group_of k0 (Pandas.insert_group k v gs) =
  group_of k0 gs ++ match kcmp k0 k with Eq => [v] | _ => [] end.
Proof.
  induction 1 as [|[k' vs] gs Hgs IH Hall]; simpl.
  - by destruct (kcmp k0 k).
  - destruct (kcmp k k') eqn:E; simpl.
    + apply kcmp_eq in E as ->.
      destruct (kcmp k0 k'); [done|by rewrite app_nil_r..].
    + destruct (kcmp k0 k) eqn:E0.
      * apply kcmp_eq in E0 as ->. rewrite E.
        rewrite group_of_below; [done|].
        eapply Forall_impl; [exact Hall|]. intros g Hg; simpl in *.
        unfold klt in *; eauto using kcmp_trans.
      * by rewrite app_nil_r.
      * by rewrite app_nil_r.
    + destruct (kcmp k0 k') eqn:E0; [|done..].
      apply kcmp_eq in E0 as ->. apply kcmp_gt_lt in E.
      rewrite E. by rewrite app_nil_r.
Qed.

Lemma groupby_fold kvs gs :
  ascending gs -> inhabited gs ->
  let gs' := fold_left (fun gs kv =>
                match fst kv with
                | Some k => Pandas.insert_group k (snd kv) gs
                | None => gs
                end) kvs gs in
  ascending gs' /\ inhabited gs' /\
  forall k, group_of k gs' = group_of k gs ++ observed k kvs.
Proof.
  revert gs; induction kvs as [|[[k|] v] kvs IH]; intros gs Hs Hi; simpl.
  - split_and!; [done..|]. intros; by rewrite app_nil_r.
  - destruct (IH (Pandas.insert_group k v gs)) as (Hs' & Hi' & Hg);
      [by apply insert_group_ascending|by apply insert_group_inhabited|].
    split_and!; [done..|]. intros k0. rewrite Hg, group_of_insert by done.
    rewrite <- app_assoc. by destruct (kcmp k0 k).
  - by apply IH.
Qed.

Lemma groupby_ascending kvs : ascending (Pandas.groupby kvs).
Proof. apply (groupby_fold kvs []); constructor. Qed.

Lemma groupby_inhabited kvs : inhabited (Pandas.groupby kvs).
Proof. apply (groupby_fold kvs []); constructor. Qed.

Lemma groupby_group_of kvs k : group_of k (Pandas.groupby kvs) = observed k kvs.
Proof. by destruct (groupby_fold kvs []) as (_ & _ & ->); [constructor..|]. Qed.

(** In an ascending list of groups a key names at most one group. *)
Lemma group_of_elem_of k vs gs :
  ascending gs -> (k, vs) ∈ gs -> group_of k gs = vs.
Proof.
  induction 1 as [|[k' vs'] gs Hgs IH Hall]; [by intros ?%elem_of_nil|].
  intros [[= <- <-]|Hin]%elem_of_cons; simpl.
  - by rewrite kcmp_refl.
  - destruct (kcmp k k') eqn:E; [|by auto..].
    apply kcmp_eq in E as ->.
    rewrite Forall_forall in Hall. specialize (Hall _ Hin). simpl in Hall.
    unfold klt in Hall. by rewrite kcmp_refl in Hall.
Qed.

Lemma elem_of_group_of k gs :
  group_of k gs <> [] -> (k, group_of k gs) ∈ gs.
Proof.
  induction gs as [|[k' vs] gs IH]; simpl; [done|].
  destruct (kcmp k k') eqn:E.
  - apply kcmp_eq in E as ->. intros _. left.
  - intros Hne. right. auto.
  - intros Hne. right. auto.
Qed.

(** The groups of [groupby]: one per key that was observed, holding the
    observations under that key. *)
Lemma groupby_elem_of kvs k vs :
  (k, vs) ∈ Pandas.groupby kvs <-> vs = observed k kvs /\ observed k kvs <> [].
Proof.
  split.
  - intros Hin.
    pose proof (group_of_elem_of _ _ _ (groupby_ascending kvs) Hin) as Hg.
    rewrite groupby_group_of in Hg. split; [done|].
    pose proof (groupby_inhabited kvs) as Hi.
    unfold inhabited in Hi. rewrite Forall_forall in Hi.
    rewrite Hg. apply (Hi _ Hin).
  - intros [-> Hne]. rewrite <- groupby_group_of.
    apply elem_of_group_of. by rewrite groupby_group_of.
Qed.

Lemma observed_nonempty k kvs :
  observed k kvs <> [] <-> exists v, (Some k, v) ∈ kvs.
Proof.
  induction kvs as [|[[k'|] v] kvs IH]; simpl.
  - split; [done|]. by intros [? ?%elem_of_nil].
  - destruct (kcmp k k') eqn:E.
    + apply kcmp_eq in E as ->. split; [|done]. intros _. exists v. left.
    + rewrite IH. split; intros [v' Hv']; exists v'; [by right|].
      apply elem_of_cons in Hv' as [[= -> ->]|]; [|done].
      by rewrite kcmp_refl in E.
    + rewrite IH. split; intros [v' Hv']; exists v'; [by right|].
      apply elem_of_cons in Hv' as [[= -> ->]|]; [|done].
      by rewrite kcmp_refl in E.
  - rewrite IH. split; intros [v' Hv']; exists v'; [by right|].
    by apply elem_of_cons in Hv' as [[= ]|].
Qed.

End GroupByFacts.

(** ** sort_values *)

Definition key_sorted `{KeyOrder K} {B} (l : list (K * B)) : Prop :=
  StronglySorted (fun a b => klt (fst a) (fst b)) l.

Lemma sort_values_sorted `{KeyOrder K} {B} (l : list (K * B)) :
  key_sorted l -> Pandas.sort_values l = l.
Proof.
  induction 1 as [|r l Hl IH Hall]; [done|].
  change (Pandas.sort_values (r :: l))
    with (Pandas.insert_sorted r (Pandas.sort_values l)).
  rewrite IH.
  destruct Hall as [|r' l' Hr' _]; simpl; [done|].
  unfold klt in Hr'. by rewrite Hr'.
Qed.

Lemma groupby_agg_sorted `{KeyOrder K} {B} (agg : list (option Qc) -> B) keys vals :
  key_sorted (Pandas.groupby_agg agg keys vals).
Proof.
  unfold Pandas.groupby_agg, key_sorted.
  pose proof (groupby_ascending (zip keys vals)) as Hs.
  unfold ascending in Hs.
  induction Hs as [|g gs Hgs IH Hall]; simpl; constructor; [done|].
  rewrite Forall_fmap. eapply Forall_impl; [exact Hall|]. by intros.
Qed.

(** ** idxmax *)

Definition first_max (vs : list (option Qc)) (j : nat) (m : Qc) : Prop :=
  vs !! j = Some (Some m) /\
  forall p x, vs !! p = Some (Some x) -> x ≤ m /\ ((p < j)%nat -> x < m).

Lemma idxmax_from_spec vs : forall best i,
  match Pandas.idxmax_from best i vs with
  | None => best = None /\ Forall (fun v => v = None) vs
  | Some (j, m) =>
      (best = Some (j, m) /\ forall x, Some x ∈ vs -> x ≤ m) \/
      ((i <= j)%nat /\ first_max vs (j - i) m /\ forall b, best = Some b -> snd b < m)
  end.
Proof.
  induction vs as [|[x|] vs IH]; intros best i; simpl.
  - destruct best as [[j m]|]; [|done]. left. split; [done|].
    by intros x ?%elem_of_nil.
  - assert (Hnew : match Pandas.idxmax_from (Some (i, x)) (S i) vs with
                   | None => False
                   | Some (j, m) =>
                       (i <= j)%nat /\ first_max (Some x :: vs) (j - i) m /\ x ≤ m
                   end).
    { specialize (IH (Some (i, x)) (S i)).
      destruct (Pandas.idxmax_from (Some (i, x)) (S i) vs) as [[j m]|];
        [|by destruct IH].
      destruct IH as [[[= <- <-] Hle]|(Hij & [Hl Hmax] & Hb)].
      - split; [lia|]. rewrite Nat.sub_diag. split; [|apply Qcle_refl].
        split; [done|]. intros [|p] y; simpl.
        + intros [= ->]. split; [apply Qcle_refl|lia].
        + intros Hy. split; [|lia]. apply Hle. eapply list_elem_of_lookup_2, Hy.
      - specialize (Hb _ eq_refl); simpl in Hb.
        split; [lia|]. replace (j - i)%nat with (S (j - S i)) by lia.
        split; [|by apply Qclt_le_weak].
        split; [done|]. intros [|p] y; simpl.
        + intros [= ->]. split; [by apply Qclt_le_weak|done].
        + intros Hy. destruct (Hmax _ _ Hy). split; [done|]. intros; auto with lia. }
    destruct best as [[bi bm]|].
    + destruct (decide (bm < x)) as [Hlt|Hge].
      * destruct (Pandas.idxmax_from (Some (i, x)) (S i) vs) as [[j m]|]; [|done].
        destruct Hnew as (? & ? & ?). right. split_and!; [done..|].
        intros b [= <-]; simpl. eapply Qclt_le_trans; eauto.
      * apply Qcnot_lt_le in Hge.
        specialize (IH (Some (bi, bm)) (S i)).
        destruct (Pandas.idxmax_from (Some (bi, bm)) (S i) vs) as [[j m]|];
          [|by destruct IH].
        destruct IH as [[[= <- <-] Hle]|(Hij & [Hl Hmax] & Hb)].
        -- left. split; [done|]. intros y [[= ->]|Hy]%elem_of_cons; auto.
        -- specialize (Hb _ eq_refl); simpl in Hb. right.
           split; [lia|]. replace (j - i)%nat with (S (j - S i)) by lia.
           split; [|by intros b [= <-]].
           split; [done|]. intros [|p] y; simpl.
           ++ intros [= ->].
              assert (y < m) by (eapply Qcle_lt_trans; eauto).
              split; [by apply Qclt_le_weak|done].
           ++ intros Hy. destruct (Hmax _ _ Hy). split; [done|]. intros; auto with lia.
    + destruct (Pandas.idxmax_from (Some (i, x)) (S i) vs) as [[j m]|]; [|done].
      destruct Hnew as (? & ? & ?). right. by split_and!.
  - specialize (IH best (S i)).
    destruct (Pandas.idxmax_from best (S i) vs) as [[j m]|].
    + destruct IH as [[-> Hle]|(Hij & [Hl Hmax] & Hb)].
      * left. split; [done|]. intros y [[= ]|Hy]%elem_of_cons; auto.
      * right. split; [lia|]. replace (j - i)%nat with (S (j - S i)) by lia.
        split; [|done]. split; [done|]. intros [|p] y; simpl; [done|].
        intros Hy. destruct (Hmax _ _ Hy). split; [done|]. intros; auto with lia.
    + destruct IH as [-> Hall]. split; [done|]. by constructor.
Qed.

(** [idxmax] returns the first position of the largest number; it raises
    exactly when the series holds no number. *)
Lemma idxmax_spec vs :
  match Pandas.idxmax vs with
  | Ok j => exists m, first_max vs j m
  | Raise _ => Forall (fun v => v = None) vs
  end.
Proof.
  unfold Pandas.idxmax. pose proof (idxmax_from_spec vs None 0%nat) as Hs.
  destruct (Pandas.idxmax_from None 0 vs) as [[j m]|].
  - destruct Hs as [[[= ] _]|(_ & Hm & _)]. rewrite Nat.sub_0_r in Hm. eauto.
  - by destruct Hs.
Qed.

(** ** Sorting and quantiles *)

Lemma insert_Qc_perm x l : Pandas.insert_Qc x l ≡ₚ x :: l.
Proof.
  induction l as [|y l IH]; simpl; [done|].
  destruct (decide (x ≤ y)); [done|]. rewrite IH. apply Permutation_swap.
Qed.

Lemma sort_Qc_perm l : Pandas.sort_Qc l ≡ₚ l.
Proof.
  induction l as [|x l IH]; simpl; [done|].
  change (Pandas.insert_Qc x (Pandas.sort_Qc l) ≡ₚ x :: l).
  by rewrite insert_Qc_perm, IH.
Qed.

Lemma insert_Qc_sorted x l : Sorted Qcle l -> Sorted Qcle (Pandas.insert_Qc x l).
Proof.
  induction 1 as [|y l Hl IH Hy]; simpl; [by repeat constructor|].
  destruct (decide (x ≤ y)) as [Hxy|Hxy].
  - by repeat constructor.
  - apply Qcnot_le_lt, Qclt_le_weak in Hxy.
    constructor; [done|].
    destruct Hy as [|z l Hz]; simpl; [by constructor|].
    destruct (decide (x ≤ z)); by constructor.
Qed.

Lemma sort_Qc_sorted l : Sorted Qcle (Pandas.sort_Qc l).
Proof.
  induction l as [|x l IH]; [constructor|].
  by apply insert_Qc_sorted.
Qed.

Lemma sort_Qc_length l : length (Pandas.sort_Qc l) = length l.
Proof. by rewrite sort_Qc_perm. Qed.

Lemma Qc_of_Z_this z : this (Qc_of_Z z) = inject_Z z.
Proof. reflexivity. Qed.

Lemma this_plus (a b : Qc) : (this (a + b) == this a + this b)%Q.
Proof. apply Qred_correct. Qed.
Lemma this_mult (a b : Qc) : (this (a * b) == this a * this b)%Q.
Proof. apply Qred_correct. Qed.
Lemma this_opp (a : Qc) : (this (- a) == - this a)%Q.
Proof. apply Qred_correct. Qed.
Lemma this_minus (a b : Qc) : (this (a - b) == this a - this b)%Q.
Proof. unfold Qcminus. rewrite this_plus, this_opp. reflexivity. Qed.

Lemma Qceiling_floor (x : Q) :
  Qceiling x = Qfloor x \/ (Qceiling x = (Qfloor x + 1)%Z /\ ~ (x == inject_Z (Qfloor x))%Q).
Proof.
  pose proof (Qfloor_le x) as H1. pose proof (Qlt_floor x) as H2.
  pose proof (Qle_ceiling x) as H3. pose proof (Qceiling_lt x) as H4.
  assert (Qfloor x <= Qceiling x)%Z as H6.
  { rewrite Zle_Qle. by eapply Qle_trans. }
  assert (Qceiling x - 1 < Qfloor x + 1)%Z as H5.
  { rewrite Zlt_Qlt. by eapply Qlt_trans. }
  destruct (decide (Qceiling x = Qfloor x)) as [|Hne]; [by left|right].
  split; [lia|]. intros Heq. rewrite Heq in H4 at 2.
  rewrite <- Zlt_Qlt in H4. lia.
Qed.

Lemma quantile_spec_percentile (q : Qc) (vs : list (option Qc)) :
  Qc_of_Z 0 ≤ q -> q ≤ Qc_of_Z 1 -> Pandas.dropna vs <> [] ->
  Pandas.quantile q vs = Some (spec_percentile q (Pandas.sort_Qc (Pandas.dropna vs))).
Proof.
  intros Hq0 Hq1 Hne. unfold Pandas.quantile, spec_percentile.
  generalize (sort_Qc_length (Pandas.dropna vs)).
  generalize (Pandas.sort_Qc (Pandas.dropna vs)). intros arr Harr.
  assert (Hlen : (1 <= length arr)%nat).
  { rewrite Harr. destruct (Pandas.dropna vs); [done|simpl; lia]. }
  assert (Hm : forall e : Qc,
    match arr with [] => None | _ :: _ => Some e end = Some e).
  { intros e. destruct arr; [simpl in Hlen; lia|done]. }
  rewrite Hm. f_equal. clear Hm Harr Hne.
  generalize dependent (length arr). intros n Hlen.
  set (x := q * (Pandas.Qc_of_nat n - Qc_of_Z 1)).
  assert (Hn : (this (Pandas.Qc_of_nat n - Qc_of_Z 1) == inject_Z (Z.of_nat n - 1))%Q).
  { rewrite this_minus. unfold Pandas.Qc_of_nat. rewrite !Qc_of_Z_this.
    replace (Z.of_nat n - 1)%Z with (Z.of_nat n + (-1))%Z by lia.
    rewrite inject_Z_plus. reflexivity. }
  assert (Hm0 : (0 <= inject_Z (Z.of_nat n - 1))%Q).
  { change 0%Q with (inject_Z 0). rewrite <- Zle_Qle. lia. }
  unfold Qcle in Hq0, Hq1. rewrite Qc_of_Z_this in Hq0, Hq1.
  change (inject_Z 0) with 0%Q in Hq0. change (inject_Z 1) with 1%Q in Hq1.
  assert (Hx : (this x == this q * inject_Z (Z.of_nat n - 1))%Q).
  { unfold x. by rewrite this_mult, Hn. }
  assert (Hx0 : (0 <= this x)%Q) by (rewrite Hx; by apply Qmult_le_0_compat).
  assert (Hx1 : (this x <= inject_Z (Z.of_nat n - 1))%Q).
  { rewrite Hx. rewrite <- (Qmult_1_l (inject_Z (Z.of_nat n - 1))) at 2.
    by apply Qmult_le_compat_r. }
  clearbody x. clear Hx Hn.
  assert (Hf0 : (0 <= Qfloor x)%Z).
  { change 0%Z with (Qfloor 0). by apply Qfloor_resp_le. }
  destruct (Qceiling_floor x) as [Hc|[Hc Hfrac]].
  - (* the index is an integer *)
    assert (Hg : x - Qc_of_Z (Qfloor x) = 0).
    { apply Qc_is_canon. rewrite this_minus, !Qc_of_Z_this.
      assert (this x == inject_Z (Qfloor x))%Q as Heq.
      { apply Qle_antisym; [rewrite <- Hc; apply Qle_ceiling|apply Qfloor_le]. }
      transitivity (inject_Z (Qfloor x) - inject_Z (Qfloor x))%Q;
        [|apply Qplus_opp_r].
      apply Qplus_comp; [exact Heq|reflexivity]. }
    rewrite Hg. ring.
  - rewrite Hc.
    assert (Hc1 : (Qceiling x <= Z.of_nat n - 1)%Z).
    { assert (Qceiling x - 1 < Z.of_nat n - 1)%Z; [|lia].
      rewrite Zlt_Qlt. eapply Qlt_le_trans; [apply Qceiling_lt|done]. }
    replace (Z.to_nat (Qfloor x + 1)) with (Z.to_nat (Qfloor x) + 1)%nat by lia.
    rewrite Nat.min_l by lia. done.
Qed.

(** ** Masks and columns *)

Lemma filter_mask_fmap {A} (p : A -> bool) (l : list A) :
  Pandas.filter_mask (p <$> l) l = List.filter p l.
Proof.
  induction l as [|x l IH]; [done|]. cbn.
  destruct (p x); [f_equal|]; exact IH.
Qed.

Lemma mask_and_fmap {A} (p q : A -> bool) (l : list A) :
  Pandas.mask_and (p <$> l) (q <$> l) = (fun x => p x && q x) <$> l.
Proof.
  induction l as [|x l IH]; [done|]. cbn. f_equal. exact IH.
Qed.

Lemma getitem_Some name df i :
  Pandas.col_index name (columns df) = Some i ->
  Pandas.getitem name df =
  Ok (mkSeries (nth i (snd <$> columns df) object) (Pandas.cell_at i <$> rows df)).
Proof. unfold Pandas.getitem. by intros ->. Qed.

Lemma has_column_true name df :
  Pandas.has_column name df = true <-> exists i, Pandas.col_index name (columns df) = Some i.
Proof. unfold Pandas.has_column. rewrite bool_decide_eq_true. done. Qed.

Lemma has_column_false name df :
  Pandas.has_column name df = false <-> Pandas.col_index name (columns df) = None.
Proof.
  unfold Pandas.has_column. rewrite bool_decide_eq_false.
  destruct (Pandas.col_index name (columns df)); split; try done.
  intros []; eauto.
Qed.

Lemma elem_of_List_filter {A} (p : A -> bool) l x :
  x ∈ List.filter p l <-> x ∈ l /\ p x = true.
Proof. rewrite !list_elem_of_In. apply filter_In. Qed.

(** ** Timestamps *)

Lemma ts_leb_trans a b c : ts_leb a b = true -> ts_leb b c = true -> ts_leb a c = true.
Proof.
  unfold ts_leb. intros Hab Hbc.
  assert (kle a c) as Hac.
  { apply (kle_trans a b c); unfold kle; simpl.
    - by destruct (ts_compare a b).
    - by destruct (ts_compare b c). }
  unfold kle in Hac; simpl in Hac. by destruct (ts_compare a c).
Qed.

Lemma ts_leb_false a b : ts_compare a b = Gt -> ts_leb a b = false.
Proof. unfold ts_leb. by intros ->. Qed.

(** ** Column auto-detection *)

Lemma filter_first {A} (p : A -> bool) l c rest :
  List.filter p l = c :: rest ->
  exists before after, l = before ++ c :: after /\ p c = true /\
                       Forall (fun x => p x = false) before.
Proof.
  induction l as [|x l IH]; simpl; [done|].
  destruct (p x) eqn:Hx.
  - intros [= -> <-]. exists [], l. by split_and!.
  - intros (before & after & -> & Hc & Hb)%IH.
    exists (x :: before), after. split_and!; [done..|]. by constructor.
Qed.

Lemma filter_nil_Forall {A} (p : A -> bool) l :
  List.filter p l = [] -> Forall (fun x => p x = false) l.
Proof.
  induction l as [|x l IH]; simpl; [constructor|].
  destruct (p x) eqn:Hx; [done|]. intros. constructor; auto.
Qed.

(** C1, as stated, fails: with a passenger-named numeric column declared
    before a ridership-named one, the script picks the passenger-named
    column, not the ridership-named one the stated preference selects. *)
Lemma detection_prefers_declared_order :
  Pandas.select_dtypes_number two_candidates = ["passenger_count"; "ridership_total"] /\
  pick_ridership_col (Pandas.select_dtypes_number two_candidates) = Ok "passenger_count" /\
  preferred_col (Pandas.select_dtypes_number two_candidates) = Some "ridership_total".
Proof. by vm_compute. Qed.

(** C1, amended: among the numeric columns in declared order the script
    picks the first one whose lower-cased name contains "ridership" or
    "passenger" (no preference between the two), and the first numeric
    column when no name matches. *)
Theorem detection_first_match (df : DataFrame) :
  Pandas.select_dtypes_number df <> [] ->
  exists c before after,
    pick_ridership_col (Pandas.select_dtypes_number df) = Ok c /\
    Pandas.select_dtypes_number df = before ++ c :: after /\
    Forall (fun x => ridership_like x = false) before /\
    (ridership_like c = true \/
     (before = [] /\ Forall (fun x => ridership_like x = false) after)).
Proof.
  intros Hne. unfold pick_ridership_col.
  destruct (List.filter ridership_like (Pandas.select_dtypes_number df))
    as [|c rest] eqn:Hf.
  - apply filter_nil_Forall in Hf.
    destruct (Pandas.select_dtypes_number df) as [|c after]; [done|].
    exists c, [], after. inversion Hf; subst. split_and!; auto.
  - apply filter_first in Hf as (before & after & -> & Hc & Hb).
    exists c, before, after. split_and!; auto.
Qed.

Lemma detection_first_match_witness :
  Pandas.select_dtypes_number two_candidates <> [] /\
  exists c before after,
    pick_ridership_col (Pandas.select_dtypes_number two_candidates) = Ok c /\
    Pandas.select_dtypes_number two_candidates = before ++ c :: after /\
    Forall (fun x => ridership_like x = false) before /\
    (ridership_like c = true \/
     (before = [] /\ Forall (fun x => ridership_like x = false) after)).
Proof.
  split; [by vm_compute|].
  apply (detection_first_match two_candidates). by vm_compute.
Defined.

Section Filters.
Variable py_str : cell -> string.

(** C7: the rows of the date-filtered daily frame are exactly the rows
    whose date is a timestamp between the start and the end date, both
    included, and whose line matches when the frame has a line column; they
    keep their order; a row with a null date is never kept; the result is
    empty, not an error, when the start date is after the end date. *)
Theorem daily_filter_range (df : DataFrame) (line : string) (start finish : Date) (i : nat) :
  Pandas.col_index "date" (columns df) = Some i ->
  nth i (snd <$> columns df) object = datetime ->
  exists kept,
    daily_filter py_str df line (start, finish) = Ok (mkDF (columns df) kept) /\
    kept = List.filter (fun r => in_range (to_datetime_date start) (to_datetime_date finish)
                                          (Pandas.cell_at i r) && line_matches py_str df line r)
                       (rows df) /\
    (forall r, r ∈ kept <->
       r ∈ rows df /\
       (exists t, Pandas.cell_at i r = CTime (Some t) /\
                  ts_leb (to_datetime_date start) t = true /\
                  ts_leb t (to_datetime_date finish) = true) /\
       line_matches py_str df line r = true) /\
    (forall r, r ∈ kept -> Pandas.cell_at i r <> CTime None) /\
    (ts_compare (to_datetime_date start) (to_datetime_date finish) = Gt -> kept = []).
Proof.
  intros Hdate Hdt.
  set (a := to_datetime_date start). set (b := to_datetime_date finish).
  set (p := fun r => in_range a b (Pandas.cell_at i r) && line_matches py_str df line r).
  assert (Hp : forall r, p r = true <->
            (exists t, Pandas.cell_at i r = CTime (Some t) /\
                       ts_leb a t = true /\ ts_leb t b = true) /\
            line_matches py_str df line r = true).
  { intros r. unfold p, in_range, ts_of_cell. rewrite andb_true_iff.
    destruct (Pandas.cell_at i r) as [?|[t|]|?]; simpl.
    - split; [by intros []|]. by intros [(? & ? & _) _].
    - rewrite andb_true_iff. split.
      + intros [[] ?]. split; [|done]. by exists t.
      + by intros [(? & [= <-] & ? & ?) ?].
    - split; [by intros []|]. by intros [(? & ? & _) _].
    - split; [by intros []|]. by intros [(? & ? & _) _]. }
  exists (List.filter p (rows df)).
  split_and!.
  - unfold daily_filter, date_mask.
    rewrite (getitem_Some _ _ _ Hdate). simpl. unfold between_ts. simpl. rewrite Hdt. simpl.
    unfold p, line_matches.
    destruct (Pandas.has_column "line" df) eqn:Hline.
    + apply has_column_true in Hline as [j Hj]. rewrite Hj.
      rewrite (getitem_Some _ _ _ Hj). simpl. unfold eq_lower. simpl.
      rewrite <- !list_fmap_compose.
      rewrite mask_and_fmap. unfold Pandas.getitem_mask. by rewrite filter_mask_fmap.
    + apply has_column_false in Hline. rewrite Hline.
      unfold Pandas.getitem_mask. rewrite <- list_fmap_compose, filter_mask_fmap.
      do 2 f_equal. apply filter_ext. intros r. by rewrite andb_true_r.
  - done.
  - intros r. rewrite elem_of_List_filter, Hp. tauto.
  - intros r [_ Hr]%elem_of_List_filter. apply Hp in Hr as [(t & -> & _) _]. done.
  - intros Hgt. apply ts_leb_false in Hgt.
    destruct (List.filter p (rows df)) as [|r l] eqn:Hf; [done|].
    assert (r ∈ List.filter p (rows df)) as Hr by (rewrite Hf; left).
    apply elem_of_List_filter in Hr as [_ Hr].
    apply Hp in Hr as [(t & _ & Hat & Htb) _].
    rewrite (ts_leb_trans _ _ _ Hat Htb) in Hgt. done.
Qed.

End Filters.

Lemma daily_filter_range_witness :
  exists kept,
    daily_filter no_str ex_daily "A" (mkDate 2024 1 1, mkDate 2024 1 31)
    = Ok (mkDF (columns ex_daily) kept) /\
    kept = [ [ex_ts 2024 1 5 0; ex_str "A"; ex_num 10];
             [ex_ts 2024 1 20 0; ex_str "a"; ex_num 20] ].
Proof.
  destruct (daily_filter_range no_str ex_daily "A" (mkDate 2024 1 1) (mkDate 2024 1 31) 0%nat)
    as (kept & Hk & -> & _); [reflexivity|reflexivity|].
  eexists. split; [exact Hk|]. reflexivity.
Defined.

(** ** Running the script's monad *)

Lemma bind_run {A B} (m : M A) (f : A -> M B) s :
  (m ≫= f) s =
  match m s with
  | (s', Ok a) => f a s'
  | (s', Raise e) => (s', Raise e)
  end.
Proof. reflexivity. Qed.

Lemma deref_run r df s : heap s !! r = Some df -> deref r s = (s, Ok df).
Proof. unfold deref. by intros ->. Qed.

(** ** The loaded frames are never written *)

Section Loaded.
Variables daily hourly : DataFrame.

(** The two objects returned by [load_data()] hold the loaded frames. *)
Definition loaded (s : state) : Prop :=
  heap s !! daily_df = Some daily /\ heap s !! hourly_df = Some hourly.

(** [m] keeps the loaded frames as they are, also when it raises, and
    returns a value satisfying [Q]. *)
Definition keeps {A} (m : M A) (Q : A -> Prop) : Prop :=
  forall s, loaded s ->
    match m s with
    | (s', Ok a) => loaded s' /\ Q a
    | (s', Raise _) => loaded s'
    end.

Lemma keeps_ret {A} (a : A) : keeps (mret a) (fun _ => True).
Proof. by intros s Hs. Qed.

Lemma keeps_bind {A B} (m : M A) (f : A -> M B) P Q :
  keeps m P -> (forall a, P a -> keeps (f a) Q) -> keeps (m ≫= f) Q.
Proof.
  intros Hm Hf s Hs. rewrite bind_run. specialize (Hm s Hs).
  destruct (m s) as [s' [a|e]]; [|done]. destruct Hm as [Hs' Ha].
  by apply Hf.
Qed.

Lemma keeps_weaken {A} (m : M A) (P Q : A -> Prop) :
  keeps m P -> (forall a, P a -> Q a) -> keeps m Q.
Proof.
  intros Hm HPQ s Hs. specialize (Hm s Hs).
  destruct (m s) as [s' [a|e]]; [|done]. destruct Hm. auto.
Qed.

Lemma keeps_lift {A} (r : result A) : keeps (lift r) (fun _ => True).
Proof. intros s Hs. unfold lift. by destruct r. Qed.

Lemma keeps_deref r : keeps (deref r) (fun _ => True).
Proof. intros s Hs. unfold deref. by destruct (heap s !! r). Qed.

Lemma keeps_render e : keeps (render e) (fun _ => True).
Proof. by intros s Hs. Qed.

Lemma loaded_length s : loaded s -> (2 <= length (heap s))%nat.
Proof. intros [_ H%lookup_lt_Some]. unfold hourly_df in H. lia. Qed.

(** A new object is none of the loaded ones. *)
Lemma keeps_alloc df : keeps (alloc df) (fun r => (2 <= r)%nat).
Proof.
  intros s Hs. pose proof (loaded_length s Hs). destruct Hs as [Hd Hh].
  unfold alloc, loaded; simpl. split; [|done].
  split; apply lookup_app_l_Some; done.
Qed.

(** Writing to an object other than the loaded ones. *)
Lemma keeps_assign r df : (2 <= r)%nat -> keeps (assign r df) (fun _ => True).
Proof.
  intros Hr s [Hd Hh]. unfold assign, loaded; simpl. split; [|done].
  unfold daily_df, hourly_df in *.
  split; rewrite list_lookup_insert_ne by lia; done.
Qed.

Lemma keeps_if {A} (b : bool) (m1 m2 : M A) Q :
  keeps m1 Q -> keeps m2 Q -> keeps (if b then m1 else m2) Q.
Proof. by destruct b. Qed.

End Loaded.

Ltac keeps_step :=
  lazymatch goal with
  | |- keeps _ _ (mret _) _ => apply keeps_ret
  | |- keeps _ _ (_ ≫= _) _ => eapply keeps_bind; [|intros ? ?]
  | |- keeps _ _ (lift _) _ => apply keeps_lift
  | |- keeps _ _ (deref _) _ => apply keeps_deref
  | |- keeps _ _ (render _) _ => apply keeps_render
  | |- keeps _ _ (alloc _) _ => apply keeps_alloc
  | |- keeps _ _ (assign _ _) _ => by apply keeps_assign
  | |- keeps _ _ (if _ then _ else _) _ => apply keeps_if
  end.

Ltac keeps_auto := repeat keeps_step.

Section LoadedScript.
Variable py_str : cell -> string.
Variable py_to_datetime : cell -> option Timestamp.
Variable py_int : cell -> option Z.
Variables daily hourly : DataFrame.

Lemma keeps_monthly_section r0 sel :
  keeps daily hourly (monthly_section py_str daily_df r0 sel) (fun _ => True).
Proof. unfold monthly_section. keeps_auto. Qed.

Lemma keeps_prepare_hour r :
  (2 <= r)%nat ->
  keeps daily hourly (prepare_hour py_to_datetime py_int r) (fun _ => True).
Proof. intros Hr. unfold prepare_hour. keeps_auto. Qed.

Lemma keeps_hourly_section sel :
  keeps daily hourly (hourly_section py_str py_to_datetime py_int hourly_df sel)
        (fun _ => True).
Proof.
  unfold hourly_section. keeps_auto. by apply keeps_prepare_hour.
Qed.

Lemma keeps_heatmap_section r : keeps daily hourly (heatmap_section r) (fun _ => True).
Proof. unfold heatmap_section. keeps_auto. Qed.

Lemma keeps_recommendation_section r role :
  keeps daily hourly (recommendation_section r role) (fun _ => True).
Proof. unfold recommendation_section. destruct role; keeps_auto. Qed.

Lemma keeps_script sel :
  keeps daily hourly (script py_str py_to_datetime py_int sel) (fun _ => True).
Proof.
  unfold script. keeps_auto.
  - eapply keeps_weaken; [apply keeps_monthly_section|done].
  - eapply keeps_weaken; [apply keeps_hourly_section|done].
  - eapply keeps_weaken; [apply keeps_heatmap_section|done].
  - apply keeps_recommendation_section.
Qed.

(** A session: the page is rerun for each selection of [history], every
    run starting from the two cached frame objects as the run before left
    them; the result is the cache after the last run. *)
Definition session (history : list Selection) : list DataFrame :=
  foldl (fun cache sel =>
           take 2 (heap (fst (script py_str py_to_datetime py_int sel (mkState cache [])))))
        [daily; hourly] history.

Lemma loaded_take s : loaded daily hourly s -> take 2 (heap s) = [daily; hourly].
Proof.
  intros [Hd Hh]. unfold daily_df, hourly_df in *.
  destruct (heap s) as [|d [|h l]]; by simplify_eq/=.
Qed.

(** C9: a run leaves the two loaded frames as they were, whatever the
    selections and whether or not the run raises; so after any history of
    runs the cache still holds the loaded frames, and a run gives what a run
    on the freshly loaded frames gives. *)
Theorem loaded_frames_never_mutated (history : list Selection) (sel : Selection) :
  let s' := fst (run py_str py_to_datetime py_int daily hourly sel) in
  heap s' !! daily_df = Some daily /\
  heap s' !! hourly_df = Some hourly /\
  session history = [daily; hourly] /\
  script py_str py_to_datetime py_int sel (mkState (session history) [])
  = run py_str py_to_datetime py_int daily hourly sel.
Proof.
  assert (Hrun : forall sel0,
    loaded daily hourly (fst (run py_str py_to_datetime py_int daily hourly sel0))).
  { intros sel0. unfold run.
    pose proof (keeps_script sel0 (mkState [daily; hourly] [])) as Hk.
    destruct (script _ _ _ sel0 _) as [s' [[]|e]]; simpl; apply Hk; by split. }
  assert (Hsession : forall h, session h = [daily; hourly]).
  { unfold session. intros h. induction h as [|sel0 h IH] using rev_ind; [done|].
    rewrite foldl_snoc, IH. apply loaded_take, Hrun. }
  simpl. split_and!; [apply Hrun..|apply Hsession|by rewrite Hsession].
Qed.

End LoadedScript.

(** ** Column auto-detection: totality and the daily guard *)

Section Detection.
Variable py_str : cell -> string.

(** C8, amended: detection never raises when there is a numeric column
    (both sections use the same expression); for a daily frame without any
    numeric column the monthly section emits its own warning, different from
    the no-data warning, renders nothing else, and returns normally. *)
Theorem detection_total_daily_guard (df : DataFrame) :
  (Pandas.select_dtypes_number df <> [] ->
   exists c, pick_ridership_col (Pandas.select_dtypes_number df) = Ok c /\
             c ∈ Pandas.select_dtypes_number df) /\
  (Pandas.select_dtypes_number df = [] ->
   forall s r sel, heap s !! daily_df = Some df ->
     monthly_section py_str daily_df r sel s
     = (mkState (heap s) (rendered s ++ [Warning NoNumericDaily]), Ok r)) /\
  Warning NoNumericDaily <> Warning NoMonthlyData.
Proof.
  split_and!; [| |done].
  - intros Hne. unfold pick_ridership_col.
    destruct (List.filter ridership_like (Pandas.select_dtypes_number df))
      as [|c rest] eqn:Hf.
    + destruct (Pandas.select_dtypes_number df) as [|c l]; [done|].
      exists c. split; [done|left].
    + exists c. split; [done|].
      assert (c ∈ List.filter ridership_like (Pandas.select_dtypes_number df)) as Hc
        by (rewrite Hf; left).
      by apply elem_of_List_filter in Hc as [? _].
  - intros Hnone s r sel Hs. unfold monthly_section.
    rewrite bind_run, (deref_run _ _ _ Hs). rewrite Hnone. simpl. done.
Qed.

End Detection.

(** C8, as stated, fails on the daily path: a daily frame without numeric
    columns is not fatal.  The page only shows a warning, goes on with the
    hourly sections and ends normally. *)
Lemma no_numeric_daily_is_not_fatal :
  Pandas.select_dtypes_number ex_daily_no_numbers = [] /\
  snd (ex_run ex_daily_no_numbers ex_hourly (ex_sel Worker "Weekday" "A")) = Ok tt /\
  exists rest,
    fst (ex_run ex_daily_no_numbers ex_hourly (ex_sel Worker "Weekday" "A"))
    = Warning NoNumericDaily :: rest /\ WorkerInfo [7; 8] ∈ rest.
Proof.
  split; [reflexivity|]. split; [by vm_compute|].
  eexists. split; [by vm_compute|].
  do 4 right. left.
Qed.

Lemma detection_total_daily_guard_witness :
  (exists c, pick_ridership_col (Pandas.select_dtypes_number ex_daily) = Ok c /\
             c ∈ Pandas.select_dtypes_number ex_daily) /\
  monthly_section no_str daily_df 7 (ex_sel Worker "Weekday" "A")
    (mkState [ex_daily_no_numbers; ex_hourly] [])
  = (mkState [ex_daily_no_numbers; ex_hourly] [Warning NoNumericDaily], Ok 7%nat).
Proof.
  split.
  - apply (detection_total_daily_guard no_str ex_daily). by vm_compute.
  - apply (detection_total_daily_guard no_str ex_daily_no_numbers);
      reflexivity.
Defined.

(** ** The hard-coded [ridership] column *)

Lemma getitem_None name df :
  Pandas.has_column name df = false -> Pandas.getitem name df = Raise (KeyError name).
Proof. intros Hc%has_column_false. unfold Pandas.getitem. by rewrite Hc. Qed.

Lemma pivot_table_no_values v i c df :
  Pandas.has_column v df = false -> pivot_table_mean v i c df = Raise (KeyError v).
Proof. intros Hc. unfold pivot_table_mean. by rewrite (getitem_None _ _ Hc). Qed.

Lemma groupby_reset_no_column `{KeyOrder K} {B} (key_of : cell -> option K)
    (agg : list (option Qc) -> B) key col df :
  Pandas.has_column col df = false ->
  exists k, groupby_reset key_of agg key col df = Raise (KeyError k).
Proof.
  intros Hc. unfold groupby_reset.
  destruct (Pandas.getitem key df) as [ks|e] eqn:Hk; simpl.
  - rewrite (getitem_None _ _ Hc). simpl. eauto.
  - unfold Pandas.getitem in Hk.
    destruct (Pandas.col_index key (columns df)); simplify_eq. eauto.
Qed.

(** C10: the heatmap and the recommendation read the column named
    [ridership].  On a filtered frame without a column of that name the
    heatmap raises [KeyError "ridership"], the recommendation raises a
    [KeyError] as soon as the frame has rows, and neither renders
    anything. *)
Theorem heatmap_recommendation_need_ridership (s : state) (r : nat) (hf : DataFrame)
    (role : Role) :
  heap s !! r = Some hf ->
  Pandas.has_column "ridership" hf = false ->
  (Pandas.has_column "day_type" hf = true ->
   heatmap_section r s = (s, Raise (KeyError "ridership"))) /\
  (rows hf <> [] ->
   exists key, recommendation_section r role s = (s, Raise (KeyError key))) /\
  rendered (fst (heatmap_section r s)) = rendered s /\
  rendered (fst (recommendation_section r role s)) = rendered s.
Proof.
  intros Hs Hc.
  assert (Hheat : heatmap_section r s =
            if Pandas.has_column "day_type" hf then (s, Raise (KeyError "ridership"))
            else (s, Ok tt)).
  { unfold heatmap_section. rewrite bind_run, (deref_run _ _ _ Hs).
    destruct (Pandas.has_column "day_type" hf); [|done].
    rewrite bind_run. unfold lift. by rewrite (pivot_table_no_values _ _ _ _ Hc). }
  assert (Hrec : exists key, recommendation_section r role s =
            if negb (Pandas.empty hf) then (s, Raise (KeyError key)) else (s, Ok tt)).
  { destruct (groupby_reset_no_column Pandas.num_of_cell Pandas.nanmean "hour" _ _ Hc)
      as [key Hkey].
    exists key. unfold recommendation_section. rewrite bind_run, (deref_run _ _ _ Hs).
    destruct (negb (Pandas.empty hf)); [|done].
    rewrite bind_run. unfold lift. by rewrite Hkey. }
  destruct Hrec as [key Hrec].
  split_and!.
  - intros Hd. by rewrite Hheat, Hd.
  - intros Hrows. exists key. rewrite Hrec. unfold Pandas.empty.
    by destruct (rows hf).
  - rewrite Hheat. by destruct (Pandas.has_column "day_type" hf).
  - rewrite Hrec. by destruct (negb (Pandas.empty hf)).
Qed.

Lemma heatmap_recommendation_need_ridership_witness :
  (* the hourly section works with the detected column and leaves the
     filtered frame in object 4 *)
  (let r := hourly_section no_str no_datetime no_int hourly_df (ex_sel Tourist "Weekday" "A")
              (mkState [ex_daily; ex_hourly_passengers; ex_daily; ex_hourly_passengers] []) in
   snd r = Ok 4%nat /\ heap (fst r) !! 4%nat = Some ex_filtered_passengers /\
   exists avg, rendered (fst r) = [HourlyBar avg; HourlyLine avg; PeakHourInfo 8]) /\
  (* the heatmap and the recommendation then raise *)
  let s := mkState [ex_daily; ex_hourly_passengers; ex_daily; ex_hourly_passengers;
                    ex_filtered_passengers] [] in
  heatmap_section 4 s = (s, Raise (KeyError "ridership")) /\
  exists key, recommendation_section 4 Tourist s = (s, Raise (KeyError key)).
Proof.
  split.
  - split; [by vm_compute|]. split.
    + by_compute.
    + eexists. by vm_compute.
  - intros s.
    destruct (heatmap_recommendation_need_ridership s 4 ex_filtered_passengers Tourist)
      as (Hheat & Hrec & _); [reflexivity|reflexivity|].
    split; [by apply Hheat|by apply Hrec].
Defined.

(** ** Empty selections *)

(** The heatmap has no guard for an empty frame: when the filtered frame
    has no [hour] column, which is the case whenever the selection matched
    no row of a frame that records times, [pivot_table] raises. *)
Lemma heatmap_raises_without_hour (s : state) (r : nat) (hf : DataFrame) :
  heap s !! r = Some hf ->
  Pandas.has_column "day_type" hf = true ->
  Pandas.has_column "ridership" hf = true ->
  Pandas.has_column "hour" hf = false ->
  heatmap_section r s = (s, Raise (KeyError "hour")).
Proof.
  intros Hs Hd [j Hj]%has_column_true Hh.
  unfold heatmap_section. rewrite bind_run, (deref_run _ _ _ Hs), Hd.
  rewrite bind_run. unfold lift, pivot_table_mean.
  by rewrite (getitem_Some _ _ _ Hj), (getitem_None _ _ Hh).
Qed.

(** On an empty frame the recommendation renders nothing, no message
    either. *)
Lemma recommendation_silent_on_empty (s : state) (r : nat) (hf : DataFrame) (role : Role) :
  heap s !! r = Some hf -> rows hf = [] ->
  recommendation_section r role s = (s, Ok tt).
Proof.
  intros Hs Hrows. unfold recommendation_section.
  rewrite bind_run, (deref_run _ _ _ Hs). unfold Pandas.empty. by rewrite Hrows.
Qed.

(** C2, the failing input: no row of the hourly frame is a weekend row of
    line A.  The monthly section renders its chart, the hourly section
    reports that there is no data, but the heatmap has no such guard:
    [pivot_table] is called on the empty frame, which has no [hour] column
    (it is only added when there are rows), and the page stops with
    [KeyError "hour"].  The recommendation, had it been reached, renders
    nothing on the empty frame: no message either. *)
Theorem empty_selection_raises (py_str : cell -> string)
    (py_to_datetime : cell -> option Timestamp) (py_int : cell -> option Z) :
  let out := run py_str py_to_datetime py_int ex_daily ex_hourly
                 (ex_sel Tourist "Weekend" "A") in
  snd out = Raise (KeyError "hour") /\
  rendered (fst out)
  = [MonthlyChart [(mkTs 2024 1 1 0 0 0, Qc_of_Z 30); (mkTs 2024 2 1 0 0 0, Qc_of_Z 30)];
     MonthlyInfo (Some (Qc_of_Z 30)) (mkTs 2024 1 1 0 0 0) (Qc_of_Z 30);
     Warning NoHourlyData] /\
  Pandas.empty <$> heap (fst out) !! 5%nat = Some true /\
  recommendation_section 5 Tourist (fst out) = (fst out, Ok tt).
Proof. split_and!; by_compute. Qed.

(** ** Running the recommendation *)

Lemma recommendation_section_run s r hf role avg :
  heap s !! r = Some hf -> rows hf <> [] ->
  groupby_reset Pandas.num_of_cell Pandas.nanmean "hour" "ridership" hf = Ok avg ->
  recommendation_section r role s =
  (mkState (heap s)
     (rendered s ++
      match role with
      | Tourist =>
          let threshold := Pandas.quantile (Q2Qc (3 # 10)) (snd <$> avg) in
          [TouristSuccess
             (hours_of (List.filter (fun row => le_nan (snd row) threshold) avg));
           RecChart avg threshold]
      | Worker =>
          [WorkerInfo
             (hours_of (List.filter
                          (fun row => between_Z 7 9 (fst row) || between_Z 17 19 (fst row))
                          avg));
           RecChart avg (Pandas.quantile (Q2Qc (7 # 10)) (snd <$> avg))]
      end),
   Ok tt).
Proof.
  intros Hs Hrows Havg. unfold recommendation_section.
  rewrite bind_run, (deref_run _ _ _ Hs).
  assert (negb (Pandas.empty hf) = true) as ->
    by (unfold Pandas.empty; by destruct (rows hf)).
  rewrite bind_run. unfold lift. rewrite Havg.
  destruct role; rewrite !bind_run; simpl; unfold render; simpl;
    by rewrite <- app_assoc.
Qed.

Lemma Qc_trunc_of_Z z : Pandas.Qc_trunc (Qc_of_Z z) = z.
Proof.
  unfold Pandas.Qc_trunc. destruct (decide _).
  - apply Qfloor_Z.
  - apply Qceiling_Z.
Qed.

Lemma Qc_of_Z_le a b : Qc_of_Z a ≤ Qc_of_Z b <-> (a <= b)%Z.
Proof. unfold Qcle. simpl. by rewrite <- Zle_Qle. Qed.

Lemma commute_hours_between (z : Z) :
  between_Z 7 9 (Qc_of_Z z) || between_Z 17 19 (Qc_of_Z z)
  = bool_decide (z ∈ commute_hours).
Proof.
  unfold between_Z.
  destruct (bool_decide (z ∈ commute_hours)) eqn:Hz.
  - apply bool_decide_eq_true in Hz. unfold commute_hours in Hz.
    repeat (apply elem_of_cons in Hz as [->|Hz]; [by vm_compute|]).
    by apply elem_of_nil in Hz.
  - apply bool_decide_eq_false in Hz.
    apply orb_false_iff. rewrite !andb_false_iff, !bool_decide_eq_false, !Qc_of_Z_le.
    unfold commute_hours in Hz. rewrite !elem_of_cons, elem_of_nil in Hz. lia.
Qed.

Lemma hours_of_commute (avg : list (Qc * option Qc)) :
  Forall (fun row => integral (fst row)) avg ->
  hours_of (List.filter (fun row => between_Z 7 9 (fst row) || between_Z 17 19 (fst row)) avg)
  = List.filter (fun h => bool_decide (h ∈ commute_hours))
                ((fun row => Pandas.Qc_trunc (fst row)) <$> avg).
Proof.
  unfold hours_of.
  induction 1 as [|[h m] avg Hh _ IH]; [done|]. cbn.
  unfold integral in Hh; simpl in Hh.
  rewrite <- commute_hours_between, <- Hh.
  destruct (between_Z 7 9 h || between_Z 17 19 h); cbn; by rewrite IH.
Qed.

(** ** Grouping the rows of a frame *)

Section GroupRows.
Context `{KeyOrder K}.

(** The cell holds key [k]. *)
Definition key_is (k : K) (o : option K) : bool :=
  match o with
  | Some k' => match kcmp k k' with Eq => true | _ => false end
  | None => false
  end.

Lemma key_is_true k o : key_is k o = true <-> o = Some k.
Proof.
  unfold key_is. destruct o as [k'|]; [|done].
  destruct (kcmp k k') eqn:E.
  - apply kcmp_eq in E as ->. done.
  - split; [done|]. intros [= ->]. by rewrite kcmp_refl in E.
  - split; [done|]. intros [= ->]. by rewrite kcmp_refl in E.
Qed.

Lemma zip_fmap_fmap {A B C} (f : A -> B) (g : A -> C) (l : list A) :
  zip (f <$> l) (g <$> l) = (fun x => (f x, g x)) <$> l.
Proof. induction l as [|x l IH]; [done|]. cbn. f_equal. exact IH. Qed.

Lemma observed_fmap {A V} (kf : A -> option K) (vf : A -> V) (k : K) (l : list A) :
  observed k ((fun x => (kf x, vf x)) <$> l)
  = vf <$> List.filter (fun x => key_is k (kf x)) l.
Proof.
  induction l as [|x l IH]; [done|]. cbn. unfold key_is at 1.
  destruct (kf x) as [k'|]; [|exact IH].
  destruct (kcmp k k'); cbn; [f_equal|..]; exact IH.
Qed.

(** The rows of [groupby(key)[col].agg()]: one row per key some frame row
    holds, with the aggregate of the value cells of the rows holding it. *)
Lemma groupby_agg_elem_of {A B} (agg : list (option Qc) -> B)
    (kf : A -> option K) (vf : A -> cell) (l : list A) (k : K) (b : B) :
  (k, b) ∈ Pandas.groupby_agg agg (kf <$> l) (vf <$> l) <->
  (exists x, x ∈ l /\ kf x = Some k) /\
  b = agg ((fun x => Pandas.num_of_cell (vf x)) <$> List.filter (fun x => key_is k (kf x)) l).
Proof.
  unfold Pandas.groupby_agg. rewrite zip_fmap_fmap, list_elem_of_fmap.
  assert (Hex : observed k ((fun x => (kf x, vf x)) <$> l) <> [] <->
                exists x, x ∈ l /\ kf x = Some k).
  { rewrite observed_nonempty. split.
    - intros (v & (x & [= Hk Hv] & Hx)%list_elem_of_fmap). eauto.
    - intros (x & Hx & Hk). exists (vf x). apply list_elem_of_fmap.
      exists x. by rewrite Hk. }
  split.
  - intros ([k' vs] & [= -> ->] & Hin). simpl in *.
    apply groupby_elem_of in Hin as [-> Hne]. split; [by apply Hex|].
    by rewrite observed_fmap, <- list_fmap_compose.
  - intros [Hx ->]. exists (k, observed k ((fun x => (kf x, vf x)) <$> l)). simpl.
    split.
    + by rewrite observed_fmap, <- list_fmap_compose.
    + apply groupby_elem_of. split; [done|]. by apply Hex.
Qed.

Lemma key_sorted_lookup {B} (l : list (K * B)) p q a b :
  key_sorted l -> l !! p = Some a -> l !! q = Some b -> (p < q)%nat ->
  klt (fst a) (fst b).
Proof.
  intros Hl. revert p q. induction Hl as [|x l Hl IH Hall]; intros p q; [done|].
  destruct p as [|p], q as [|q]; simpl; try lia.
  - intros [= ->] Hq _. rewrite Forall_forall in Hall.
    apply Hall. by eapply list_elem_of_lookup_2.
  - intros Hp Hq ?. apply (IH p q); auto with lia.
Qed.

Lemma groupby_reset_run {B} (key_of : cell -> option K) (agg : list (option Qc) -> B)
    (key col : string) (df : DataFrame) (i j : nat) :
  Pandas.col_index key (columns df) = Some i ->
  Pandas.col_index col (columns df) = Some j ->
  nth j (snd <$> columns df) object = number ->
  key <> col ->
  groupby_reset key_of agg key col df
  = Ok (Pandas.groupby_agg agg ((fun r => key_of (Pandas.cell_at i r)) <$> rows df)
                           (Pandas.cell_at j <$> rows df)).
Proof.
  intros Hi Hj Hdt Hne. unfold groupby_reset.
  rewrite (getitem_Some _ _ _ Hi), (getitem_Some _ _ _ Hj). simpl.
  rewrite Hdt. simpl. rewrite bool_decide_eq_false_2 by done.
  by rewrite <- list_fmap_compose.
Qed.

End GroupRows.

(** The peak of a frame of (key, value) rows in ascending key order: the
    row [idxmax] points to holds the largest value, and among the rows with
    that value it has the lowest key. *)
Lemma peak_first_max `{KeyOrder K} (frame : list (K * option Qc)) :
  key_sorted frame ->
  match Pandas.idxmax (snd <$> frame) with
  | Ok p =>
      exists kp mp, frame !! p = Some (kp, Some mp) /\
        forall k m, (k, Some m) ∈ frame -> m ≤ mp /\ (m = mp -> kle kp k)
  | Raise _ => forall k m, (k, m) ∈ frame -> m = None
  end.
Proof.
  intros Hsorted. pose proof (idxmax_spec (snd <$> frame)) as Hspec.
  destruct (Pandas.idxmax (snd <$> frame)) as [p|e].
  - destruct Hspec as (mp & Hp & Hmax).
    rewrite list_lookup_fmap in Hp.
    destruct (frame !! p) as [[kp o]|] eqn:Hfp; simplify_eq/=.
    exists kp, mp. split; [done|].
    intros k m (q & Hq)%list_elem_of_lookup_1.
    destruct (Hmax q m) as [Hle Hlt]; [by rewrite list_lookup_fmap, Hq|].
    split; [done|]. intros ->.
    destruct (decide (q < p)%nat) as [Hqp|Hqp].
    + specialize (Hlt Hqp). by apply Qclt_not_eq in Hlt.
    + destruct (decide (p = q)) as [->|Hpq].
      * simplify_eq. unfold kle. by rewrite kcmp_refl.
      * assert (klt kp k) as Hk
          by (apply (key_sorted_lookup frame p q (kp, Some mp) (k, Some mp)); auto with lia).
        unfold klt in Hk. unfold kle. by rewrite Hk.
  - intros k m Hin. rewrite Forall_forall in Hspec.
    apply (Hspec m). apply list_elem_of_fmap. by exists (k, m).
Qed.

Lemma klt_Qc (a b : Qc) : klt a b <-> a < b.
Proof. unfold klt; simpl. symmetry. apply Qclt_alt. Qed.

Lemma kle_Qc (a b : Qc) : kle a b <-> a ≤ b.
Proof. unfold kle; simpl. symmetry. apply Qcle_alt. Qed.

Lemma nanmean_numbers (xs : list Qc) :
  xs <> [] ->
  Pandas.nanmean (Some <$> xs) = Some (Pandas.Qc_sum xs / Pandas.Qc_of_nat (length xs)).
Proof.
  intros Hne. unfold Pandas.nanmean, Pandas.dropna.
  assert (omap id (Some <$> xs) = xs) as ->.
  { clear Hne. induction xs as [|x xs IH]; [done|]. cbn. by rewrite IH. }
  by destruct xs.
Qed.

(** ** Setting a column *)

Lemma col_index_lookup name cols i :
  Pandas.col_index name cols = Some i -> exists dt, cols !! i = Some (name, dt).
Proof.
  revert i; induction cols as [|[n dt] cols IH]; intros i; simpl; [done|].
  destruct (decide (n = name)) as [->|Hn].
  - intros [= <-]. by exists dt.
  - destruct (Pandas.col_index name cols) as [i'|]; [|done].
    intros [= <-]. by apply IH.
Qed.

Lemma col_index_names name cols cols' :
  fst <$> cols = fst <$> cols' -> Pandas.col_index name cols = Pandas.col_index name cols'.
Proof.
  revert cols'; induction cols as [|[n dt] cols IH]; intros [|[n' dt'] cols']; try done.
  intros [= -> Hrest]. simpl. by rewrite (IH _ Hrest).
Qed.

Lemma col_index_app_l name cols extra i :
  Pandas.col_index name cols = Some i -> Pandas.col_index name (cols ++ extra) = Some i.
Proof.
  revert i; induction cols as [|[n dt] cols IH]; intros i; simpl; [done|].
  destruct (decide (n = name)); [done|].
  destruct (Pandas.col_index name cols) as [i'|]; [|done].
  intros [= <-]. by rewrite (IH i').
Qed.

Lemma col_index_app_new name cols dt :
  Pandas.col_index name cols = None ->
  Pandas.col_index name (cols ++ [(name, dt)]) = Some (length cols).
Proof.
  induction cols as [|[n dt'] cols IH]; simpl.
  - by rewrite decide_True.
  - destruct (decide (n = name)); [done|].
    destruct (Pandas.col_index name cols); [done|]. intros _. by rewrite IH.
Qed.

Lemma nth_lookup_default {A} (l : list A) i d x : l !! i = Some x -> nth i l d = x.
Proof. intros Hl. by rewrite (nth_lookup_Some _ _ _ _ Hl). Qed.

Lemma cell_at_lookup i (r : row) c : r !! i = Some c -> Pandas.cell_at i r = c.
Proof. apply nth_lookup_default. Qed.

Lemma cell_at_insert_ne i k v (r : row) :
  i <> k -> Pandas.cell_at i (<[k := v]> r) = Pandas.cell_at i r.
Proof.
  intros Hne. unfold Pandas.cell_at. rewrite !nth_lookup.
  by rewrite list_lookup_insert_ne.
Qed.

Lemma cell_at_insert_eq k v (r : row) :
  (k < length r)%nat -> Pandas.cell_at k (<[k := v]> r) = v.
Proof. intros Hk. apply cell_at_lookup. by apply list_lookup_insert_eq. Qed.

Lemma cell_at_app_l i (r : row) v :
  (i < length r)%nat -> Pandas.cell_at i (r ++ [v]) = Pandas.cell_at i r.
Proof.
  intros Hi. unfold Pandas.cell_at. rewrite !nth_lookup. by rewrite lookup_app_l.
Qed.

Lemma cell_at_app_new (r : row) v : Pandas.cell_at (length r) (r ++ [v]) = v.
Proof. apply cell_at_lookup. by rewrite list_lookup_middle. Qed.

Lemma zip_with_fmap_l {A B C} (h : B -> A -> C) (f : A -> B) (l : list A) :
  zip_with h (f <$> l) l = (fun x => h (f x) x) <$> l.
Proof. induction l as [|x l IH]; [done|]. cbn. f_equal. exact IH. Qed.

(** [df[name] = f(row)] row by row on a well-formed frame: the column
    [name] then holds the new cells with the new kind, every other column is
    as before. *)
Lemma setitem_spec name dt (f : row -> cell) df :
  well_formed df ->
  let df' := Pandas.setitem name dt (f <$> rows df) df in
  exists k g,
    Pandas.col_index name (columns df') = Some k /\
    nth k (snd <$> columns df') object = dt /\
    rows df' = g <$> rows df /\
    (forall r, r ∈ rows df -> Pandas.cell_at k (g r) = f r) /\
    forall c j, c <> name -> Pandas.col_index c (columns df) = Some j ->
      Pandas.col_index c (columns df') = Some j /\
      nth j (snd <$> columns df') object = nth j (snd <$> columns df) object /\
      forall r, r ∈ rows df -> Pandas.cell_at j (g r) = Pandas.cell_at j r.
Proof.
  intros Hwf. unfold well_formed in Hwf. rewrite Forall_forall in Hwf.
  unfold Pandas.setitem.
  destruct (Pandas.col_index name (columns df)) as [k|] eqn:Hk; simpl.
  - destruct (col_index_lookup _ _ _ Hk) as [dt0 Hdt0].
    pose proof (lookup_lt_Some _ _ _ Hdt0) as Hlt.
    assert (Hnames : fst <$> <[k:=(name, dt)]> (columns df) = fst <$> columns df).
    { rewrite list_fmap_insert. simpl. apply list_insert_id.
      by rewrite list_lookup_fmap, Hdt0. }
    exists k, (fun r => <[k := f r]> r). split_and!.
    + by rewrite (col_index_names _ _ _ Hnames).
    + apply nth_lookup_default. rewrite list_lookup_fmap.
      by rewrite list_lookup_insert_eq.
    + apply zip_with_fmap_l.
    + intros r Hr. apply cell_at_insert_eq. rewrite (Hwf _ Hr). done.
    + intros c j Hc Hj. split_and!.
      * by rewrite (col_index_names _ _ _ Hnames).
      * assert (j <> k) as Hjk.
        { intros ->. destruct (col_index_lookup _ _ _ Hj) as [dt1 Hdt1]. congruence. }
        rewrite !nth_lookup, list_fmap_insert. by rewrite list_lookup_insert_ne.
      * intros r Hr. apply cell_at_insert_ne.
        intros ->. destruct (col_index_lookup _ _ _ Hj) as [dt1 Hdt1]. congruence.
  - exists (length (columns df)), (fun r => r ++ [f r]). split_and!.
    + by apply col_index_app_new.
    + apply nth_lookup_default. rewrite fmap_app. simpl.
      rewrite <- (length_fmap snd (columns df)). by rewrite list_lookup_middle.
    + apply zip_with_fmap_l.
    + intros r Hr. rewrite <- (Hwf _ Hr). apply cell_at_app_new.
    + intros c j Hc Hj.
      destruct (col_index_lookup _ _ _ Hj) as [dt1 Hdt1].
      pose proof (lookup_lt_Some _ _ _ Hdt1) as Hlt.
      split_and!.
      * by apply col_index_app_l.
      * rewrite !nth_lookup, fmap_app. rewrite lookup_app_l; [done|].
        by rewrite length_fmap.
      * intros r Hr. apply cell_at_app_l. by rewrite (Hwf _ Hr).
Qed.

(** ** Rows in key order *)


(** ** The page on the example frames *)

(** The page on the example frames, Tourist mode: the averages are 75, 200
    and 20 at hours 7, 8 and 12; their 30th percentile is
    20 + 0.6 * (75 - 20) = 53, and hour 12 is recommended. *)
Example ex_tourist_run :
  let avg := [(Qc_of_Z 7, Some (Qc_of_Z 75)); (Qc_of_Z 8, Some (Qc_of_Z 200));
              (Qc_of_Z 12, Some (Qc_of_Z 20))] in
  let out := ex_run ex_daily ex_hourly (ex_sel Tourist "Weekday" "A") in
  snd out = Ok tt /\
  drop 2 (fst out)
  = [HourlyBar avg; HourlyLine avg; PeakHourInfo 8;
     Heatmap [((Qc_of_Z 7, "Weekday"), Qc_of_Z 75); ((Qc_of_Z 8, "Weekday"), Qc_of_Z 200);
              ((Qc_of_Z 12, "Weekday"), Qc_of_Z 20)];
     TouristSuccess [12%Z]; RecChart avg (Some (Qc_of_Z 53))].
Proof. split; by_compute. Qed.

Example ex_worker_run :
  let avg := [(Qc_of_Z 7, Some (Qc_of_Z 75)); (Qc_of_Z 8, Some (Qc_of_Z 200));
              (Qc_of_Z 12, Some (Qc_of_Z 20))] in
  let out := ex_run ex_daily ex_hourly (ex_sel Worker "Weekday" "A") in
  snd out = Ok tt /\
  drop 6 (fst out) = [WorkerInfo [7%Z; 8%Z]; RecChart avg (Some (Qc_of_Z 125))].
Proof. split; by_compute. Qed.

(** ** The hour column *)

Section HourColumn.
Variable py_to_datetime : cell -> option Timestamp.
Variable py_int : cell -> option Z.

Lemma integral_of_Z z : integral (Qc_of_Z z).
Proof. unfold integral. by rewrite Qc_trunc_of_Z. Qed.

Lemma dt_hour_cells (time : Series) : Forall hour_cell (dt_hour py_to_datetime time).
Proof.
  unfold dt_hour. apply Forall_fmap, Forall_forall. intros c _. simpl.
  eexists. split; [done|]. intros x.
  destruct (to_datetime_cell py_to_datetime c); simpl; [|done].
  intros [= <-]. apply integral_of_Z.
Qed.

(** A time that did not parse gives a null hour, not hour 0. *)
Lemma dt_hour_null : dt_hour py_to_datetime (mkSeries datetime [CTime None]) = [CNum None].
Proof. reflexivity. Qed.

Lemma astype_int_cells (hours : Series) (cells : list cell) :
  astype_int py_int hours = Ok cells -> Forall hour_cell cells.
Proof.
  unfold astype_int. destruct (mapM _ _) as [zs|]; [|done].
  intros [= <-]. apply Forall_fmap, Forall_forall. intros z _. simpl.
  eexists. split; [done|]. intros x [= <-]. apply integral_of_Z.
Qed.

(** Lines 134-135 on a frame with a [time] column: the frame object gets
    an [hour] column holding the hour of each row's time, NaN where the time
    is missing; the other columns are as before. *)
Lemma prepare_hour_time (s : state) (r : nat) (hf : DataFrame) (t : nat) :
  heap s !! r = Some hf -> well_formed hf ->
  Pandas.col_index "time" (columns hf) = Some t ->
  exists hf' k g,
    prepare_hour py_to_datetime py_int r s
    = (mkState (<[r := hf']> (heap s)) (rendered s), Ok tt) /\
    Pandas.col_index "hour" (columns hf') = Some k /\
    rows hf' = g <$> rows hf /\
    (forall row, row ∈ rows hf ->
       Pandas.cell_at k (g row)
       = CNum (Qc_of_Z ∘ hour <$> to_datetime_cell py_to_datetime (Pandas.cell_at t row)) /\
       hour_cell (Pandas.cell_at k (g row))) /\
    forall c j, c <> "hour" -> Pandas.col_index c (columns hf) = Some j ->
      Pandas.col_index c (columns hf') = Some j /\
      nth j (snd <$> columns hf') object = nth j (snd <$> columns hf) object /\
      forall row, row ∈ rows hf -> Pandas.cell_at j (g row) = Pandas.cell_at j row.
Proof.
  intros Hs Hwf Ht.
  set (f := fun row : list cell =>
              CNum (Qc_of_Z ∘ hour <$> to_datetime_cell py_to_datetime (Pandas.cell_at t row))).
  destruct (setitem_spec "hour" number f hf Hwf) as (k & g & Hk & _ & Hrows & Hcell & Hother).
  eexists _, k, g. split_and!; [|exact Hk|exact Hrows| |exact Hother].
  - unfold prepare_hour. rewrite bind_run, (deref_run _ _ _ Hs).
    assert (Pandas.has_column "time" hf = true) as -> by (apply has_column_true; eauto).
    rewrite bind_run. unfold lift. rewrite (getitem_Some _ _ _ Ht).
    unfold assign, dt_hour. simpl. by rewrite <- list_fmap_compose.
  - intros row Hrow. rewrite (Hcell row Hrow). split; [done|].
    unfold f. eexists. split; [done|]. intros x.
    destruct (to_datetime_cell py_to_datetime _); simpl; [|done].
    intros [= <-]. apply integral_of_Z.
Qed.

End HourColumn.

(** * Further properties *)

(** ** The two filters *)

Lemma List_filter_sublist {A} (p : A -> bool) (l : list A) :
  List.filter p l `sublist_of` l.
Proof.
  induction l as [|x l IH]; simpl; [done|].
  destruct (p x); [by apply sublist_skip|by apply sublist_cons].
Qed.

Lemma List_filter_sublist_impl {A} (p q : A -> bool) (l : list A) :
  (forall x, p x = true -> q x = true) ->
  List.filter p l `sublist_of` List.filter q l.
Proof.
  intros Hpq. induction l as [|x l IH]; simpl; [done|].
  destruct (p x) eqn:Hp.
  - rewrite (Hpq x Hp). by apply sublist_skip.
  - destruct (q x); [by apply sublist_cons|done].
Qed.

Section FilterFacts.
Variable py_str : cell -> string.

(** The cell, read as a lower-cased string, is the selection,
    lower-cased. *)
Definition label_matches (x : string) (c : cell) : bool :=
  bool_decide (PyStr.lower (str_of_cell py_str c) = PyStr.lower x).

Lemma daily_filter_rows (df : DataFrame) (line : string) (range : Date * Date) (i : nat) :
  Pandas.col_index "date" (columns df) = Some i ->
  nth i (snd <$> columns df) object = datetime ->
  daily_filter py_str df line range
  = Ok (mkDF (columns df)
          (List.filter
             (fun r => in_range (to_datetime_date (fst range)) (to_datetime_date (snd range))
                                (Pandas.cell_at i r) && line_matches py_str df line r)
             (rows df))).
Proof.
  intros Hdate Hdt. unfold daily_filter, date_mask.
  rewrite (getitem_Some _ _ _ Hdate). simpl. unfold between_ts. simpl. rewrite Hdt. simpl.
  unfold line_matches.
  destruct (Pandas.has_column "line" df) eqn:Hline.
  - apply has_column_true in Hline as [j Hj]. rewrite Hj.
    rewrite (getitem_Some _ _ _ Hj). simpl. unfold eq_lower. simpl.
    rewrite <- !list_fmap_compose.
    rewrite mask_and_fmap. unfold Pandas.getitem_mask. by rewrite filter_mask_fmap.
  - apply has_column_false in Hline. rewrite Hline.
    unfold Pandas.getitem_mask. rewrite <- list_fmap_compose, filter_mask_fmap.
    do 2 f_equal. apply filter_ext. intros r. by rewrite andb_true_r.
Qed.

Lemma hourly_filter_rows (df : DataFrame) (day_type line : string) (d l : nat) :
  Pandas.col_index "day_type" (columns df) = Some d ->
  Pandas.col_index "line_tag" (columns df) = Some l ->
  hourly_filter py_str df day_type line
  = Ok (mkDF (columns df)
          (List.filter
             (fun r => label_matches day_type (Pandas.cell_at d r)
                       && label_matches line (Pandas.cell_at l r))
             (rows df))).
Proof.
  intros Hd Hl. unfold hourly_filter.
  rewrite (getitem_Some _ _ _ Hd), (getitem_Some _ _ _ Hl). simpl.
  unfold eq_lower. simpl. rewrite <- !list_fmap_compose, mask_and_fmap.
  unfold Pandas.getitem_mask. by rewrite filter_mask_fmap.
Qed.

(** X1: The category filter of lines 127-130 keeps, in their order and with
    the frame's columns, exactly the rows whose day type and line tag are
    the selected ones up to letter case; a missing label reads "nan"; the
    result is the same for selections that differ in case only.  Without
    one of the two columns the filter raises [KeyError]. *)
Theorem hourly_filter_matches (df : DataFrame) (day_type line : string) (d l : nat) :
  Pandas.col_index "day_type" (columns df) = Some d ->
  Pandas.col_index "line_tag" (columns df) = Some l ->
  exists kept,
    hourly_filter py_str df day_type line = Ok (mkDF (columns df) kept) /\
    kept `sublist_of` rows df /\
    (forall r, r ∈ kept <->
       r ∈ rows df /\
       PyStr.lower (str_of_cell py_str (Pandas.cell_at d r)) = PyStr.lower day_type /\
       PyStr.lower (str_of_cell py_str (Pandas.cell_at l r)) = PyStr.lower line) /\
    (forall day_type' line',
       PyStr.lower day_type' = PyStr.lower day_type ->
       PyStr.lower line' = PyStr.lower line ->
       hourly_filter py_str df day_type' line' = Ok (mkDF (columns df) kept)).
Proof.
  intros Hd Hl. eexists. split; [by apply (hourly_filter_rows df day_type line d l)|].
  split_and!.
  - apply List_filter_sublist.
  - intros r. rewrite elem_of_List_filter, andb_true_iff.
    unfold label_matches. rewrite !bool_decide_eq_true. tauto.
  - intros day_type' line' Hd' Hl'.
    rewrite (hourly_filter_rows df day_type' line' d l Hd Hl).
    unfold label_matches. by rewrite Hd', Hl'.
Qed.

Lemma hourly_filter_missing_column (df : DataFrame) (day_type line : string) :
  Pandas.has_column "day_type" df = false \/ Pandas.has_column "line_tag" df = false ->
  exists key, hourly_filter py_str df day_type line = Raise (KeyError key).
Proof.
  unfold hourly_filter. intros [Hc|Hc].
  - rewrite (getitem_None _ _ Hc). eauto.
  - destruct (Pandas.has_column "day_type" df) eqn:Hd.
    + apply has_column_true in Hd as [d Hd].
      rewrite (getitem_Some _ _ _ Hd), (getitem_None _ _ Hc). simpl. eauto.
    + rewrite (getitem_None _ _ Hd). eauto.
Qed.

(** X2: The first hourly filter (lines 63-66) compares the labels as they
    are; what it keeps is part of what the case-insensitive filter of lines
    127-130 keeps, which is the frame the page works with. *)
Theorem exact_filter_within_category_filter (df : DataFrame) (day_type line : string)
    (day_types line_tags : Series) :
  Pandas.getitem "day_type" df = Ok day_types ->
  Pandas.getitem "line_tag" df = Ok line_tags ->
  exists kept,
    hourly_filter py_str df day_type line = Ok (mkDF (columns df) kept) /\
    rows (Pandas.getitem_mask
            (Pandas.mask_and (eq_str day_type day_types) (eq_str line line_tags)) df)
      `sublist_of` kept.
Proof.
  intros Hd Hl. unfold Pandas.getitem in Hd, Hl.
  destruct (Pandas.col_index "day_type" (columns df)) as [d|] eqn:Ed; [|done].
  destruct (Pandas.col_index "line_tag" (columns df)) as [l|] eqn:El; [|done].
  simplify_eq. eexists. split; [by apply (hourly_filter_rows df day_type line d l)|].
  unfold eq_str. simpl. rewrite <- !list_fmap_compose, mask_and_fmap, filter_mask_fmap.
  apply List_filter_sublist_impl. intros r. simpl.
  rewrite !andb_true_iff. unfold label_matches. rewrite !bool_decide_eq_true.
  by intros [-> ->].
Qed.

(** X3: Widening the date range never loses a row: with an earlier start and a
    later end, the filter of lines 83-91 keeps all the rows it kept before,
    in the same order. *)
Theorem daily_filter_widens (df : DataFrame) (line : string)
    (start finish start' finish' : Date) (i : nat) :
  Pandas.col_index "date" (columns df) = Some i ->
  nth i (snd <$> columns df) object = datetime ->
  ts_leb (to_datetime_date start') (to_datetime_date start) = true ->
  ts_leb (to_datetime_date finish) (to_datetime_date finish') = true ->
  exists kept kept',
    daily_filter py_str df line (start, finish) = Ok (mkDF (columns df) kept) /\
    daily_filter py_str df line (start', finish') = Ok (mkDF (columns df) kept') /\
    kept `sublist_of` kept'.
Proof.
  intros Hi Hdt Hs Hf. do 2 eexists.
  split; [by apply (daily_filter_rows df line (start, finish) i)|].
  split; [by apply (daily_filter_rows df line (start', finish') i)|].
  apply List_filter_sublist_impl. intros r. simpl.
  rewrite !andb_true_iff. intros [Hr Hline]. split; [|done].
  unfold in_range in *. destruct (ts_of_cell (Pandas.cell_at i r)) as [t|]; [|done].
  apply andb_true_iff in Hr as [Hst Htf]. apply andb_true_iff.
  split; eauto using ts_leb_trans.
Qed.

End FilterFacts.

Lemma hourly_filter_matches_witness :
  exists kept,
    hourly_filter no_str ex_hourly "weekday" "A" = Ok (mkDF (columns ex_hourly) kept) /\
    hourly_filter no_str ex_hourly "WEEKDAY" "a" = Ok (mkDF (columns ex_hourly) kept) /\
    kept `sublist_of` rows ex_hourly.
Proof.
  destruct (hourly_filter_matches no_str ex_hourly "weekday" "A" 1 2)
    as (kept & Hk & Hsub & _ & Hcase); [reflexivity|reflexivity|].
  exists kept. split_and!; [done|by apply Hcase|done].
Defined.

Lemma exact_filter_within_category_filter_witness :
  exists day_types line_tags kept,
    Pandas.getitem "day_type" ex_hourly = Ok day_types /\
    Pandas.getitem "line_tag" ex_hourly = Ok line_tags /\
    hourly_filter no_str ex_hourly "weekday" "A" = Ok (mkDF (columns ex_hourly) kept) /\
    rows (Pandas.getitem_mask
            (Pandas.mask_and (eq_str "weekday" day_types) (eq_str "A" line_tags)) ex_hourly)
      `sublist_of` kept.
Proof.
  do 2 eexists.
  destruct (exact_filter_within_category_filter no_str ex_hourly "weekday" "A" _ _
              eq_refl eq_refl) as (kept & Hk & Hsub).
  exists kept. by split_and!.
Defined.

Lemma daily_filter_widens_witness :
  exists kept kept',
    daily_filter no_str ex_daily "A" (mkDate 2024 1 10, mkDate 2024 1 31)
    = Ok (mkDF (columns ex_daily) kept) /\
    daily_filter no_str ex_daily "A" (mkDate 2024 1 1, mkDate 2024 12 31)
    = Ok (mkDF (columns ex_daily) kept') /\
    kept `sublist_of` kept'.
Proof.
  apply (daily_filter_widens no_str ex_daily "A" _ _ _ _ 0); reflexivity.
Defined.

(** ** Loading *)

Lemma col_index_elem_of name dt cols :
  (name, dt) ∈ cols -> is_Some (Pandas.col_index name cols).
Proof.
  induction cols as [|[n d] cols IH]; [by intros ?%elem_of_nil|].
  intros Hin. simpl. destruct (decide (n = name)); [done|].
  apply elem_of_cons in Hin as [[= ]|Hin]; [congruence|].
  destruct (IH Hin) as [i ->]. done.
Qed.

Lemma parse_column_names py (name : string) (df : DataFrame) :
  fst <$> columns (parse_column py name df) = fst <$> columns df.
Proof.
  unfold parse_column. destruct (Pandas.has_column name df) eqn:Hc; [|done].
  apply has_column_true in Hc as [i Hi]. rewrite (getitem_Some _ _ _ Hi).
  unfold Pandas.setitem. rewrite Hi. simpl.
  destruct (col_index_lookup _ _ _ Hi) as [dt Hdt].
  rewrite list_fmap_insert. simpl. apply list_insert_id.
  by rewrite list_lookup_fmap, Hdt.
Qed.


Lemma normalize_columns_well_formed (df : DataFrame) :
  well_formed df -> well_formed (normalize_columns df).
Proof. unfold well_formed, normalize_columns. simpl. by rewrite length_fmap. Qed.

Section LoadedDate.
Variable py_str : cell -> string.
Variable py_to_datetime : cell -> option Timestamp.

(** X5: After [load_data()] the [date] column of the daily frame, when the
    file has one, holds timestamps: each cell is what its value parses to,
    NaT when it does not parse; the other columns are as in the file; and
    the date filter of the page then never raises, whatever the range and
    the line. *)
Theorem load_data_date_parsed (raw_daily raw_hourly : DataFrame) (i : nat) :
  well_formed raw_daily ->
  Pandas.col_index "date" (columns (normalize_columns raw_daily)) = Some i ->
  let daily := fst (load_data py_to_datetime raw_daily raw_hourly) in
  Pandas.col_index "date" (columns daily) = Some i /\
  nth i (snd <$> columns daily) object = datetime /\
  (exists g, rows daily = g <$> rows raw_daily /\
     forall r, r ∈ rows raw_daily ->
       Pandas.cell_at i (g r) = CTime (to_datetime_cell py_to_datetime (Pandas.cell_at i r)) /\
       forall j, j <> i -> Pandas.cell_at j (g r) = Pandas.cell_at j r) /\
  forall line range, exists kept,
    daily_filter py_str daily line range = Ok (mkDF (columns daily) kept).
Proof.
  intros Hwf Hi daily.
  set (nd := normalize_columns raw_daily) in *.
  assert (Hdaily : daily = Pandas.setitem "date" datetime
            ((fun r => CTime (to_datetime_cell py_to_datetime (Pandas.cell_at i r)))
               <$> rows nd) nd).
  { unfold daily, load_data. simpl. fold nd. unfold parse_column.
    assert (Pandas.has_column "date" nd = true) as -> by (apply has_column_true; eauto).
    rewrite (getitem_Some _ _ _ Hi). simpl. by rewrite <- list_fmap_compose. }
  assert (Hcols : Pandas.col_index "date" (columns daily) = Some i).
  { rewrite (col_index_names _ _ (columns nd)); [done|].
    unfold daily, load_data. simpl. apply parse_column_names. }
  assert (Hdt : nth i (snd <$> columns daily) object = datetime).
  { rewrite Hdaily. unfold Pandas.setitem. rewrite Hi. simpl.
    destruct (col_index_lookup _ _ _ Hi) as [dt0 Hdt0].
    apply nth_lookup_default. rewrite list_lookup_fmap.
    rewrite list_lookup_insert_eq; [done|]. by eapply lookup_lt_Some. }
  split_and!; [done|done| |].
  - exists (fun r => <[i := CTime (to_datetime_cell py_to_datetime (Pandas.cell_at i r))]> r).
    split.
    + rewrite Hdaily. unfold Pandas.setitem. rewrite Hi. simpl. apply zip_with_fmap_l.
    + intros r Hr. split.
      * apply cell_at_insert_eq.
        unfold well_formed in Hwf. rewrite Forall_forall in Hwf. rewrite (Hwf r Hr).
        destruct (col_index_lookup _ _ _ Hi) as [dt0 Hdt0].
        apply lookup_lt_Some in Hdt0. unfold nd, normalize_columns in Hdt0. simpl in Hdt0.
        by rewrite length_fmap in Hdt0.
      * intros j Hj. by apply cell_at_insert_ne.
  - intros line range. eexists. by apply (daily_filter_rows py_str daily line range i).
Qed.

End LoadedDate.

Definition ex_raw_daily : DataFrame :=
  mkDF [(" Date ", object); ("Line", object); ("Ridership", number)]
    [ [ex_str "2024-01-05"; ex_str "A"; ex_num 10];
      [ex_str "soon"; ex_str "A"; ex_num 30] ].

(** A parser for the example: it knows one date. *)
Definition ex_parse (c : cell) : option Timestamp :=
  if decide (c = ex_str "2024-01-05") then Some (mkTs 2024 1 5 0 0 0) else None.

Lemma load_data_date_parsed_witness :
  let daily := fst (load_data ex_parse ex_raw_daily ex_hourly) in
  columns daily = [("date", datetime); ("line", object); ("ridership", number)] /\
  rows daily = [ [ex_ts 2024 1 5 0; ex_str "A"; ex_num 10];
                 [CTime None; ex_str "A"; ex_num 30] ] /\
  forall line range, exists kept,
    daily_filter no_str daily line range = Ok (mkDF (columns daily) kept).
Proof.
  intros daily. split; [reflexivity|]. split; [reflexivity|].
  apply (load_data_date_parsed no_str ex_parse ex_raw_daily ex_hourly 0).
  - repeat constructor.
  - reflexivity.
Defined.

(** ** Sidebar defaults *)

Lemma insert_option_elem_of (x y : string) (l : list string) :
  y ∈ insert_option x l <-> y = x \/ y ∈ l.
Proof.
  induction l as [|z l IH]; simpl.
  - rewrite list_elem_of_singleton, elem_of_nil. tauto.
  - destruct (str_compare x z) eqn:E.
    + apply str_compare_eq in E as ->. rewrite elem_of_cons. tauto.
    + rewrite !elem_of_cons. tauto.
    + rewrite !elem_of_cons, IH. tauto.
Qed.

Lemma insert_option_sorted (x : string) (l : list string) :
  StronglySorted (fun a b => str_compare a b = Lt) l ->
  StronglySorted (fun a b => str_compare a b = Lt) (insert_option x l).
Proof.
  induction 1 as [|z l Hl IH Hall]; simpl; [by repeat constructor|].
  destruct (str_compare x z) eqn:E.
  - by constructor.
  - constructor; [by constructor|]. constructor; [done|].
    eapply Forall_impl; [exact Hall|]. intros b Hb. simpl in *.
    exact (kcmp_trans (K := string) x z b E Hb).
  - constructor; [done|]. apply Forall_forall. intros y Hy.
    apply insert_option_elem_of in Hy as [->|Hy].
    + exact (proj1 (kcmp_gt_lt (K := string) x z) E).
    + rewrite Forall_forall in Hall. by apply Hall.
Qed.

(** X7: The options a selector offers
    ([sorted(hourly_df[col].dropna().unique())]) are exactly the labels the
    column holds, missing values left out, each offered once, in ascending
    order: no option is offered that no row carries. *)
Theorem selector_options (s : Series) :
  StronglySorted (fun a b => str_compare a b = Lt) (options s) /\
  NoDup (options s) /\
  forall x, x ∈ options s <-> CStr (Some x) ∈ values s.
Proof.
  assert (Hsorted : StronglySorted (fun a b => str_compare a b = Lt) (options s)).
  { unfold options. induction (omap label_of_cell (values s)) as [|x l IH]; simpl.
    - constructor.
    - by apply insert_option_sorted. }
  split_and!; [done| |].
  - induction Hsorted as [|x l Hl IH Hall]; constructor; [|done].
    intros Hx. rewrite Forall_forall in Hall. specialize (Hall x Hx).
    assert (str_compare x x = Eq) by by apply str_compare_eq. congruence.
  - intros x. unfold options. induction (values s) as [|c l IH]; simpl.
    + by rewrite !elem_of_nil.
    + rewrite elem_of_cons.
      destruct c as [?|?|[y|]]; simpl; rewrite ?insert_option_elem_of, IH;
        split; try (intros [[= ]|?]); try (intros [->|?]); auto; try done.
      subst. by left.
Qed.

Lemma ts_leb_refl a : ts_leb a a = true.
Proof.
  unfold ts_leb. pose proof (kcmp_refl (K := Timestamp) a) as E. simpl in E. by rewrite E.
Qed.

Lemma ts_leb_total a b : ts_leb a b = false -> ts_leb b a = true.
Proof.
  unfold ts_leb. destruct (ts_compare a b) eqn:E; try done. intros _.
  pose proof (proj1 (kcmp_gt_lt (K := Timestamp) a b) E) as E'. simpl in E'. by rewrite E'.
Qed.

Lemma foldr_ts_min_spec (t : Timestamp) (ts : list Timestamp) :
  let m := foldr ts_min t ts in
  m ∈ t :: ts /\ forall x, x ∈ t :: ts -> ts_leb m x = true.
Proof.
  induction ts as [|y ts IH]; simpl.
  - split; [left|]. intros x ->%list_elem_of_singleton. apply ts_leb_refl.
  - destruct IH as [Hin Hle]. set (m := foldr ts_min t ts) in *.
    unfold ts_min. destruct (ts_leb y m) eqn:E.
    + split; [right; left|]. intros x Hx.
      apply elem_of_cons in Hx as [->|Hx];
        [apply (ts_leb_trans _ m); [done|apply Hle; left]|].
      apply elem_of_cons in Hx as [->|Hx]; [apply ts_leb_refl|].
      apply (ts_leb_trans _ m); [done|]. apply Hle. by right.
    + split.
      * apply elem_of_cons in Hin as [->|Hin]; [left|do 2 right; done].
      * intros x Hx.
        apply elem_of_cons in Hx as [->|Hx]; [apply Hle; left|].
        apply elem_of_cons in Hx as [->|Hx]; [by apply ts_leb_total|].
        apply Hle. by right.
Qed.

Lemma foldr_ts_max_spec (t : Timestamp) (ts : list Timestamp) :
  let m := foldr ts_max t ts in
  m ∈ t :: ts /\ forall x, x ∈ t :: ts -> ts_leb x m = true.
Proof.
  induction ts as [|y ts IH]; simpl.
  - split; [left|]. intros x ->%list_elem_of_singleton. apply ts_leb_refl.
  - destruct IH as [Hin Hle]. set (m := foldr ts_max t ts) in *.
    unfold ts_max. destruct (ts_leb y m) eqn:E.
    + split.
      * apply elem_of_cons in Hin as [->|Hin]; [left|do 2 right; done].
      * intros x Hx.
        apply elem_of_cons in Hx as [->|Hx]; [apply Hle; left|].
        apply elem_of_cons in Hx as [->|Hx]; [done|].
        apply Hle. by right.
    + apply ts_leb_total in E.
      split; [right; left|]. intros x Hx.
      apply elem_of_cons in Hx as [->|Hx]; [apply (ts_leb_trans _ m); [apply Hle; left|done]|].
      apply elem_of_cons in Hx as [->|Hx]; [apply ts_leb_refl|].
      apply (ts_leb_trans _ m); [|done]. apply Hle. by right.
Qed.

(** A timestamp at midnight, as a column of calendar dates holds. *)
Definition midnight (t : Timestamp) : Prop := hour t = 0%Z /\ minute t = 0%Z /\ second t = 0%Z.

Lemma to_datetime_date_of (t : Timestamp) : midnight t -> to_datetime_date (date_of t) = t.
Proof. destruct t; unfold midnight; simpl. by intros (-> & -> & ->). Qed.

(** X8: With the date range the page starts with, from the first to the last
    date of the daily frame, the date condition of the filter holds for
    every row that has a date; the dates are calendar dates.  There is no
    default range when no row has a date. *)
Theorem default_date_range_keeps_all (df : DataFrame) (i : nat) :
  Pandas.col_index "date" (columns df) = Some i ->
  (forall r t, r ∈ rows df -> ts_of_cell (Pandas.cell_at i r) = Some t -> midnight t) ->
  match default_date_range df with
  | Ok (Some (start, finish)) =>
      forall r, r ∈ rows df -> ts_of_cell (Pandas.cell_at i r) <> None ->
        in_range (to_datetime_date start) (to_datetime_date finish) (Pandas.cell_at i r) = true
  | Ok None => forall r, r ∈ rows df -> ts_of_cell (Pandas.cell_at i r) = None
  | Raise _ => False
  end.
Proof.
  intros Hi Hmid. unfold default_date_range. rewrite (getitem_Some _ _ _ Hi). simpl.
  unfold series_min, series_max. simpl.
  set (dates := omap ts_of_cell (Pandas.cell_at i <$> rows df)).
  assert (Hdates : forall t, t ∈ dates <->
            exists r, r ∈ rows df /\ ts_of_cell (Pandas.cell_at i r) = Some t).
  { intros t. unfold dates. rewrite list_elem_of_omap. split.
    - intros (c & (r & -> & Hr)%list_elem_of_fmap & Hc). eauto.
    - intros (r & Hr & Hc). exists (Pandas.cell_at i r). split; [|done].
      by apply list_elem_of_fmap_2. }
  destruct dates as [|t ts] eqn:E; simpl.
  - intros r Hr. destruct (ts_of_cell (Pandas.cell_at i r)) as [t|] eqn:Hc; [|done].
    assert (t ∈ []) as Hin by (apply Hdates; eauto). by apply elem_of_nil in Hin.
  - destruct (foldr_ts_min_spec t ts) as [Hmin_in Hmin].
    destruct (foldr_ts_max_spec t ts) as [Hmax_in Hmax].
    assert (Hm : forall x, x ∈ t :: ts -> midnight x).
    { intros x (r & Hr & Hc)%Hdates. by apply (Hmid r). }
    intros r Hr Hsome. unfold in_range.
    destruct (ts_of_cell (Pandas.cell_at i r)) as [x|] eqn:Hc; [|done].
    assert (x ∈ t :: ts) as Hx by (apply Hdates; eauto).
    rewrite !to_datetime_date_of by auto.
    by rewrite (Hmin x Hx), (Hmax x Hx).
Qed.

Lemma default_date_range_keeps_all_witness :
  default_date_range ex_daily = Ok (Some (mkDate 2024 1 5, mkDate 2024 2 4)) /\
  forall r, r ∈ rows ex_daily -> ts_of_cell (Pandas.cell_at 0 r) <> None ->
    in_range (to_datetime_date (mkDate 2024 1 5)) (to_datetime_date (mkDate 2024 2 4))
             (Pandas.cell_at 0 r) = true.
Proof.
  split; [reflexivity|].
  pose proof (default_date_range_keeps_all ex_daily 0 eq_refl) as H.
  change (default_date_range ex_daily)
    with (Ok (A := option (Date * Date)) (Some (mkDate 2024 1 5, mkDate 2024 2 4))) in H.
  apply H. intros r t Hr. unfold ex_daily in Hr. simpl in Hr.
  repeat (apply elem_of_cons in Hr as [->|Hr]; [simpl; by intros [= <-]|]).
  by apply elem_of_nil in Hr.
Defined.

(** ** The monthly section, run as a whole *)

Lemma alloc_lookup (df : DataFrame) (hp : list DataFrame) :
  (hp ++ [df]) !! length hp = Some df.
Proof. by rewrite list_lookup_middle. Qed.

Lemma assign_last (df df' : DataFrame) (hp : list DataFrame) :
  <[length hp := df']> (hp ++ [df]) = hp ++ [df'].
Proof.
  rewrite insert_app_r_alt by lia.
  by replace (length hp - length hp)%nat with 0%nat by lia.
Qed.

Lemma List_filter_all_false {A} (p : A -> bool) (l : list A) :
  (forall x, x ∈ l -> p x = false) -> List.filter p l = [].
Proof.
  induction l as [|x l IH]; simpl; [done|]. intros Hall.
  rewrite (Hall x) by left. apply IH. intros y Hy. apply Hall. by right.
Qed.

Lemma pick_ridership_col_total (numeric_cols : list string) :
  numeric_cols <> [] ->
  exists c, pick_ridership_col numeric_cols = Ok c /\ c ∈ numeric_cols.
Proof.
  intros Hne. unfold pick_ridership_col.
  destruct (List.filter ridership_like numeric_cols) as [|c rest] eqn:Hf.
  - destruct numeric_cols as [|c l]; [done|]. exists c. split; [done|left].
  - exists c. split; [done|].
    assert (c ∈ List.filter ridership_like numeric_cols) as Hc by (rewrite Hf; left).
    by apply elem_of_List_filter in Hc as [? _].
Qed.

(** A numeric column, looked up by its label, when labels are distinct. *)
Lemma col_index_NoDup (c : string) (dt : dtype) (cols : list (string * dtype)) :
  NoDup (fst <$> cols) -> (c, dt) ∈ cols ->
  exists j, Pandas.col_index c cols = Some j /\ nth j (snd <$> cols) object = dt.
Proof.
  induction cols as [|[n dt'] cols IH]; simpl.
  - intros _ Hin. by apply elem_of_nil in Hin.
  - intros [Hn Hnd]%NoDup_cons Hin. destruct (decide (n = c)) as [->|Hne].
    + exists 0%nat. split; [done|]. simpl.
      apply elem_of_cons in Hin as [[= ->]|Hin]; [done|].
      exfalso. apply Hn. apply list_elem_of_fmap. by exists (c, dt).
    + apply elem_of_cons in Hin as [[= -> ->]|Hin]; [done|].
      destruct (IH Hnd Hin) as (j & Hj & Hdt). exists (S j). by rewrite Hj.
Qed.

Lemma select_dtypes_number_col (c : string) (df : DataFrame) :
  NoDup (fst <$> columns df) -> c ∈ Pandas.select_dtypes_number df ->
  exists j, Pandas.col_index c (columns df) = Some j /\
            nth j (snd <$> columns df) object = number.
Proof.
  intros Hnd Hc. unfold Pandas.select_dtypes_number in Hc.
  apply list_elem_of_fmap in Hc as ([c' dt] & -> & Hin).
  apply elem_of_List_filter in Hin as [Hin Hdt]. simpl in *.
  apply bool_decide_eq_true in Hdt as ->. by apply col_index_NoDup.
Qed.

Lemma well_formed_filter (p : row -> bool) (df : DataFrame) :
  well_formed df -> well_formed (mkDF (columns df) (List.filter p (rows df))).
Proof.
  unfold well_formed. simpl. rewrite !Forall_forall.
  intros Hwf r [Hr _]%elem_of_List_filter. by apply Hwf.
Qed.

(** The month column and the sums of lines 95-100, on the rows of the
    filtered frame. *)
Lemma monthly_groupby_run (filtered : DataFrame) (c : string) (i j : nat) :
  well_formed filtered ->
  Pandas.col_index "date" (columns filtered) = Some i ->
  Pandas.col_index c (columns filtered) = Some j ->
  nth j (snd <$> columns filtered) object = number ->
  c <> "month" ->
  groupby_reset ts_of_cell Pandas.nansum "month" c
    (Pandas.setitem "month" datetime
       (dt_month_start (mkSeries (nth i (snd <$> columns filtered) object)
                                 (Pandas.cell_at i <$> rows filtered))) filtered)
  = Ok (Pandas.groupby_agg Pandas.nansum
          ((fun r => month_start <$> ts_of_cell (Pandas.cell_at i r)) <$> rows filtered)
          (Pandas.cell_at j <$> rows filtered)).
Proof.
  intros Hwf Hi Hj Hdt Hne.
  unfold dt_month_start; simpl values. rewrite <- list_fmap_compose.
  destruct (setitem_spec "month" datetime
              ((fun c0 => CTime (month_start <$> ts_of_cell c0)) ∘ Pandas.cell_at i)
              filtered Hwf)
    as (k & g & Hk & Hkdt & Hrows & Hcell & Hother).
  destruct (Hother c j Hne Hj) as (Hj' & Hdt' & Hcj).
  set (with_month := Pandas.setitem "month" datetime _ filtered) in *.
  rewrite (groupby_reset_run ts_of_cell Pandas.nansum "month" c with_month k j);
    [|done|done|congruence|done].
  rewrite Hrows, <- !list_fmap_compose. do 2 f_equal.
  - apply Forall_fmap_ext, Forall_forall. intros r Hr; simpl.
    by rewrite (Hcell r Hr).
  - apply Forall_fmap_ext, Forall_forall. intros r Hr; simpl. by apply Hcj.
Qed.

Lemma idxmax_from_some (vs : list (option Qc)) : forall b i,
  exists p, Pandas.idxmax_from (Some b) i vs = Some p.
Proof.
  induction vs as [|[x|] vs IH]; intros [j m] i; simpl; [by eexists|..].
  - destruct (decide (m < x)%Qc); apply IH.
  - apply IH.
Qed.

(** [idxmax] succeeds as soon as one value is a number. *)
Lemma idxmax_total (vs : list (option Qc)) (x : Qc) :
  Some x ∈ vs -> exists p, Pandas.idxmax vs = Ok p.
Proof.
  unfold Pandas.idxmax. generalize 0%nat.
  induction vs as [|[y|] vs IH]; intros i Hin; simpl.
  - by apply elem_of_nil in Hin.
  - destruct (idxmax_from_some vs (i, y) (S i)) as ([p m] & ->). by eexists.
  - apply elem_of_cons in Hin as [[=]|Hin]. by apply IH.
Qed.

Section MonthlyRun.
Variable py_str : cell -> string.

(** The condition of the daily filter on one row. *)
Definition daily_keeps (df : DataFrame) (i : nat) (sel : Selection) (r : row) : bool :=
  in_range (to_datetime_date (fst (date_range sel))) (to_datetime_date (snd (date_range sel)))
           (Pandas.cell_at i r)
  && line_matches py_str df (line sel) r.

(** X9: When no row of the daily frame passes the filter, the monthly section
    shows the no-data warning and nothing else, and ends normally; its
    filtered frame is a new, empty object.  This is the case whenever the
    selected range ends before it starts. *)
Theorem monthly_section_no_data (s : state) (df : DataFrame) (r0 i : nat) (sel : Selection) :
  heap s !! daily_df = Some df ->
  Pandas.select_dtypes_number df <> [] ->
  Pandas.col_index "date" (columns df) = Some i ->
  nth i (snd <$> columns df) object = datetime ->
  ((forall r, r ∈ rows df -> daily_keeps df i sel r = false) ->
   monthly_section py_str daily_df r0 sel s
   = (mkState (heap s ++ [mkDF (columns df) []]) (rendered s ++ [Warning NoMonthlyData]),
      Ok (length (heap s)))) /\
  (ts_leb (to_datetime_date (fst (date_range sel)))
          (to_datetime_date (snd (date_range sel))) = false ->
   forall r, r ∈ rows df -> daily_keeps df i sel r = false).
Proof.
  intros Hs Hnum Hi Hdt. split.
  - intros Hnone. unfold monthly_section.
    rewrite bind_run, (deref_run _ _ _ Hs).
    rewrite bool_decide_eq_false_2 by (by destruct (Pandas.select_dtypes_number df)).
    destruct (pick_ridership_col_total _ Hnum) as (c & -> & _).
    rewrite bind_run. unfold lift at 1. cbn iota beta.
    rewrite bind_run. unfold lift at 1.
    rewrite (daily_filter_rows py_str df (line sel) (date_range sel) i Hi Hdt).
    change (List.filter _ (rows df)) with (List.filter (daily_keeps df i sel) (rows df)).
    rewrite (List_filter_all_false _ _ Hnone).
    rewrite bind_run. unfold alloc at 1. cbn iota beta.
    rewrite bind_run.
    rewrite (deref_run _ (mkDF (columns df) [])) by apply alloc_lookup.
    reflexivity.
  - intros Hinv r _. unfold daily_keeps, in_range.
    destruct (ts_of_cell (Pandas.cell_at i r)) as [t|]; [|done].
    destruct (ts_leb _ t) eqn:E1; [|done].
    destruct (ts_leb t _) eqn:E2; [|done].
    by rewrite (ts_leb_trans _ _ _ E1 E2) in Hinv.
Qed.

(** X10: The monthly section on a daily frame with distinct labels, a [date]
    column of timestamps and a numeric column, none of them labelled
    [month]: when at least one row passes the filter, the section does not
    raise; it renders the chart of a non-empty summary and then the info
    line with the mean of the totals and the peak, and leaves the filtered
    frame, with its [month] column, as a new object. *)
Theorem monthly_section_succeeds (s : state) (df : DataFrame) (r0 i : nat) (sel : Selection)
    (r : row) :
  heap s !! daily_df = Some df ->
  well_formed df ->
  NoDup (fst <$> columns df) ->
  Pandas.select_dtypes_number df <> [] ->
  "month" ∉ Pandas.select_dtypes_number df ->
  Pandas.col_index "date" (columns df) = Some i ->
  nth i (snd <$> columns df) object = datetime ->
  r ∈ rows df -> daily_keeps df i sel r = true ->
  exists c filtered monthly_summary p peak,
    pick_ridership_col (Pandas.select_dtypes_number df) = Ok c /\
    monthly_section py_str daily_df r0 sel s
    = (mkState (heap s ++ [filtered])
         (rendered s ++
          [MonthlyChart monthly_summary;
           MonthlyInfo (Pandas.nanmean (totals monthly_summary)) (fst peak) (snd peak)]),
       Ok (length (heap s))) /\
    Pandas.has_column "month" filtered = true /\
    monthly_summary <> [] /\
    Pandas.idxmax (totals monthly_summary) = Ok p /\
    monthly_summary !! p = Some peak.
Proof.
  intros Hs Hwf Hnd Hnum Hmonth Hi Hdt Hr Hkeep.
  destruct (pick_ridership_col_total _ Hnum) as (c & Hc & Hcin).
  destruct (select_dtypes_number_col c df Hnd Hcin) as (j & Hj & Hjdt).
  assert (Hcm : c <> "month") by (intros ->; done).
  set (kept := List.filter (daily_keeps df i sel) (rows df)).
  set (filtered := mkDF (columns df) kept).
  assert (Hwf' : well_formed filtered) by by apply well_formed_filter.
  assert (Hrk : r ∈ kept) by by apply elem_of_List_filter.
  pose proof (monthly_groupby_run filtered c i j Hwf' Hi Hj Hjdt Hcm) as Hrun.
  set (with_month := Pandas.setitem "month" datetime _ filtered) in *.
  set (monthly_summary := Pandas.groupby_agg _ _ _) in *.
  assert (Hsome : exists m total, (m, total) ∈ monthly_summary).
  { unfold daily_keeps, in_range in Hkeep.
    destruct (ts_of_cell (Pandas.cell_at i r)) as [t|] eqn:Ht; [|done].
    exists (month_start t), (Pandas.nansum
      ((fun x => Pandas.num_of_cell (Pandas.cell_at j x))
         <$> List.filter (fun x => key_is (month_start t)
                                     (month_start <$> ts_of_cell (Pandas.cell_at i x))) kept)).
    apply (groupby_agg_elem_of Pandas.nansum
             (fun x => month_start <$> ts_of_cell (Pandas.cell_at i x)) (Pandas.cell_at j)).
    split; [|done]. exists r. split; [done|]. by rewrite Ht. }
  destruct Hsome as (m & total & Hin).
  assert (Hne : monthly_summary <> []).
  { intros Hnil. rewrite Hnil in Hin. by apply elem_of_nil in Hin. }
  destruct (idxmax_total (totals monthly_summary) total) as [p Hp].
  { unfold totals. apply list_elem_of_fmap. by exists (m, total). }
  assert (Hlt : (p < length monthly_summary)%nat).
  { pose proof (idxmax_spec (totals monthly_summary)) as Hspec. rewrite Hp in Hspec.
    destruct Hspec as (mp & Hlk & _). apply lookup_lt_Some in Hlk.
    unfold totals in Hlk. by rewrite length_fmap in Hlk. }
  destruct (lookup_lt_is_Some_2 _ _ Hlt) as [peak Hpeak].
  exists c, with_month, monthly_summary, p, peak.
  split_and!; [done| | |done|done|done].
  - unfold monthly_section.
    rewrite bind_run, (deref_run _ _ _ Hs).
    rewrite bool_decide_eq_false_2 by (by destruct (Pandas.select_dtypes_number df)).
    rewrite Hc.
    rewrite bind_run. unfold lift at 1. cbn iota beta.
    rewrite bind_run. unfold lift at 1.
    rewrite (daily_filter_rows py_str df (line sel) (date_range sel) i Hi Hdt).
    change (mkDF (columns df) (List.filter _ (rows df))) with filtered.
    rewrite bind_run. unfold alloc at 1. cbn iota beta.
    rewrite bind_run.
    rewrite (deref_run _ filtered) by apply alloc_lookup.
    assert (negb (Pandas.empty filtered) = true) as ->.
    { unfold Pandas.empty. simpl. destruct kept; [by apply elem_of_nil in Hrk|done]. }
    rewrite bind_run, bind_run. unfold lift at 1.
    rewrite (getitem_Some "date" filtered i Hi).
    rewrite bind_run. unfold assign at 1. cbn [heap rendered].
    rewrite assign_last. fold with_month.
    rewrite bind_run, (deref_run _ with_month) by apply alloc_lookup.
    rewrite bind_run. unfold lift at 1. rewrite Hrun.
    rewrite bind_run. unfold render at 1. cbn [heap rendered].
    rewrite bind_run. unfold lift at 1. rewrite Hp.
    rewrite bind_run. unfold lift at 1, loc. rewrite Hpeak.
    unfold render. cbn [heap rendered]. by rewrite <- app_assoc.
  - apply has_column_true.
    destruct (setitem_spec "month" datetime
              ((fun c0 => CTime (month_start <$> ts_of_cell c0)) ∘ Pandas.cell_at i)
              filtered Hwf') as (k & g & Hk & _).
    exists k. unfold with_month, dt_month_start. simpl values.
    by rewrite <- list_fmap_compose.
Qed.

End MonthlyRun.

Lemma monthly_section_no_data_witness :
  monthly_section no_str daily_df 2 (mkSel Tourist "Weekday" "A" (mkDate 2025 1 1, mkDate 2025 12 31))
    (mkState [ex_daily; ex_hourly] [])
  = (mkState [ex_daily; ex_hourly; mkDF (columns ex_daily) []] [Warning NoMonthlyData],
     Ok 2%nat).
Proof.
  apply (monthly_section_no_data no_str (mkState [ex_daily; ex_hourly] []) ex_daily 2 0);
    [reflexivity|by vm_compute|reflexivity|reflexivity|].
  intros r Hr. unfold ex_daily in Hr. simpl in Hr.
  repeat (apply elem_of_cons in Hr as [->|Hr]; [reflexivity|]).
  by apply elem_of_nil in Hr.
Defined.

Lemma monthly_section_succeeds_witness :
  exists c filtered monthly_summary p peak,
    pick_ridership_col (Pandas.select_dtypes_number ex_daily) = Ok c /\
    monthly_section no_str daily_df 2 (ex_sel Tourist "Weekday" "A")
      (mkState [ex_daily; ex_hourly] [])
    = (mkState ([ex_daily; ex_hourly] ++ [filtered])
         ([] ++ [MonthlyChart monthly_summary;
                 MonthlyInfo (Pandas.nanmean (totals monthly_summary)) (fst peak) (snd peak)]),
       Ok 2%nat) /\
    Pandas.has_column "month" filtered = true /\
    monthly_summary <> [] /\
    Pandas.idxmax (totals monthly_summary) = Ok p /\
    monthly_summary !! p = Some peak.
Proof.
  refine (monthly_section_succeeds no_str (mkState [ex_daily; ex_hourly] []) ex_daily 2 0
            (ex_sel Tourist "Weekday" "A") _ eq_refl _ _ _ _ eq_refl eq_refl _ _).
  - repeat constructor.
  - by_compute.
  - by vm_compute.
  - by_compute.
  - left.
  - reflexivity.
Defined.

(** ** The hourly section, run as a whole *)

Lemma nanmean_is_Some (vs : list (option Qc)) (x : Qc) :
  Some x ∈ vs -> is_Some (Pandas.nanmean vs).
Proof.
  intros Hin. unfold Pandas.nanmean.
  assert (x ∈ Pandas.dropna vs) as Hx.
  { unfold Pandas.dropna. apply list_elem_of_omap. by exists (Some x). }
  destruct (Pandas.dropna vs); [by apply elem_of_nil in Hx|by eexists].
Qed.

Lemma pick_ridership_col_hour (numeric_cols : list string) :
  numeric_cols <> [] ->
  pick_ridership_col (numeric_cols ++ ["hour"]) = pick_ridership_col numeric_cols.
Proof.
  intros Hne. unfold pick_ridership_col. rewrite List.filter_app.
  change (List.filter ridership_like ["hour"]) with (@nil string).
  rewrite app_nil_r. destruct (List.filter ridership_like numeric_cols); [|done].
  by destruct numeric_cols.
Qed.

Lemma select_dtypes_number_app (cols : list (string * dtype)) (rs rs' : list row)
    (name : string) :
  Pandas.select_dtypes_number (mkDF (cols ++ [(name, number)]) rs')
  = Pandas.select_dtypes_number (mkDF cols rs) ++ [name].
Proof.
  unfold Pandas.select_dtypes_number. simpl. by rewrite List.filter_app, fmap_app.
Qed.

Section HourlyRun.
Variable py_str : cell -> string.
Variable py_to_datetime : cell -> option Timestamp.
Variable py_int : cell -> option Z.

(** The condition of the category filter on one row. *)
Definition hourly_keeps (d l : nat) (sel : Selection) (r : row) : bool :=
  label_matches py_str (day_type sel) (Pandas.cell_at d r)
  && label_matches py_str (line sel) (Pandas.cell_at l r).

Lemma hourly_section_filtered (s : state) (df : DataFrame) (sel : Selection) (d l : nat) :
  heap s !! hourly_df = Some df ->
  Pandas.col_index "day_type" (columns df) = Some d ->
  Pandas.col_index "line_tag" (columns df) = Some l ->
  let filtered := mkDF (columns df) (List.filter (hourly_keeps d l sel) (rows df)) in
  let n := length (heap s) in
  hourly_section py_str py_to_datetime py_int hourly_df sel s
  = ((if negb (Pandas.empty filtered) then
        prepare_hour py_to_datetime py_int n;;
        hf ← deref n;
        let numeric_cols := Pandas.select_dtypes_number hf in
        ridership_col ← lift (pick_ridership_col numeric_cols);
        grouped ← lift (groupby_reset Pandas.num_of_cell Pandas.nanmean "hour" ridership_col hf);
        let hourly_avg := Pandas.sort_values grouped in
        render (HourlyBar hourly_avg);;
        render (HourlyLine hourly_avg);;
        i ← lift (Pandas.idxmax (snd <$> hourly_avg));
        peak ← lift (loc i hourly_avg);
        render (PeakHourInfo (Pandas.Qc_trunc (fst peak)))
      else render (Warning NoHourlyData));;
     mret n) (mkState (heap s ++ [filtered]) (rendered s)).
Proof.
  intros Hs Hd Hl filtered n. unfold hourly_section.
  rewrite bind_run, (deref_run _ _ _ Hs).
  rewrite bind_run. unfold lift at 1.
  rewrite (hourly_filter_rows py_str df (day_type sel) (line sel) d l Hd Hl).
  change (mkDF (columns df) (List.filter _ (rows df))) with filtered.
  rewrite bind_run. unfold alloc at 1. cbn iota beta.
  rewrite bind_run.
  by rewrite (deref_run _ filtered) by apply alloc_lookup.
Qed.

(** X11: When no row of the hourly frame has the selected day type and line,
    the hourly section shows the no-data warning only and ends normally,
    leaving an empty frame with the columns of the hourly frame: no [hour]
    column is added.  The heatmap, which comes next and does not test for
    an empty frame, then raises [KeyError] on [hour] when the hourly frame
    has a [ridership] column and no [hour] column of its own. *)
Theorem empty_selection_stops_at_heatmap (s : state) (df : DataFrame) (sel : Selection)
    (d l : nat) :
  heap s !! hourly_df = Some df ->
  Pandas.col_index "day_type" (columns df) = Some d ->
  Pandas.col_index "line_tag" (columns df) = Some l ->
  (forall r, r ∈ rows df -> hourly_keeps d l sel r = false) ->
  let s' := mkState (heap s ++ [mkDF (columns df) []])
                    (rendered s ++ [Warning NoHourlyData]) in
  hourly_section py_str py_to_datetime py_int hourly_df sel s = (s', Ok (length (heap s))) /\
  (Pandas.has_column "ridership" df = true -> Pandas.has_column "hour" df = false ->
   (hourly_filtered ← hourly_section py_str py_to_datetime py_int hourly_df sel;
    heatmap_section hourly_filtered) s = (s', Raise (KeyError "hour"))).
Proof.
  intros Hs Hd Hl Hnone s'.
  assert (Hrun : hourly_section py_str py_to_datetime py_int hourly_df sel s
                 = (s', Ok (length (heap s)))).
  { rewrite (hourly_section_filtered s df sel d l Hs Hd Hl).
    by rewrite (List_filter_all_false _ _ Hnone). }
  split; [done|]. intros Hv Hh. rewrite bind_run, Hrun.
  apply (heatmap_raises_without_hour s' (length (heap s)) (mkDF (columns df) [])).
  - apply alloc_lookup.
  - apply has_column_true. eauto.
  - done.
  - done.
Qed.

(** X12: With neither a [time] nor an [hour] column the warning of line 139 is
    not the end: the section goes on to the aggregation and raises, with
    [IndexError] when the frame has no numeric column and with [KeyError]
    on [hour] otherwise.  Nothing but the warning is rendered. *)
Theorem no_time_column_warns_then_raises (s : state) (df : DataFrame) (sel : Selection)
    (d l : nat) (r : row) :
  heap s !! hourly_df = Some df ->
  Pandas.col_index "day_type" (columns df) = Some d ->
  Pandas.col_index "line_tag" (columns df) = Some l ->
  Pandas.has_column "time" df = false ->
  Pandas.has_column "hour" df = false ->
  r ∈ rows df -> hourly_keeps d l sel r = true ->
  hourly_section py_str py_to_datetime py_int hourly_df sel s
  = (mkState (heap s ++ [mkDF (columns df) (List.filter (hourly_keeps d l sel) (rows df))])
             (rendered s ++ [Warning NoTimeColumn]),
     Raise (if bool_decide (Pandas.select_dtypes_number df = []) then IndexError
            else KeyError "hour")).
Proof.
  intros Hs Hd Hl Ht Hh Hr Hkeep.
  rewrite (hourly_section_filtered s df sel d l Hs Hd Hl).
  set (kept := List.filter (hourly_keeps d l sel) (rows df)).
  set (filtered := mkDF (columns df) kept).
  assert (Hrk : r ∈ kept) by by apply elem_of_List_filter.
  assert (negb (Pandas.empty filtered) = true) as ->.
  { unfold Pandas.empty. simpl. destruct kept; [by apply elem_of_nil in Hrk|done]. }
  rewrite bind_run, bind_run. unfold prepare_hour.
  rewrite bind_run, (deref_run _ filtered) by apply alloc_lookup.
  change (Pandas.has_column "time" filtered) with (Pandas.has_column "time" df).
  change (Pandas.has_column "hour" filtered) with (Pandas.has_column "hour" df).
  rewrite Ht, Hh. unfold render at 1. cbn [heap rendered].
  rewrite bind_run, (deref_run _ filtered) by apply alloc_lookup.
  change (Pandas.select_dtypes_number filtered) with (Pandas.select_dtypes_number df).
  rewrite bind_run. unfold lift at 1.
  destruct (Pandas.select_dtypes_number df) as [|c0 cs] eqn:Hnum.
  - reflexivity.
  - destruct (pick_ridership_col_total (c0 :: cs)) as (c & -> & _); [done|].
    rewrite bind_run. unfold lift at 1, groupby_reset.
    by rewrite (getitem_None "hour" filtered Hh).
Qed.

(** X13: Without a [time] column the [hour] column is converted with
    [astype(int)], which does not accept a missing value: one selected row
    whose hour does not convert makes the section raise [ValueError] before
    anything is rendered.  (With a [time] column, a time that does not
    parse only leaves its row out of the groups.) *)
Theorem missing_hour_is_fatal (s : state) (df : DataFrame) (sel : Selection)
    (d l h : nat) (r : row) :
  heap s !! hourly_df = Some df ->
  Pandas.col_index "day_type" (columns df) = Some d ->
  Pandas.col_index "line_tag" (columns df) = Some l ->
  Pandas.has_column "time" df = false ->
  Pandas.col_index "hour" (columns df) = Some h ->
  r ∈ rows df -> hourly_keeps d l sel r = true ->
  int_of_cell py_int (Pandas.cell_at h r) = None ->
  hourly_section py_str py_to_datetime py_int hourly_df sel s
  = (mkState (heap s ++ [mkDF (columns df) (List.filter (hourly_keeps d l sel) (rows df))])
             (rendered s),
     Raise (ValueError "cannot convert to integer")).
Proof.
  intros Hs Hd Hl Ht Hh Hr Hkeep Hint.
  rewrite (hourly_section_filtered s df sel d l Hs Hd Hl).
  set (kept := List.filter (hourly_keeps d l sel) (rows df)).
  set (filtered := mkDF (columns df) kept).
  assert (Hrk : r ∈ kept) by by apply elem_of_List_filter.
  assert (negb (Pandas.empty filtered) = true) as ->.
  { unfold Pandas.empty. simpl. destruct kept; [by apply elem_of_nil in Hrk|done]. }
  rewrite bind_run, bind_run. unfold prepare_hour.
  rewrite bind_run, (deref_run _ filtered) by apply alloc_lookup.
  change (Pandas.has_column "time" filtered) with (Pandas.has_column "time" df).
  change (Pandas.has_column "hour" filtered) with (Pandas.has_column "hour" df).
  rewrite Ht. assert (Pandas.has_column "hour" df = true) as ->
    by (apply has_column_true; eauto).
  rewrite bind_run. unfold lift at 1.
  rewrite (getitem_Some "hour" filtered h Hh).
  rewrite bind_run. unfold lift at 1, astype_int. simpl values.
  assert (mapM (int_of_cell py_int) (Pandas.cell_at h <$> kept) = None) as ->; [|done].
  apply eq_None_not_Some. intros Hsome%mapM_is_Some.
  rewrite Forall_fmap, Forall_forall in Hsome.
  specialize (Hsome r Hrk). simpl in Hsome. rewrite Hint in Hsome. by destruct Hsome.
Qed.

Lemma prepare_hour_time_run (s : state) (n : nat) (hf : DataFrame) (t : nat) :
  heap s !! n = Some hf ->
  Pandas.col_index "time" (columns hf) = Some t ->
  prepare_hour py_to_datetime py_int n s
  = (mkState (<[n := Pandas.setitem "hour" number
                       ((fun r => CNum (Qc_of_Z ∘ hour
                                          <$> to_datetime_cell py_to_datetime (Pandas.cell_at t r)))
                          <$> rows hf) hf]> (heap s))
             (rendered s), Ok tt).
Proof.
  intros Hs Ht. unfold prepare_hour. rewrite bind_run, (deref_run _ _ _ Hs).
  assert (Pandas.has_column "time" hf = true) as -> by (apply has_column_true; eauto).
  rewrite bind_run. unfold lift. rewrite (getitem_Some _ _ _ Ht).
  unfold assign, dt_hour. simpl. by rewrite <- list_fmap_compose.
Qed.

(** X14: The hourly section on a frame with a [time] column, no [hour] column,
    distinct labels and at least one numeric column, for a selection that
    some row matches.  The detected column is the one detection picks on
    the loaded frame (the new [hour] column is never picked); the two
    charts show, per hour of the parsed times, the mean of that column over
    the selected rows.  The section ends normally with the peak hour when
    some average is a number, as is the case when one selected row has a
    time and a count; when none is, the charts are rendered and the search
    for the peak raises. *)
Theorem hourly_section_time_path (s : state) (df : DataFrame) (sel : Selection)
    (d l t : nat) (r : row) :
  heap s !! hourly_df = Some df ->
  well_formed df ->
  NoDup (fst <$> columns df) ->
  Pandas.col_index "day_type" (columns df) = Some d ->
  Pandas.col_index "line_tag" (columns df) = Some l ->
  Pandas.col_index "time" (columns df) = Some t ->
  Pandas.has_column "hour" df = false ->
  Pandas.select_dtypes_number df <> [] ->
  r ∈ rows df -> hourly_keeps d l sel r = true ->
  exists c j hf',
    pick_ridership_col (Pandas.select_dtypes_number df) = Ok c /\
    Pandas.col_index c (columns df) = Some j /\
    let kept := List.filter (hourly_keeps d l sel) (rows df) in
    let hour_of (x : row) :=
      Qc_of_Z ∘ hour <$> to_datetime_cell py_to_datetime (Pandas.cell_at t x) in
    let hourly_avg :=
      Pandas.groupby_agg Pandas.nanmean (hour_of <$> kept) (Pandas.cell_at j <$> kept) in
    let charts := [HourlyBar hourly_avg; HourlyLine hourly_avg] in
    match Pandas.idxmax (snd <$> hourly_avg) with
    | Ok p =>
        exists peak, hourly_avg !! p = Some peak /\
          hourly_section py_str py_to_datetime py_int hourly_df sel s
          = (mkState (heap s ++ [hf'])
               (rendered s ++ charts ++ [PeakHourInfo (Pandas.Qc_trunc (fst peak))]),
             Ok (length (heap s)))
    | Raise e =>
        hourly_section py_str py_to_datetime py_int hourly_df sel s
        = (mkState (heap s ++ [hf']) (rendered s ++ charts), Raise e)
    end /\
    (is_Some (hour_of r) -> is_Some (Pandas.num_of_cell (Pandas.cell_at j r)) ->
     exists p, Pandas.idxmax (snd <$> hourly_avg) = Ok p).
Proof.
  intros Hs Hwf Hnd Hd Hl Ht Hh Hnum Hr Hkeep.
  destruct (pick_ridership_col_total _ Hnum) as (c & Hc & Hcin).
  destruct (select_dtypes_number_col c df Hnd Hcin) as (j & Hj & Hjdt).
  pose proof (proj1 (has_column_false _ _) Hh) as Hnone.
  assert (Hch : c <> "hour") by (intros ->; congruence).
  set (kept := List.filter (hourly_keeps d l sel) (rows df)).
  set (filtered := mkDF (columns df) kept).
  assert (Hwf' : well_formed filtered) by by apply well_formed_filter.
  assert (Hrk : r ∈ kept) by by apply elem_of_List_filter.
  set (hour_of := fun x : row =>
         Qc_of_Z ∘ hour <$> to_datetime_cell py_to_datetime (Pandas.cell_at t x)).
  set (f := fun x : row => CNum (hour_of x)).
  set (hf' := Pandas.setitem "hour" number (f <$> rows filtered) filtered).
  destruct (setitem_spec "hour" number f filtered Hwf')
    as (k & g & Hk & _ & Hrows & Hcell & Hother).
  fold hf' in Hk, Hrows, Hother.
  destruct (Hother c j Hch Hj) as (Hj' & Hdt' & Hcj).
  set (hourly_avg := Pandas.groupby_agg Pandas.nanmean (hour_of <$> kept)
                       (Pandas.cell_at j <$> kept)).
  assert (Hgroup : groupby_reset Pandas.num_of_cell Pandas.nanmean "hour" c hf'
                   = Ok hourly_avg).
  { rewrite (groupby_reset_run Pandas.num_of_cell Pandas.nanmean "hour" c hf' k j);
      [|done|done|by rewrite Hdt'|congruence].
    rewrite Hrows, <- !list_fmap_compose. unfold hourly_avg. do 2 f_equal.
    - apply Forall_fmap_ext, Forall_forall. intros x Hx; simpl.
      by rewrite (Hcell x Hx).
    - apply Forall_fmap_ext, Forall_forall. intros x Hx; simpl. by apply Hcj. }
  assert (Hsv : Pandas.sort_values hourly_avg = hourly_avg)
    by apply sort_values_sorted, groupby_agg_sorted.
  assert (Hpick : pick_ridership_col (Pandas.select_dtypes_number hf') = Ok c).
  { unfold hf', Pandas.setitem. change (columns filtered) with (columns df).
    rewrite Hnone.
    rewrite (select_dtypes_number_app (columns df) (rows df)).
    by rewrite pick_ridership_col_hour. }
  assert (Hstart : hourly_section py_str py_to_datetime py_int hourly_df sel s
    = ((render (HourlyBar hourly_avg);;
        render (HourlyLine hourly_avg);;
        i ← lift (Pandas.idxmax (snd <$> hourly_avg));
        peak ← lift (loc i hourly_avg);
        render (PeakHourInfo (Pandas.Qc_trunc (fst peak))));;
       mret (length (heap s))) (mkState (heap s ++ [hf']) (rendered s))).
  { rewrite (hourly_section_filtered s df sel d l Hs Hd Hl).
    change (mkDF (columns df) (List.filter _ (rows df))) with filtered.
    assert (negb (Pandas.empty filtered) = true) as ->.
    { unfold Pandas.empty. simpl. destruct kept; [by apply elem_of_nil in Hrk|done]. }
    rewrite bind_run, bind_run.
    rewrite (prepare_hour_time_run _ _ filtered t) by (done || apply alloc_lookup).
    cbn [heap rendered]. rewrite assign_last.
    change (Pandas.setitem "hour" number _ filtered) with hf'.
    rewrite bind_run, (deref_run _ hf') by apply alloc_lookup.
    rewrite Hpick. rewrite bind_run. unfold lift at 1. cbn iota beta.
    rewrite bind_run. unfold lift at 1. rewrite Hgroup. cbn iota beta.
    rewrite Hsv. by rewrite bind_run. }
  exists c, j, hf'. split; [done|]. split; [done|].
  cbn zeta. fold kept. fold hour_of. fold hourly_avg. split.
  - destruct (Pandas.idxmax (snd <$> hourly_avg)) as [p|e] eqn:Hp.
    + assert (Hlt : (p < length hourly_avg)%nat).
      { pose proof (idxmax_spec (snd <$> hourly_avg)) as Hspec. rewrite Hp in Hspec.
        destruct Hspec as (mp & Hlk & _). apply lookup_lt_Some in Hlk.
        by rewrite length_fmap in Hlk. }
      destruct (lookup_lt_is_Some_2 _ _ Hlt) as [peak Hpeak].
      exists peak. split; [done|]. rewrite Hstart.
      rewrite bind_run, bind_run. unfold render at 1. cbn [heap rendered].
      rewrite bind_run. unfold render at 1. cbn [heap rendered].
      rewrite bind_run. unfold lift at 1. cbn iota beta.
      rewrite bind_run. unfold lift at 1, loc. rewrite Hpeak.
      unfold render. cbn [heap rendered]. by rewrite <- !app_assoc.
    + rewrite Hstart.
      rewrite bind_run, bind_run. unfold render at 1. cbn [heap rendered].
      rewrite bind_run. unfold render at 1. cbn [heap rendered].
      rewrite bind_run. unfold lift at 1. cbn iota beta.
      by rewrite <- !app_assoc.
  - intros [h Hhour] [v Hv].
    set (riders := (fun x => Pandas.num_of_cell (Pandas.cell_at j x))
                     <$> List.filter (fun x => key_is h (hour_of x)) kept).
    assert (Hin : (h, Pandas.nanmean riders) ∈ hourly_avg).
    { apply (groupby_agg_elem_of Pandas.nanmean hour_of (Pandas.cell_at j)).
      split; [|done]. by exists r. }
    destruct (nanmean_is_Some riders v) as [m Hm].
    { unfold riders. apply list_elem_of_fmap. exists r. split; [done|].
      apply elem_of_List_filter. split; [done|]. by apply key_is_true. }
    apply (idxmax_total _ m). apply list_elem_of_fmap.
    exists (h, Pandas.nanmean riders). split; [by rewrite Hm|done].
Qed.

End HourlyRun.

(** An hourly frame without a [time] and without an [hour] column. *)
Definition ex_hourly_no_time : DataFrame :=
  mkDF [("day_type", object); ("line_tag", object); ("ridership", number)]
    [ [ex_str "Weekday"; ex_str "A"; ex_num 100] ].

(** An hourly frame with an [hour] column, one hour missing. *)
Definition ex_hourly_hours : DataFrame :=
  mkDF [("hour", number); ("day_type", object); ("line_tag", object); ("ridership", number)]
    [ [ex_num 7; ex_str "Weekday"; ex_str "A"; ex_num 100];
      [CNum None; ex_str "Weekday"; ex_str "A"; ex_num 50] ].

Lemma empty_selection_stops_at_heatmap_witness :
  (hourly_filtered ← hourly_section no_str no_datetime no_int hourly_df
                       (ex_sel Tourist "Weekend" "A");
   heatmap_section hourly_filtered) (mkState [ex_daily; ex_hourly] [])
  = (mkState [ex_daily; ex_hourly; mkDF (columns ex_hourly) []] [Warning NoHourlyData],
     Raise (KeyError "hour")).
Proof.
  apply (empty_selection_stops_at_heatmap no_str no_datetime no_int
           (mkState [ex_daily; ex_hourly] []) ex_hourly (ex_sel Tourist "Weekend" "A") 1 2);
    [reflexivity|reflexivity|reflexivity| |reflexivity|reflexivity].
  intros r Hr. unfold ex_hourly in Hr. simpl in Hr.
  repeat (apply elem_of_cons in Hr as [->|Hr]; [reflexivity|]).
  by apply elem_of_nil in Hr.
Defined.

Lemma no_time_column_warns_then_raises_witness :
  hourly_section no_str no_datetime no_int hourly_df (ex_sel Tourist "weekday" "a")
    (mkState [ex_daily; ex_hourly_no_time] [])
  = (mkState [ex_daily; ex_hourly_no_time; ex_hourly_no_time] [Warning NoTimeColumn],
     Raise (KeyError "hour")).
Proof.
  apply (no_time_column_warns_then_raises no_str no_datetime no_int
           (mkState [ex_daily; ex_hourly_no_time] []) ex_hourly_no_time
           (ex_sel Tourist "weekday" "a") 0 1 [ex_str "Weekday"; ex_str "A"; ex_num 100]);
    [reflexivity|reflexivity|reflexivity|reflexivity|reflexivity|left|reflexivity].
Defined.

Lemma missing_hour_is_fatal_witness :
  hourly_section no_str no_datetime no_int hourly_df (ex_sel Worker "Weekday" "A")
    (mkState [ex_daily; ex_hourly_hours] [])
  = (mkState [ex_daily; ex_hourly_hours; ex_hourly_hours] [],
     Raise (ValueError "cannot convert to integer")).
Proof.
  apply (missing_hour_is_fatal no_str no_datetime no_int
           (mkState [ex_daily; ex_hourly_hours] []) ex_hourly_hours
           (ex_sel Worker "Weekday" "A") 1 2 0
           [CNum None; ex_str "Weekday"; ex_str "A"; ex_num 50]);
    [reflexivity|reflexivity|reflexivity|reflexivity|reflexivity| |reflexivity|reflexivity].
  right; left.
Defined.

Lemma hourly_section_time_path_witness :
  exists hf' hourly_avg peak,
    hourly_section no_str no_datetime no_int hourly_df (ex_sel Tourist "Weekday" "A")
      (mkState [ex_daily; ex_hourly] [])
    = (mkState [ex_daily; ex_hourly; hf']
         [HourlyBar hourly_avg; HourlyLine hourly_avg; PeakHourInfo peak],
       Ok 2%nat).
Proof.
  destruct (hourly_section_time_path no_str no_datetime no_int
              (mkState [ex_daily; ex_hourly] []) ex_hourly (ex_sel Tourist "Weekday" "A")
              1 2 0 [ex_ts 2024 1 1 7; ex_str "Weekday"; ex_str "A"; ex_num 100])
    as (c & j & hf' & Hc & Hj & Hrun & Hpeak).
  - reflexivity.
  - repeat constructor.
  - by_compute.
  - reflexivity.
  - reflexivity.
  - reflexivity.
  - reflexivity.
  - by vm_compute.
  - left.
  - reflexivity.
  - injection Hc as <-. injection Hj as <-. cbn zeta in Hrun, Hpeak.
    destruct (Pandas.idxmax _) as [p|e] eqn:Hp.
    + destruct Hrun as (peak & _ & Hrun). by eexists _, _, _.
    + exfalso. destruct Hpeak as [p' Hp']; [by eexists|by eexists|].
      first [discriminate Hp'|congruence].
Defined.

(** ** The heatmap *)

Lemma zip_with_fmap_fmap {A B C D} (h : B -> C -> D) (f : A -> B) (g : A -> C) (l : list A) :
  zip_with h (f <$> l) (g <$> l) = (fun x => h (f x) (g x)) <$> l.
Proof. induction l as [|x l IH]; [done|]. cbn. f_equal. exact IH. Qed.

(** The key of a row in the pivot table: its hour and its day type, when
    it has both. *)
Definition pivot_key (i d : nat) (r : row) : option (Qc * string) :=
  h ← Pandas.num_of_cell (Pandas.cell_at i r);
  lab ← label_of_cell (Pandas.cell_at d r);
  Some (h, lab).

Lemma pivot_table_mean_run (hf : DataFrame) (i d v : nat) :
  Pandas.col_index "hour" (columns hf) = Some i ->
  Pandas.col_index "day_type" (columns hf) = Some d ->
  Pandas.col_index "ridership" (columns hf) = Some v ->
  nth v (snd <$> columns hf) object = number ->
  pivot_table_mean "ridership" "hour" "day_type" hf
  = Ok (omap (fun g => pair (fst g) <$> snd g)
          (Pandas.groupby_agg Pandas.nanmean (pivot_key i d <$> rows hf)
             (Pandas.cell_at v <$> rows hf))).
Proof.
  intros Hi Hd Hv Hdt. unfold pivot_table_mean.
  rewrite (getitem_Some _ _ _ Hi), (getitem_Some _ _ _ Hd), (getitem_Some _ _ _ Hv).
  simpl. rewrite Hdt. simpl. by rewrite zip_with_fmap_fmap.
Qed.

Section Heatmap.
Variable py_str : cell -> string.

(** X15: The heatmap of a frame with the three columns it reads, [ridership]
    being numeric: it is rendered, with one cell per pair of an hour and a
    day-type label that some row holds and whose mean is a number, the cell
    holding the mean of [ridership] over the rows of that pair.  On a frame
    that went through the category filter every cell belongs to the selected
    day type, up to letter case. *)
Theorem heatmap_cells (s : state) (n : nat) (hf : DataFrame) (i d v : nat) :
  heap s !! n = Some hf ->
  Pandas.col_index "hour" (columns hf) = Some i ->
  Pandas.col_index "day_type" (columns hf) = Some d ->
  Pandas.col_index "ridership" (columns hf) = Some v ->
  nth v (snd <$> columns hf) object = number ->
  exists pivot_df,
    heatmap_section n s = (mkState (heap s) (rendered s ++ [Heatmap pivot_df]), Ok tt) /\
    (forall h lab m, ((h, lab), m) ∈ pivot_df <->
       (exists r, r ∈ rows hf /\ pivot_key i d r = Some (h, lab)) /\
       Pandas.nanmean ((fun r => Pandas.num_of_cell (Pandas.cell_at v r))
                         <$> List.filter (fun r => key_is (h, lab) (pivot_key i d r)) (rows hf))
       = Some m) /\
    forall x, (forall r, r ∈ rows hf -> label_matches py_str x (Pandas.cell_at d r) = true) ->
      forall h lab m, ((h, lab), m) ∈ pivot_df -> PyStr.lower lab = PyStr.lower x.
Proof.
  intros Hs Hi Hd Hv Hdt. eexists.
  assert (Hcells : forall h lab m,
    ((h, lab), m) ∈ omap (fun g : (Qc * string) * option Qc => pair (fst g) <$> snd g)
                      (Pandas.groupby_agg Pandas.nanmean (pivot_key i d <$> rows hf)
                         (Pandas.cell_at v <$> rows hf)) <->
    (exists r, r ∈ rows hf /\ pivot_key i d r = Some (h, lab)) /\
    Pandas.nanmean ((fun r => Pandas.num_of_cell (Pandas.cell_at v r))
                      <$> List.filter (fun r => key_is (h, lab) (pivot_key i d r)) (rows hf))
    = Some m).
  { intros h lab m. rewrite list_elem_of_omap. split.
    - intros ([k o] & Hin & Heq). simpl in Heq.
      destruct o as [m'|]; simplify_eq/=.
      apply (groupby_agg_elem_of Pandas.nanmean (pivot_key i d) (Pandas.cell_at v)) in Hin
        as [Hr Hm]. by split.
    - intros [Hr Hm]. exists ((h, lab), Some m). split; [|done].
      apply (groupby_agg_elem_of Pandas.nanmean (pivot_key i d) (Pandas.cell_at v)).
      by split. }
  split_and!.
  - unfold heatmap_section. rewrite bind_run, (deref_run _ _ _ Hs).
    assert (Pandas.has_column "day_type" hf = true) as -> by (apply has_column_true; eauto).
    rewrite bind_run. unfold lift at 1.
    by rewrite (pivot_table_mean_run hf i d v Hi Hd Hv Hdt).
  - exact Hcells.
  - intros x Hx h lab m [(r & Hr & Hkey) _]%Hcells.
    specialize (Hx r Hr). unfold label_matches in Hx.
    apply bool_decide_eq_true in Hx. unfold pivot_key in Hkey.
    destruct (Pandas.num_of_cell (Pandas.cell_at i r)); [|done]. simpl in Hkey.
    destruct (Pandas.cell_at d r) as [?|?|[lab'|]]; simplify_eq/=. done.
Qed.

End Heatmap.

Lemma heatmap_cells_witness :
  exists pivot_df,
    heatmap_section 2 ex_state = (mkState (heap ex_state) [Heatmap pivot_df], Ok tt) /\
    ((Qc_of_Z 7, "Weekday"), Qc_of_Z 75) ∈ pivot_df.
Proof.
  destruct (heatmap_cells no_str ex_state 2 ex_filtered 4 1 3)
    as (pivot_df & Hrun & Hcells & _); [reflexivity..|].
  exists pivot_df. split; [done|]. apply Hcells. split.
  - eexists. split; [left|]. by_compute.
  - by_compute.
Defined.

(** ** The Tourist threshold lies among the averages *)

Lemma StronglySorted_nth_le (arr : list Qc) (d : Qc) :
  StronglySorted Qcle arr ->
  forall i j, (i <= j)%nat -> (j < length arr)%nat -> nth i arr d ≤ nth j arr d.
Proof.
  induction 1 as [|x arr Harr IH Hall]; intros i j Hij Hj; simpl in Hj; [lia|].
  destruct i as [|i], j as [|j]; simpl; try lia.
  - apply Qcle_refl.
  - rewrite Forall_forall in Hall. apply Hall.
    apply list_elem_of_In, nth_In. lia.
  - apply IH; lia.
Qed.

Lemma sort_Qc_strongly_sorted (l : list Qc) : StronglySorted Qcle (Pandas.sort_Qc l).
Proof.
  apply Sorted_StronglySorted; [|apply sort_Qc_sorted].
  intros x y z. apply Qcle_trans.
Qed.

(** The virtual index [q * (n - 1)] of a quantile, for [q] between 0 and 1
    and [n] values: its floor is a position of the array and its
    fractional part lies between 0 and 1. *)
Lemma virtual_index_bounds (q : Qc) (n : nat) :
  Qc_of_Z 0 ≤ q -> q ≤ Qc_of_Z 1 -> (1 <= n)%nat ->
  let x := q * (Pandas.Qc_of_nat n - Qc_of_Z 1) in
  (Z.to_nat (Qfloor x) < n)%nat /\
  Qc_of_Z 0 ≤ x - Qc_of_Z (Qfloor x) /\ x - Qc_of_Z (Qfloor x) ≤ Qc_of_Z 1.
Proof.
  intros Hq0 Hq1 Hlen x.
  assert (Hn : (this (Pandas.Qc_of_nat n - Qc_of_Z 1) == inject_Z (Z.of_nat n - 1))%Q).
  { rewrite this_minus. unfold Pandas.Qc_of_nat. rewrite !Qc_of_Z_this.
    replace (Z.of_nat n - 1)%Z with (Z.of_nat n + (-1))%Z by lia.
    rewrite inject_Z_plus. reflexivity. }
  assert (Hm0 : (0 <= inject_Z (Z.of_nat n - 1))%Q).
  { change 0%Q with (inject_Z 0). rewrite <- Zle_Qle. lia. }
  unfold Qcle in Hq0, Hq1. rewrite Qc_of_Z_this in Hq0, Hq1.
  change (inject_Z 0) with 0%Q in Hq0. change (inject_Z 1) with 1%Q in Hq1.
  assert (Hx : (this x == this q * inject_Z (Z.of_nat n - 1))%Q).
  { unfold x. by rewrite this_mult, Hn. }
  assert (Hx0 : (0 <= this x)%Q) by (rewrite Hx; by apply Qmult_le_0_compat).
  assert (Hx1 : (this x <= inject_Z (Z.of_nat n - 1))%Q).
  { rewrite Hx. rewrite <- (Qmult_1_l (inject_Z (Z.of_nat n - 1))) at 2.
    by apply Qmult_le_compat_r. }
  clearbody x. clear Hx Hn.
  assert (Hf0 : (0 <= Qfloor x)%Z).
  { change 0%Z with (Qfloor 0). by apply Qfloor_resp_le. }
  assert (Hf1 : (Qfloor x <= Z.of_nat n - 1)%Z).
  { rewrite <- (Qfloor_Z (Z.of_nat n - 1)). by apply Qfloor_resp_le. }
  split_and!.
  - lia.
  - unfold Qcle. rewrite this_minus, !Qc_of_Z_this.
    apply (proj1 (Qle_minus_iff (inject_Z (Qfloor x)) x)), Qfloor_le.
  - unfold Qcle. rewrite this_minus, !Qc_of_Z_this.
    pose proof (Qlt_floor x) as Hlt. rewrite inject_Z_plus in Hlt.
    apply Qlt_le_weak in Hlt.
    apply (Qplus_le_l _ _ (inject_Z (Qfloor x))).
    eapply Qle_trans; [|rewrite Qplus_comm; exact Hlt].
    apply Qle_lteq. right. unfold Qminus. rewrite <- Qplus_assoc.
    rewrite (Qplus_comm (- inject_Z (Qfloor x))), Qplus_opp_r. apply Qplus_0_r.
Qed.

(** The quantile, for [q] between 0 and 1, lies between two of the values:
    it is at least the order statistic below the virtual index and at most
    the one above. *)
Lemma quantile_between (q : Qc) (vs : list (option Qc)) :
  Qc_of_Z 0 ≤ q -> q ≤ Qc_of_Z 1 -> Pandas.dropna vs <> [] ->
  exists t lo hi,
    Pandas.quantile q vs = Some t /\
    lo ∈ Pandas.dropna vs /\ hi ∈ Pandas.dropna vs /\ lo ≤ t /\ t ≤ hi.
Proof.
  intros Hq0 Hq1 Hne. unfold Pandas.quantile.
  pose proof (sort_Qc_length (Pandas.dropna vs)) as Hlen.
  pose proof (sort_Qc_strongly_sorted (Pandas.dropna vs)) as Hsorted.
  pose proof (sort_Qc_perm (Pandas.dropna vs)) as Hperm.
  set (arr := Pandas.sort_Qc (Pandas.dropna vs)) in *.
  assert (Hn : (1 <= length arr)%nat).
  { rewrite Hlen. destruct (Pandas.dropna vs); [done|simpl; lia]. }
  destruct (virtual_index_bounds q (length arr) Hq0 Hq1 Hn) as (Hprev & Hg0 & Hg1).
  cbn zeta in Hprev, Hg0, Hg1.
  set (x := q * (Pandas.Qc_of_nat (length arr) - Qc_of_Z 1)) in *.
  set (previous := Z.to_nat (Qfloor x)) in *.
  set (next := Nat.min (previous + 1) (length arr - 1)).
  set (g := x - Qc_of_Z (Qfloor x)) in *.
  set (lo := nth previous arr (Qc_of_Z 0)).
  set (hi := nth next arr (Qc_of_Z 0)).
  assert (Hnext : (next < length arr)%nat) by (unfold next; lia).
  assert (Hpn : (previous <= next)%nat) by (unfold next; lia).
  assert (Hlohi : lo ≤ hi) by by apply StronglySorted_nth_le.
  assert (Hd : Qc_of_Z 0 ≤ hi - lo).
  { exact (proj1 (Qcle_minus_iff lo hi) Hlohi). }
  exists (lo + g * (hi - lo)), lo, hi. split_and!.
  - destruct arr; [simpl in Hn; lia|done].
  - rewrite <- Hperm. apply list_elem_of_In, nth_In. exact Hprev.
  - rewrite <- Hperm. apply list_elem_of_In, nth_In. exact Hnext.
  - rewrite <- (Qcplus_0_r lo) at 1. apply Qcplus_le_compat; [apply Qcle_refl|].
    by apply Qcmult_nonneg_nonneg.
  - replace hi with (lo + 1 * (hi - lo)) at 2 by ring.
    apply Qcplus_le_compat; [apply Qcle_refl|].
    apply Qcmult_le_compat_r; [exact Hg1|exact Hd].
Qed.

(** X16: In Tourist mode at least one hour is recommended as soon as one hourly
    average is a number: the threshold is then a number between two of the
    averages, so the hour with the lowest average passes.  When no average
    is a number, the message lists no hour and the chart has no reference
    line. *)
Theorem tourist_recommends_some_hour (s : state) (r : nat) (hf : DataFrame)
    (avg : list (Qc * option Qc)) :
  heap s !! r = Some hf -> rows hf <> [] ->
  groupby_reset Pandas.num_of_cell Pandas.nanmean "hour" "ridership" hf = Ok avg ->
  ((exists h m, (h, Some m) ∈ avg) ->
   exists hours t h_lo lo h_hi hi,
     recommendation_section r Tourist s
     = (mkState (heap s) (rendered s ++ [TouristSuccess hours; RecChart avg (Some t)]), Ok tt) /\
     hours <> [] /\
     (h_lo, Some lo) ∈ avg /\ (h_hi, Some hi) ∈ avg /\ lo ≤ t /\ t ≤ hi /\
     Pandas.Qc_trunc h_lo ∈ hours) /\
  ((forall h m, (h, m) ∈ avg -> m = None) ->
   recommendation_section r Tourist s
   = (mkState (heap s) (rendered s ++ [TouristSuccess []; RecChart avg None]), Ok tt)).
Proof.
  intros Hs Hrows Havg.
  rewrite (recommendation_section_run s r hf Tourist avg Hs Hrows Havg). cbn zeta.
  assert (Hvals : forall x, x ∈ Pandas.dropna (snd <$> avg) <-> exists h, (h, Some x) ∈ avg).
  { intros x. unfold Pandas.dropna. rewrite list_elem_of_omap. split.
    - intros (o & ([h o'] & -> & Hin)%list_elem_of_fmap & Ho). simpl in Ho. subst. eauto.
    - intros [h Hin]. exists (Some x). split; [|done].
      apply list_elem_of_fmap. by exists (h, Some x). }
  split.
  - intros (h & m & Hin).
    destruct (quantile_between (Q2Qc (3 # 10)) (snd <$> avg))
      as (t & lo & hi & Hq & [h_lo Hlo]%Hvals & [h_hi Hhi]%Hvals & Hle & Hge).
    + by_compute.
    + by_compute.
    + intros Hnil. assert (m ∈ Pandas.dropna (snd <$> avg)) as Hm by (apply Hvals; eauto).
      rewrite Hnil in Hm. by apply elem_of_nil in Hm.
    + rewrite Hq.
      assert (Hrec : (h_lo, Some lo) ∈ List.filter (fun row => le_nan (snd row) (Some t)) avg).
      { apply elem_of_List_filter. split; [done|]. simpl. by apply bool_decide_eq_true. }
      assert (Hhour : Pandas.Qc_trunc h_lo
                      ∈ hours_of (List.filter (fun row => le_nan (snd row) (Some t)) avg)).
      { unfold hours_of. apply list_elem_of_fmap. by exists (h_lo, Some lo). }
      eexists _, t, h_lo, lo, h_hi, hi. split_and!; [done| |done..].
      intros Hnil. rewrite Hnil in Hhour. by apply elem_of_nil in Hhour.
  - intros Hnone.
    assert (Hd : Pandas.dropna (snd <$> avg) = []).
    { destruct (Pandas.dropna (snd <$> avg)) as [|x l] eqn:E; [done|].
      destruct (proj1 (Hvals x)) as [h Hin]; [left|].
      by specialize (Hnone h (Some x) Hin). }
    assert (Pandas.quantile (Q2Qc (3 # 10)) (snd <$> avg) = None) as ->.
    { unfold Pandas.quantile. by rewrite Hd. }
    assert (List.filter (fun row : Qc * option Qc => le_nan (snd row) None) avg = []) as ->.
    { apply List_filter_all_false. intros [h m] _. simpl. by destruct m. }
    done.
Qed.

Lemma tourist_recommends_some_hour_witness :
  exists hours t,
    recommendation_section 2 Tourist ex_state
    = (mkState (heap ex_state)
         (rendered ex_state ++
          [TouristSuccess hours;
           RecChart [(Qc_of_Z 7, Some (Qc_of_Z 75)); (Qc_of_Z 8, Some (Qc_of_Z 200));
                     (Qc_of_Z 12, Some (Qc_of_Z 20))] (Some t)]), Ok tt) /\
    hours <> [].
Proof.
  destruct (tourist_recommends_some_hour ex_state 2 ex_filtered
              [(Qc_of_Z 7, Some (Qc_of_Z 75)); (Qc_of_Z 8, Some (Qc_of_Z 200));
               (Qc_of_Z 12, Some (Qc_of_Z 20))])
    as [Hsome _].
  - reflexivity.
  - done.
  - by_compute.
  - destruct Hsome as (hours & t & _ & _ & _ & _ & Hrun & Hne & _).
    + exists (Qc_of_Z 7), (Qc_of_Z 75). left.
    + exists hours, t. split; [exact Hrun|exact Hne].
Defined.


(** ** Sums over the groups *)

Lemma Qc_of_Z_0 : Qc_of_Z 0 = 0.
Proof. apply Qc_is_canon. reflexivity. Qed.

Lemma Qc_sum_nil : Pandas.Qc_sum [] = 0.
Proof. exact Qc_of_Z_0. Qed.

Lemma Qc_sum_cons (x : Qc) (xs : list Qc) : Pandas.Qc_sum (x :: xs) = x + Pandas.Qc_sum xs.
Proof. reflexivity. Qed.

Lemma Qc_sum_app (xs ys : list Qc) :
  Pandas.Qc_sum (xs ++ ys) = Pandas.Qc_sum xs + Pandas.Qc_sum ys.
Proof.
  induction xs as [|x xs IH].
  - rewrite Qc_sum_nil. simpl. ring.
  - change ((x :: xs) ++ ys) with (x :: (xs ++ ys)).
    rewrite !Qc_sum_cons, IH. ring.
Qed.

Lemma nansum_app (vs ws : list (option Qc)) :
  Pandas.nansum (vs ++ ws) = Pandas.nansum vs + Pandas.nansum ws.
Proof. unfold Pandas.nansum, Pandas.dropna. by rewrite omap_app, Qc_sum_app. Qed.

Lemma nansum_cons (v : option Qc) (vs : list (option Qc)) :
  Pandas.nansum (v :: vs) = Pandas.nansum [v] + Pandas.nansum vs.
Proof. apply (nansum_app [v] vs). Qed.

Section GroupTotals.
Context `{KeyOrder K}.

(** The sum, over all groups, of the sums of the groups. *)
Definition grand_total (gs : list (K * list cell)) : Qc :=
  Pandas.Qc_sum ((fun g => Pandas.nansum (Pandas.num_of_cell <$> snd g)) <$> gs).

Lemma insert_group_grand_total (k : K) (v : cell) (gs : list (K * list cell)) :
  grand_total (Pandas.insert_group k v gs)
  = Pandas.nansum [Pandas.num_of_cell v] + grand_total gs.
Proof.
  induction gs as [|[k' vs] gs IH]; simpl.
  - done.
  - destruct (kcmp k k'); unfold grand_total; rewrite !fmap_cons, !Qc_sum_cons; simpl snd.
    + rewrite fmap_app, nansum_app.
      change (Pandas.num_of_cell <$> [v]) with [Pandas.num_of_cell v]. ring.
    + done.
    + fold (grand_total (Pandas.insert_group k v gs)). fold (grand_total gs).
      rewrite IH. ring.
Qed.

Lemma groupby_grand_total {A} (kf : A -> option K) (vf : A -> cell) (l : list A) :
  Pandas.Qc_sum (snd <$> Pandas.groupby_agg Pandas.nansum (kf <$> l) (vf <$> l))
  = Pandas.nansum ((fun x => Pandas.num_of_cell (vf x))
                     <$> List.filter (fun x => bool_decide (is_Some (kf x))) l).
Proof.
  unfold Pandas.groupby_agg. rewrite <- list_fmap_compose.
  change (Pandas.Qc_sum (_ <$> ?gs)) with (grand_total gs).
  rewrite zip_fmap_fmap. unfold Pandas.groupby.
  assert (Hfold : forall gs,
    grand_total (fold_left (fun gs (kv : option K * cell) =>
                              match fst kv with
                              | Some k => Pandas.insert_group k (snd kv) gs
                              | None => gs
                              end) ((fun x => (kf x, vf x)) <$> l) gs)
    = grand_total gs
      + Pandas.nansum ((fun x => Pandas.num_of_cell (vf x))
                         <$> List.filter (fun x => bool_decide (is_Some (kf x))) l)).
  { induction l as [|x l IH]; intros gs; cbn [fmap list_fmap fold_left List.filter fst snd].
    - change (Pandas.nansum []) with (Pandas.Qc_sum []). rewrite Qc_sum_nil. ring.
    - rewrite IH. destruct (kf x) as [k|]; simpl.
      + rewrite insert_group_grand_total.
        change (list_fmap A (option Qc) ?f ?l0) with (f <$> l0).
        rewrite (nansum_cons (Pandas.num_of_cell (vf x)) (_ <$> _)). ring.
      + done. }
  rewrite Hfold. change (grand_total []) with (Pandas.Qc_sum []). rewrite Qc_sum_nil. ring.
Qed.

End GroupTotals.

(** ** The recommended hours are listed in ascending order *)

Lemma StronglySorted_List_filter {A} (R : A -> A -> Prop) (p : A -> bool) (l : list A) :
  StronglySorted R l -> StronglySorted R (List.filter p l).
Proof.
  induction 1 as [|x l Hl IH Hall]; simpl; [constructor|].
  destruct (p x); [|done]. constructor; [done|].
  rewrite Forall_forall in Hall. apply Forall_forall.
  intros y [Hy _]%elem_of_List_filter. by apply Hall.
Qed.

Lemma Qc_trunc_lt (x y : Qc) :
  integral x -> integral y -> x < y -> (Pandas.Qc_trunc x < Pandas.Qc_trunc y)%Z.
Proof.
  unfold integral. intros Hx Hy Hlt.
  destruct (Z_lt_le_dec (Pandas.Qc_trunc x) (Pandas.Qc_trunc y)) as [|Hle]; [done|].
  apply Qc_of_Z_le in Hle. rewrite <- Hx, <- Hy in Hle.
  by apply Qcle_not_lt in Hle.
Qed.

(** The message of the recommendation, by role. *)
Definition recommendation_message (role : Role) (hours : list Z) : element :=
  match role with
  | Tourist => TouristSuccess hours
  | Worker => WorkerInfo hours
  end.

(** X18: For both roles the recommended hours are listed in strictly ascending
    order, so no hour is listed twice: the frame has an [hour] column as the
    hourly section stores it (integers or NaN) and a numeric [ridership]
    column, and the recommendation renders its message and its chart without
    raising. *)
Theorem recommended_hours_ascending (s : state) (r : nat) (hf : DataFrame) (role : Role)
    (i j : nat) :
  heap s !! r = Some hf -> rows hf <> [] ->
  Pandas.col_index "hour" (columns hf) = Some i ->
  Pandas.col_index "ridership" (columns hf) = Some j ->
  nth j (snd <$> columns hf) object = number ->
  (forall x, x ∈ rows hf -> hour_cell (Pandas.cell_at i x)) ->
  exists hours avg hline,
    recommendation_section r role s
    = (mkState (heap s)
         (rendered s ++ [recommendation_message role hours; RecChart avg hline]), Ok tt) /\
    StronglySorted Z.lt hours /\ NoDup hours.
Proof.
  intros Hs Hrows Hi Hj Hdt Hhour.
  set (hour_of := fun x : row => Pandas.num_of_cell (Pandas.cell_at i x)).
  set (avg := Pandas.groupby_agg Pandas.nanmean (hour_of <$> rows hf)
                (Pandas.cell_at j <$> rows hf)).
  assert (Havg : groupby_reset Pandas.num_of_cell Pandas.nanmean "hour" "ridership" hf = Ok avg)
    by by apply (groupby_reset_run Pandas.num_of_cell Pandas.nanmean "hour" "ridership" hf i j).
  assert (Hint : forall h m, (h, m) ∈ avg -> integral h).
  { intros h m Hin.
    apply (groupby_agg_elem_of Pandas.nanmean hour_of (Pandas.cell_at j)) in Hin
      as [(x & Hx & Hh) _].
    destruct (Hhour x Hx) as (o & Ho & Hio). apply Hio.
    unfold hour_of in Hh. by rewrite Ho in Hh. }
  assert (Hsorted : key_sorted avg) by apply groupby_agg_sorted.
  assert (Hasc : forall p, StronglySorted Z.lt (hours_of (List.filter p avg))).
  { intros p. unfold hours_of.
    assert (Hf : StronglySorted (fun a b => klt (fst a) (fst b)) (List.filter p avg))
      by by apply StronglySorted_List_filter.
    assert (Hall : forall a, a ∈ List.filter p avg -> integral (fst a)).
    { intros [h m] [Hin _]%elem_of_List_filter. by apply (Hint h m). }
    induction Hf as [|a l Hl IH Hlt]; [constructor|]. cbn. constructor.
    - apply IH. intros b Hb. apply Hall. by right.
    - apply Forall_fmap, Forall_forall. intros b Hb. simpl.
      rewrite Forall_forall in Hlt. apply Qc_trunc_lt.
      + apply Hall. left.
      + apply Hall. by right.
      + by apply klt_Qc, Hlt. }
  assert (Hnd : forall l, StronglySorted Z.lt l -> NoDup l).
  { induction 1 as [|z l Hl IH Hall]; constructor; [|done].
    intros Hz. rewrite Forall_forall in Hall. specialize (Hall z Hz). lia. }
  rewrite (recommendation_section_run s r hf role avg Hs Hrows Havg).
  destruct role; cbn zeta; eexists _, avg, _; split_and!; [done| | |done| |]; auto.
Qed.

Lemma recommended_hours_ascending_witness :
  exists hours avg hline,
    recommendation_section 2 Worker ex_state
    = (mkState (heap ex_state)
         (rendered ex_state ++ [recommendation_message Worker hours; RecChart avg hline]),
       Ok tt) /\
    StronglySorted Z.lt hours /\ NoDup hours.
Proof.
  apply (recommended_hours_ascending ex_state 2 ex_filtered Worker 4 3);
    [reflexivity|done|reflexivity|reflexivity|reflexivity|].
  intros x Hx. unfold ex_filtered in Hx. simpl in Hx.
  repeat (apply elem_of_cons in Hx as [->|Hx];
          [eexists; split; [reflexivity|]; intros q [= <-]; apply integral_of_Z|]).
  by apply elem_of_nil in Hx.
Defined.

(** * The sections' outputs *)

(** ** Sums and means, as the reference has them *)

Lemma Qc_sum_spec_sum (xs : list Qc) : Pandas.Qc_sum xs = spec_sum xs.
Proof.
  induction xs as [|x xs IH]; [exact Qc_of_Z_0|].
  rewrite Qc_sum_cons, IH. reflexivity.
Qed.

Lemma dropna_fmap {A} (f : A -> option Qc) (l : list A) :
  Pandas.dropna (f <$> l) = omap f l.
Proof.
  unfold Pandas.dropna. induction l as [|x l IH]; [done|]. cbn.
  destruct (f x); cbn; [f_equal|]; exact IH.
Qed.

Lemma nansum_spec_sum {A} (f : A -> option Qc) (l : list A) :
  Pandas.nansum (f <$> l) = spec_sum (omap f l).
Proof. unfold Pandas.nansum. by rewrite dropna_fmap, Qc_sum_spec_sum. Qed.

Lemma nanmean_spec_mean {A} (f : A -> option Qc) (l : list A) :
  Pandas.nanmean (f <$> l) = spec_mean (omap f l).
Proof.
  unfold Pandas.nanmean, spec_mean. rewrite dropna_fmap.
  destruct (omap f l) as [|x xs]; [done|]. by rewrite Qc_sum_spec_sum.
Qed.


Lemma List_filter_ext_elem {A} (p q : A -> bool) (l : list A) :
  (forall x, x ∈ l -> p x = q x) -> List.filter p l = List.filter q l.
Proof.
  intros Hpq. apply filter_ext_in. intros x Hx. apply Hpq. by apply list_elem_of_In.
Qed.

Lemma key_is_bool_decide `{KeyOrder K} `{EqDecision K} (k : K) (o : option K) :
  key_is k o = bool_decide (o = Some k).
Proof.
  destruct (key_is k o) eqn:E.
  - apply key_is_true in E. by rewrite bool_decide_eq_true_2.
  - rewrite bool_decide_eq_false_2; [done|]. intros Ho%key_is_true. congruence.
Qed.

(** ** The monthly section *)

Section MonthlyOutput.
Variable py_str : cell -> string.

(** The run of lines 73-122 on a frame some row of which passes the
    filter, with the detected column [c]. *)
Lemma monthly_section_run (s : state) (df : DataFrame) (r0 i j : nat) (sel : Selection)
    (c : string) (r : row) :
  heap s !! daily_df = Some df ->
  well_formed df ->
  pick_ridership_col (Pandas.select_dtypes_number df) = Ok c ->
  Pandas.col_index "date" (columns df) = Some i ->
  nth i (snd <$> columns df) object = datetime ->
  Pandas.col_index c (columns df) = Some j ->
  nth j (snd <$> columns df) object = number ->
  c <> "month" ->
  r ∈ rows df -> daily_keeps py_str df i sel r = true ->
  let kept := List.filter (daily_keeps py_str df i sel) (rows df) in
  let monthly_summary :=
    Pandas.groupby_agg Pandas.nansum
      ((fun x => month_start <$> ts_of_cell (Pandas.cell_at i x)) <$> kept)
      (Pandas.cell_at j <$> kept) in
  exists filtered p peak,
    Pandas.idxmax (totals monthly_summary) = Ok p /\
    monthly_summary !! p = Some peak /\
    monthly_section py_str daily_df r0 sel s
    = (mkState (heap s ++ [filtered])
         (rendered s ++
          [MonthlyChart monthly_summary;
           MonthlyInfo (Pandas.nanmean (totals monthly_summary)) (fst peak) (snd peak)]),
       Ok (length (heap s))).
Proof.
  intros Hs Hwf Hc Hi Hdt Hj Hjdt Hcm Hr Hkeep kept.
  assert (Hnum : Pandas.select_dtypes_number df <> []).
  { intros Hnil. by rewrite Hnil in Hc. }
  set (filtered := mkDF (columns df) kept).
  assert (Hwf' : well_formed filtered) by by apply well_formed_filter.
  assert (Hrk : r ∈ kept) by by apply elem_of_List_filter.
  pose proof (monthly_groupby_run filtered c i j Hwf' Hi Hj Hjdt Hcm) as Hrun.
  set (with_month := Pandas.setitem "month" datetime _ filtered) in *.
  change (rows filtered) with kept in Hrun.
  intros monthly_summary. fold monthly_summary in Hrun.
  assert (Hsome : exists m total, (m, total) ∈ monthly_summary).
  { unfold daily_keeps, in_range in Hkeep.
    destruct (ts_of_cell (Pandas.cell_at i r)) as [t|] eqn:Ht; [|done].
    exists (month_start t), (Pandas.nansum
      ((fun x => Pandas.num_of_cell (Pandas.cell_at j x))
         <$> List.filter (fun x => key_is (month_start t)
                                     (month_start <$> ts_of_cell (Pandas.cell_at i x))) kept)).
    apply (groupby_agg_elem_of Pandas.nansum
             (fun x => month_start <$> ts_of_cell (Pandas.cell_at i x)) (Pandas.cell_at j)).
    split; [|done]. exists r. split; [done|]. by rewrite Ht. }
  destruct Hsome as (m & total & Hin).
  destruct (idxmax_total (totals monthly_summary) total) as [p Hp].
  { unfold totals. apply list_elem_of_fmap. by exists (m, total). }
  assert (Hlt : (p < length monthly_summary)%nat).
  { pose proof (idxmax_spec (totals monthly_summary)) as Hspec. rewrite Hp in Hspec.
    destruct Hspec as (mp & Hlk & _). apply lookup_lt_Some in Hlk.
    unfold totals in Hlk. by rewrite length_fmap in Hlk. }
  destruct (lookup_lt_is_Some_2 _ _ Hlt) as [peak Hpeak].
  exists with_month, p, peak. split_and!; [done|done|].
  unfold monthly_section.
  rewrite bind_run, (deref_run _ _ _ Hs).
  rewrite bool_decide_eq_false_2 by (by destruct (Pandas.select_dtypes_number df)).
  rewrite Hc.
  rewrite bind_run. unfold lift at 1. cbn iota beta.
  rewrite bind_run. unfold lift at 1.
  rewrite (daily_filter_rows py_str df (line sel) (date_range sel) i Hi Hdt).
  change (mkDF (columns df) (List.filter _ (rows df))) with filtered.
  rewrite bind_run. unfold alloc at 1. cbn iota beta.
  rewrite bind_run.
  rewrite (deref_run _ filtered) by apply alloc_lookup.
  assert (negb (Pandas.empty filtered) = true) as ->.
  { unfold Pandas.empty. simpl. destruct kept; [by apply elem_of_nil in Hrk|done]. }
  rewrite bind_run, bind_run. unfold lift at 1.
  rewrite (getitem_Some "date" filtered i Hi).
  rewrite bind_run. unfold assign at 1. cbn [heap rendered].
  rewrite assign_last. fold with_month.
  rewrite bind_run, (deref_run _ with_month) by apply alloc_lookup.
  rewrite bind_run. unfold lift at 1. rewrite Hrun.
  rewrite bind_run. unfold render at 1. cbn [heap rendered].
  rewrite bind_run. unfold lift at 1. rewrite Hp.
  rewrite bind_run. unfold lift at 1, loc. rewrite Hpeak.
  unfold render. cbn [heap rendered]. by rewrite <- app_assoc.
Qed.


(** X17: what the monthly section renders adds up: the totals of the chart it
    renders sum to the sum of the detected column over the rows the filter
    selects, missing values counting as nothing.  No selected row is left
    out of the months and none is counted twice. *)
Theorem monthly_totals_conserved (s : state) (df : DataFrame) (r0 i : nat) (sel : Selection)
    (r : row) :
  heap s !! daily_df = Some df ->
  well_formed df ->
  NoDup (fst <$> columns df) ->
  Pandas.select_dtypes_number df <> [] ->
  "month" ∉ Pandas.select_dtypes_number df ->
  Pandas.col_index "date" (columns df) = Some i ->
  nth i (snd <$> columns df) object = datetime ->
  r ∈ rows df -> daily_keeps py_str df i sel r = true ->
  exists c j monthly_summary avg peak_month peak_total s',
    pick_ridership_col (Pandas.select_dtypes_number df) = Ok c /\
    Pandas.col_index c (columns df) = Some j /\
    monthly_section py_str daily_df r0 sel s = (s', Ok (length (heap s))) /\
    rendered s' = rendered s ++ [MonthlyChart monthly_summary;
                                 MonthlyInfo avg peak_month peak_total] /\
    spec_sum (snd <$> monthly_summary)
    = spec_sum (omap (fun x => Pandas.num_of_cell (Pandas.cell_at j x))
                  (List.filter (daily_keeps py_str df i sel) (rows df))).
Proof.
  intros Hs Hwf Hnd Hnum Hmonth Hi Hdt Hr Hkeep.
  destruct (pick_ridership_col_total _ Hnum) as (c & Hc & Hcin).
  destruct (select_dtypes_number_col c df Hnd Hcin) as (j & Hj & Hjdt).
  assert (Hcm : c <> "month") by (intros ->; done).
  destruct (monthly_section_run s df r0 i j sel c r Hs Hwf Hc Hi Hdt Hj Hjdt Hcm Hr Hkeep)
    as (filtered & p & [pm pt] & Hp & Hpeak & Hrun).
  set (kept := List.filter (daily_keeps py_str df i sel) (rows df)) in *.
  eexists c, j, _, _, pm, pt, _.
  split_and!; [done|done|exact Hrun|done|].
  rewrite <- Qc_sum_spec_sum.
  rewrite (groupby_grand_total
             (fun x => month_start <$> ts_of_cell (Pandas.cell_at i x)) (Pandas.cell_at j)).
  rewrite nansum_spec_sum. f_equal.
  assert (Hall : forall x, x ∈ kept ->
            bool_decide (is_Some (month_start <$> ts_of_cell (Pandas.cell_at i x))) = true).
  { intros x [_ Hx]%elem_of_List_filter. apply bool_decide_eq_true.
    unfold daily_keeps, in_range in Hx.
    destruct (ts_of_cell (Pandas.cell_at i x)); [by eexists|done]. }
  f_equal. clear -Hall. induction kept as [|x kept IH]; [done|]. simpl.
  rewrite (Hall x) by left. f_equal. apply IH. intros x' Hx'. apply Hall. by right.
Qed.

End MonthlyOutput.


Lemma monthly_totals_conserved_witness :
  exists c j monthly_summary avg peak_month peak_total s',
    pick_ridership_col (Pandas.select_dtypes_number ex_daily) = Ok c /\
    Pandas.col_index c (columns ex_daily) = Some j /\
    monthly_section no_str daily_df 2 (ex_sel Tourist "Weekday" "A")
      (mkState [ex_daily; ex_hourly] []) = (s', Ok 2%nat) /\
    rendered s' = [MonthlyChart monthly_summary; MonthlyInfo avg peak_month peak_total] /\
    spec_sum (snd <$> monthly_summary)
    = spec_sum (omap (fun x => Pandas.num_of_cell (Pandas.cell_at j x))
                  (List.filter (daily_keeps no_str ex_daily 0 (ex_sel Tourist "Weekday" "A"))
                     (rows ex_daily))).
Proof.
  apply (monthly_totals_conserved no_str (mkState [ex_daily; ex_hourly] []) ex_daily 2 0
           (ex_sel Tourist "Weekday" "A") [ex_ts 2024 1 5 0; ex_str "A"; ex_num 10]).
  - reflexivity.
  - repeat constructor.
  - by_compute.
  - by vm_compute.
  - by_compute.
  - reflexivity.
  - reflexivity.
  - left.
  - reflexivity.
Defined.

(** ** The hourly section *)

Section HourlyOutput.
Variable py_str : cell -> string.
Variable py_to_datetime : cell -> option Timestamp.
Variable py_int : cell -> option Z.

(** Lines 132-135 on a frame with a [time] column, for a selection some
    row matches: the section goes on with the filtered frame and its new
    [hour] column. *)
Lemma hourly_section_time_prepared (s : state) (df : DataFrame) (sel : Selection)
    (d l t : nat) (r : row) :
  heap s !! hourly_df = Some df ->
  Pandas.col_index "day_type" (columns df) = Some d ->
  Pandas.col_index "line_tag" (columns df) = Some l ->
  Pandas.col_index "time" (columns df) = Some t ->
  r ∈ rows df -> hourly_keeps py_str d l sel r = true ->
  let kept := List.filter (hourly_keeps py_str d l sel) (rows df) in
  let hf' := Pandas.setitem "hour" number
               ((fun x => CNum (Qc_of_Z ∘ hour
                                  <$> to_datetime_cell py_to_datetime (Pandas.cell_at t x)))
                  <$> kept) (mkDF (columns df) kept) in
  hourly_section py_str py_to_datetime py_int hourly_df sel s
  = ((ridership_col ← lift (pick_ridership_col (Pandas.select_dtypes_number hf'));
      grouped ← lift (groupby_reset Pandas.num_of_cell Pandas.nanmean "hour" ridership_col hf');
      let hourly_avg := Pandas.sort_values grouped in
      render (HourlyBar hourly_avg);;
      render (HourlyLine hourly_avg);;
      i ← lift (Pandas.idxmax (snd <$> hourly_avg));
      peak ← lift (loc i hourly_avg);
      render (PeakHourInfo (Pandas.Qc_trunc (fst peak))));;
     mret (length (heap s))) (mkState (heap s ++ [hf']) (rendered s)).
Proof.
  intros Hs Hd Hl Ht Hr Hkeep kept hf'.
  rewrite (hourly_section_filtered py_str py_to_datetime py_int s df sel d l Hs Hd Hl).
  fold kept. set (filtered := mkDF (columns df) kept) in *.
  assert (Hrk : r ∈ kept) by by apply elem_of_List_filter.
  assert (negb (Pandas.empty filtered) = true) as ->.
  { unfold Pandas.empty. simpl. destruct kept; [by apply elem_of_nil in Hrk|done]. }
  rewrite bind_run, bind_run.
  rewrite (prepare_hour_time_run py_to_datetime py_int _ _ filtered t)
    by (done || apply alloc_lookup).
  cbn [heap rendered]. rewrite assign_last.
  change (Pandas.setitem "hour" number _ filtered) with hf'.
  rewrite bind_run, (deref_run _ hf') by apply alloc_lookup.
  by rewrite bind_run.
Qed.

(** C5: the hourly averages of lines 132-180, for a selection that some
    row of the hourly frame matches.

    With a [time] column (and no [hour] column, distinct labels, rows of one
    length): the hour of a row is the hour of its parsed time, and a row
    whose time does not parse has no hour.  With [c] the column detection
    picks on the loaded frame, the two charts show one row per hour that a
    selected row has, in strictly ascending order of the hour, holding the
    arithmetic mean of the numbers [c] holds in the selected rows of that
    hour; rows without an hour are in no group.  When some average is a
    number the section names the peak hour, an hour with the largest average
    and the lowest such hour, and ends normally; when none is, the search for
    the peak raises after the charts.  When the frame has no numeric column
    at all, detection falls back to the new [hour] column and the
    aggregation raises.

    With an [hour] column and no [time] column a selected row whose hour is
    missing is not left out: the conversion to integers raises before
    anything is rendered. *)
Theorem hourly_average_by_hour (s : state) (df : DataFrame) (sel : Selection)
    (d l : nat) (r : row) :
  heap s !! hourly_df = Some df ->
  Pandas.col_index "day_type" (columns df) = Some d ->
  Pandas.col_index "line_tag" (columns df) = Some l ->
  r ∈ rows df -> hourly_keeps py_str d l sel r = true ->
  let kept := List.filter (hourly_keeps py_str d l sel) (rows df) in
  (forall t,
     well_formed df -> NoDup (fst <$> columns df) ->
     Pandas.col_index "time" (columns df) = Some t ->
     Pandas.has_column "hour" df = false ->
     let hour_of (x : row) :=
       (fun ts => Qc_of_Z (hour ts)) <$> to_datetime_cell py_to_datetime (Pandas.cell_at t x) in
     (Pandas.select_dtypes_number df <> [] ->
      exists c j hourly_avg s' res,
        pick_ridership_col (Pandas.select_dtypes_number df) = Ok c /\
        Pandas.col_index c (columns df) = Some j /\
        hourly_section py_str py_to_datetime py_int hourly_df sel s = (s', res) /\
        StronglySorted (fun a b => fst a < fst b) hourly_avg /\
        (forall h m, (h, m) ∈ hourly_avg <->
           (exists x, x ∈ kept /\ hour_of x = Some h) /\
           m = spec_mean (omap (fun x => Pandas.num_of_cell (Pandas.cell_at j x))
                            (List.filter (fun x => bool_decide (hour_of x = Some h)) kept))) /\
        ((forall h m, (h, m) ∈ hourly_avg -> m = None) ->
         rendered s' = rendered s ++ [HourlyBar hourly_avg; HourlyLine hourly_avg] /\
         exists e, res = Raise e) /\
        ((exists h m, (h, Some m) ∈ hourly_avg) ->
         exists peak_hour peak_avg,
           rendered s' = rendered s ++ [HourlyBar hourly_avg; HourlyLine hourly_avg;
                                        PeakHourInfo peak_hour] /\
           res = Ok (length (heap s)) /\
           (Qc_of_Z peak_hour, Some peak_avg) ∈ hourly_avg /\
           forall h m, (h, Some m) ∈ hourly_avg ->
             m ≤ peak_avg /\ (m = peak_avg -> Qc_of_Z peak_hour ≤ h))) /\
     (Pandas.select_dtypes_number df = [] ->
      exists s',
        hourly_section py_str py_to_datetime py_int hourly_df sel s
        = (s', Raise (ValueError "cannot insert, already exists")) /\
        rendered s' = rendered s)) /\
  (forall h,
     Pandas.has_column "time" df = false ->
     Pandas.col_index "hour" (columns df) = Some h ->
     int_of_cell py_int (Pandas.cell_at h r) = None ->
     exists s',
       hourly_section py_str py_to_datetime py_int hourly_df sel s
       = (s', Raise (ValueError "cannot convert to integer")) /\
       rendered s' = rendered s).
Proof.
  intros Hs Hd Hl Hr Hkeep kept.
  assert (Hrk : r ∈ kept) by by apply elem_of_List_filter.
  split.
  - intros t Hwf Hnd Ht Hh hour_of.
    pose proof (hourly_section_time_prepared s df sel d l t r Hs Hd Hl Ht Hr Hkeep) as Hstart.
    cbn zeta in Hstart. fold kept in Hstart.
    change (fun x : row => CNum (Qc_of_Z ∘ hour
              <$> to_datetime_cell py_to_datetime (Pandas.cell_at t x)))
      with (fun x : row => CNum (hour_of x)) in Hstart.
    set (filtered := mkDF (columns df) kept) in *.
    set (f := fun x : row => CNum (hour_of x)) in *.
    set (hf' := Pandas.setitem "hour" number (f <$> kept) filtered) in *.
    pose proof (proj1 (has_column_false _ _) Hh) as Hnone.
    assert (Hwf' : well_formed filtered) by by apply well_formed_filter.
    destruct (setitem_spec "hour" number f filtered Hwf')
      as (k & g & Hk & Hkdt & Hrows & Hcell & Hother).
    change (rows filtered) with kept in Hk, Hkdt, Hrows, Hcell, Hother.
    fold hf' in Hk, Hkdt, Hrows, Hother.
    assert (Hsel : Pandas.select_dtypes_number hf' = Pandas.select_dtypes_number df ++ ["hour"]).
    { unfold hf', Pandas.setitem. change (columns filtered) with (columns df).
      rewrite Hnone. apply (select_dtypes_number_app (columns df) (rows df)). }
    split.
    + intros Hnum.
      destruct (pick_ridership_col_total _ Hnum) as (c & Hc & Hcin).
      destruct (select_dtypes_number_col c df Hnd Hcin) as (j & Hj & Hjdt).
      assert (Hch : c <> "hour") by (intros ->; congruence).
      destruct (Hother c j Hch Hj) as (Hj' & Hdt' & Hcj).
      set (hourly_avg := Pandas.groupby_agg Pandas.nanmean (hour_of <$> kept)
                           (Pandas.cell_at j <$> kept)).
      assert (Hgroup : groupby_reset Pandas.num_of_cell Pandas.nanmean "hour" c hf'
                       = Ok hourly_avg).
      { rewrite (groupby_reset_run Pandas.num_of_cell Pandas.nanmean "hour" c hf' k j);
          [|done|done|by rewrite Hdt'|congruence].
        rewrite Hrows, <- !list_fmap_compose. unfold hourly_avg. do 2 f_equal.
        - apply Forall_fmap_ext, Forall_forall. intros x Hx; simpl.
          by rewrite (Hcell x Hx).
        - apply Forall_fmap_ext, Forall_forall. intros x Hx; simpl. by apply Hcj. }
      assert (Hsorted : key_sorted hourly_avg) by apply groupby_agg_sorted.
      assert (Hsv : Pandas.sort_values hourly_avg = hourly_avg)
        by by apply sort_values_sorted.
      assert (Hrows_of : forall h m, (h, m) ∈ hourly_avg <->
                (exists x, x ∈ kept /\ hour_of x = Some h) /\
                m = spec_mean (omap (fun x => Pandas.num_of_cell (Pandas.cell_at j x))
                       (List.filter (fun x => bool_decide (hour_of x = Some h)) kept))).
      { intros h m. unfold hourly_avg.
        rewrite (groupby_agg_elem_of Pandas.nanmean hour_of (Pandas.cell_at j) kept h m).
        rewrite nanmean_spec_mean.
        rewrite (List_filter_ext_elem (fun x => key_is h (hour_of x))
                   (fun x => bool_decide (hour_of x = Some h)) kept); [done|].
        intros x _. apply key_is_bool_decide. }
      assert (Hrun : hourly_section py_str py_to_datetime py_int hourly_df sel s
        = ((render (HourlyBar hourly_avg);;
            render (HourlyLine hourly_avg);;
            i ← lift (Pandas.idxmax (snd <$> hourly_avg));
            peak ← lift (loc i hourly_avg);
            render (PeakHourInfo (Pandas.Qc_trunc (fst peak))));;
           mret (length (heap s))) (mkState (heap s ++ [hf']) (rendered s))).
      { rewrite Hstart. rewrite Hsel, pick_ridership_col_hour by done. rewrite Hc.
        rewrite bind_run, bind_run. unfold lift at 1. cbn iota beta.
        rewrite bind_run. unfold lift at 1. rewrite Hgroup. cbn iota beta.
        rewrite Hsv. by rewrite <- bind_run. }
      pose proof (peak_first_max hourly_avg Hsorted) as Hpeak.
      destruct (Pandas.idxmax (snd <$> hourly_avg)) as [p|e] eqn:Hp.
      * destruct Hpeak as (kp & mp & Hlk & Hmax).
        assert (Hin : (kp, Some mp) ∈ hourly_avg) by by eapply list_elem_of_lookup_2.
        assert (Hkp : kp = Qc_of_Z (Pandas.Qc_trunc kp)).
        { apply Hrows_of in Hin as [(x & _ & Hx) _]. unfold hour_of in Hx.
          destruct (to_datetime_cell py_to_datetime (Pandas.cell_at t x)) as [ts|];
            simplify_eq/=. by rewrite Qc_trunc_of_Z. }
        eexists c, j, hourly_avg, _, _. split_and!; [done|done| | |exact Hrows_of| |].
        -- rewrite Hrun.
           rewrite bind_run, bind_run. unfold render at 1. cbn [heap rendered].
           rewrite bind_run. unfold render at 1. cbn [heap rendered].
           rewrite bind_run. unfold lift at 1. cbn iota beta.
           rewrite bind_run. unfold lift at 1, loc. rewrite Hlk.
           unfold render. cbn [heap rendered fst]. reflexivity.
        -- clear -Hsorted. induction Hsorted as [|x xs Hxs IH Hall]; constructor; [done|].
           eapply Forall_impl; [exact Hall|]. intros b Hb. by apply klt_Qc.
        -- intros Hall. by specialize (Hall kp (Some mp) Hin).
        -- intros _. exists (Pandas.Qc_trunc kp), mp. split_and!.
           ++ cbn [rendered]. by rewrite <- !app_assoc.
           ++ done.
           ++ by rewrite <- Hkp.
           ++ intros h m Hhm. destruct (Hmax h m Hhm) as [Hle Htie].
              split; [done|]. intros Heq. rewrite <- Hkp. by apply kle_Qc, Htie.
      * eexists c, j, hourly_avg, _, _. split_and!; [done|done| | |exact Hrows_of| |].
        -- rewrite Hrun.
           rewrite bind_run, bind_run. unfold render at 1. cbn [heap rendered].
           rewrite bind_run. unfold render at 1. cbn [heap rendered].
           rewrite bind_run. unfold lift at 1. cbn iota beta. reflexivity.
        -- clear -Hsorted. induction Hsorted as [|x xs Hxs IH Hall]; constructor; [done|].
           eapply Forall_impl; [exact Hall|]. intros b Hb. by apply klt_Qc.
        -- intros _. cbn [rendered]. split; [by rewrite <- !app_assoc|by eexists].
        -- intros (h & m & Hin). by specialize (Hpeak h (Some m) Hin).
    + intros Hnum. exists (mkState (heap s ++ [hf']) (rendered s)). split; [|done].
      rewrite Hstart, Hsel, Hnum. cbn [app].
      rewrite bind_run, bind_run. unfold lift at 1. cbn iota beta.
      change (pick_ridership_col ["hour"]) with (Ok (A := string) "hour"). cbn iota beta.
      rewrite bind_run. unfold lift at 1, groupby_reset.
      rewrite (getitem_Some "hour" hf' k Hk). simpl result_bind. rewrite Hkdt.
      reflexivity.
  - intros h Ht Hh Hint.
    set (filtered := mkDF (columns df) kept).
    exists (mkState (heap s ++ [filtered]) (rendered s)). split; [|done].
    rewrite (hourly_section_filtered py_str py_to_datetime py_int s df sel d l Hs Hd Hl).
    fold kept. fold filtered.
    assert (negb (Pandas.empty filtered) = true) as ->.
    { unfold Pandas.empty. simpl. destruct kept; [by apply elem_of_nil in Hrk|done]. }
    rewrite bind_run, bind_run. unfold prepare_hour.
    rewrite bind_run, (deref_run _ filtered) by apply alloc_lookup.
    change (Pandas.has_column "time" filtered) with (Pandas.has_column "time" df).
    change (Pandas.has_column "hour" filtered) with (Pandas.has_column "hour" df).
    rewrite Ht. assert (Pandas.has_column "hour" df = true) as ->
      by (apply has_column_true; eauto).
    rewrite bind_run. unfold lift at 1.
    rewrite (getitem_Some "hour" filtered h Hh).
    rewrite bind_run. unfold lift at 1, astype_int. simpl values.
    assert (mapM (int_of_cell py_int) (Pandas.cell_at h <$> kept) = None) as ->; [|done].
    apply eq_None_not_Some. intros Hsome%mapM_is_Some.
    rewrite Forall_fmap, Forall_forall in Hsome.
    specialize (Hsome r Hrk). simpl in Hsome. rewrite Hint in Hsome. by destruct Hsome.
Qed.

End HourlyOutput.

Lemma hourly_average_by_hour_witness :
  (let out := hourly_section no_str no_datetime no_int hourly_df (ex_sel Tourist "Weekday" "A")
                (mkState [ex_daily; ex_hourly] []) in
   rendered (fst out)
   = [HourlyBar [(Qc_of_Z 7, Some (Qc_of_Z 75)); (Qc_of_Z 8, Some (Qc_of_Z 200));
                 (Qc_of_Z 12, Some (Qc_of_Z 20))];
      HourlyLine [(Qc_of_Z 7, Some (Qc_of_Z 75)); (Qc_of_Z 8, Some (Qc_of_Z 200));
                  (Qc_of_Z 12, Some (Qc_of_Z 20))];
      PeakHourInfo 8] /\
   snd out = Ok 2%nat) /\
  (exists hourly_avg peak_hour peak_avg s',
     hourly_section no_str no_datetime no_int hourly_df (ex_sel Tourist "Weekday" "A")
       (mkState [ex_daily; ex_hourly] []) = (s', Ok 2%nat) /\
     rendered s' = [HourlyBar hourly_avg; HourlyLine hourly_avg; PeakHourInfo peak_hour] /\
     (Qc_of_Z peak_hour, Some peak_avg) ∈ hourly_avg /\
     forall h m, (h, Some m) ∈ hourly_avg ->
       m ≤ peak_avg /\ (m = peak_avg -> Qc_of_Z peak_hour ≤ h)) /\
  (exists s',
     hourly_section no_str no_datetime no_int hourly_df (ex_sel Worker "Weekday" "A")
       (mkState [ex_daily; ex_hourly_hours] [])
     = (s', Raise (ValueError "cannot convert to integer")) /\
     rendered s' = []).
Proof.
  split; [split; by_compute|]. split.
  - destruct (hourly_average_by_hour no_str no_datetime no_int
                (mkState [ex_daily; ex_hourly] []) ex_hourly (ex_sel Tourist "Weekday" "A")
                1 2 [ex_ts 2024 1 1 7; ex_str "Weekday"; ex_str "A"; ex_num 100])
      as [Htime _]; [reflexivity|reflexivity|reflexivity|left|reflexivity|].
    destruct (Htime 0%nat) as [Hnum _];
      [repeat constructor|by_compute|reflexivity|reflexivity|].
    destruct Hnum as (c & j & hourly_avg & s' & res & Hc & Hj & Hrun & _ & Hrows & _ & Hpeak);
      [by vm_compute|].
    injection Hc as <-. injection Hj as <-.
    destruct Hpeak as (peak_hour & peak_avg & Hren & -> & Hin & Hmax).
    + exists (Qc_of_Z 7), (Qc_of_Z 75). apply Hrows. split.
      * eexists. split; [left|reflexivity].
      * by_compute.
    + exists hourly_avg, peak_hour, peak_avg, s'.
      split; [exact Hrun|]. split; [exact Hren|]. split; [exact Hin|exact Hmax].
  - destruct (hourly_average_by_hour no_str no_datetime no_int
                (mkState [ex_daily; ex_hourly_hours] []) ex_hourly_hours
                (ex_sel Worker "Weekday" "A") 1 2
                [CNum None; ex_str "Weekday"; ex_str "A"; ex_num 50])
      as [_ Hhour]; [reflexivity|reflexivity|reflexivity|right; left|reflexivity|].
    apply (Hhour 0%nat); reflexivity.
Defined.

(** ** The recommendation *)

(** The per-hour averages of line 208 on a frame with an [hour] column and
    a numeric [ridership] column: one row per hour some row holds, with the
    arithmetic mean of the numbers [ridership] holds in the rows of that
    hour; the hours are those of the rows. *)
Lemma avg_ridership_rows (hf : DataFrame) (i j : nat) :
  Pandas.col_index "hour" (columns hf) = Some i ->
  Pandas.col_index "ridership" (columns hf) = Some j ->
  nth j (snd <$> columns hf) object = number ->
  let hour_of (x : row) := Pandas.num_of_cell (Pandas.cell_at i x) in
  exists avg,
    groupby_reset Pandas.num_of_cell Pandas.nanmean "hour" "ridership" hf = Ok avg /\
    key_sorted avg /\
    forall h m, (h, m) ∈ avg <->
      (exists x, x ∈ rows hf /\ hour_of x = Some h) /\
      m = spec_mean (omap (fun x => Pandas.num_of_cell (Pandas.cell_at j x))
                       (List.filter (fun x => bool_decide (hour_of x = Some h)) (rows hf))).
Proof.
  intros Hi Hj Hdt hour_of.
  exists (Pandas.groupby_agg Pandas.nanmean (hour_of <$> rows hf) (Pandas.cell_at j <$> rows hf)).
  split_and!.
  - by apply (groupby_reset_run Pandas.num_of_cell Pandas.nanmean "hour" "ridership" hf i j).
  - apply groupby_agg_sorted.
  - intros h m.
    rewrite (groupby_agg_elem_of Pandas.nanmean hour_of (Pandas.cell_at j) (rows hf) h m).
    rewrite nanmean_spec_mean.
    rewrite (List_filter_ext_elem (fun x => key_is h (hour_of x))
               (fun x => bool_decide (hour_of x = Some h)) (rows hf)); [done|].
    intros x _. apply key_is_bool_decide.
Qed.

Lemma spec_mean_is_Some (xs : list Qc) : xs <> [] -> is_Some (spec_mean xs).
Proof. destruct xs; [done|]. by eexists. Qed.

(** A row with an hour and a count makes the average of its hour a
    number. *)
Lemma avg_ridership_number (hf : DataFrame) (i j : nat) (avg : list (Qc * option Qc))
    (x0 : row) (h0 v0 : Qc) :
  (forall h m, (h, m) ∈ avg <->
     (exists x, x ∈ rows hf /\ Pandas.num_of_cell (Pandas.cell_at i x) = Some h) /\
     m = spec_mean (omap (fun x => Pandas.num_of_cell (Pandas.cell_at j x))
                      (List.filter (fun x => bool_decide
                                      (Pandas.num_of_cell (Pandas.cell_at i x) = Some h))
                                   (rows hf)))) ->
  x0 ∈ rows hf ->
  Pandas.num_of_cell (Pandas.cell_at i x0) = Some h0 ->
  Pandas.num_of_cell (Pandas.cell_at j x0) = Some v0 ->
  exists m, (h0, Some m) ∈ avg.
Proof.
  intros Hrows Hx Hh Hv.
  destruct (spec_mean_is_Some
              (omap (fun x => Pandas.num_of_cell (Pandas.cell_at j x))
                 (List.filter (fun x => bool_decide
                                 (Pandas.num_of_cell (Pandas.cell_at i x) = Some h0))
                              (rows hf)))) as [m Hm].
  { intros Hnil. assert (v0 ∈ @nil Qc) as Hin; [|by apply elem_of_nil in Hin].
    rewrite <- Hnil. apply list_elem_of_omap. exists x0. split; [|done].
    apply elem_of_List_filter. split; [done|]. by apply bool_decide_eq_true. }
  exists m. apply Hrows. split; [by exists x0|by rewrite Hm].
Qed.

Lemma elem_of_avg_numbers (avg : list (Qc * option Qc)) (m : Qc) :
  m ∈ Pandas.dropna (snd <$> avg) <-> exists h, (h, Some m) ∈ avg.
Proof.
  unfold Pandas.dropna. rewrite list_elem_of_omap. split.
  - intros (o & ([h o'] & -> & Hin)%list_elem_of_fmap & Ho). simpl in Ho. subst. eauto.
  - intros [h Hin]. exists (Some m). split; [|done].
    apply list_elem_of_fmap. by exists (h, Some m).
Qed.

(** The hours of rows in strictly ascending key order, the keys being
    integers. *)
Lemma hours_of_ascending (l : list (Qc * option Qc)) :
  key_sorted l -> (forall a, a ∈ l -> integral (fst a)) ->
  StronglySorted Z.lt (hours_of l).
Proof.
  unfold hours_of. intros Hl Hall.
  induction Hl as [|a l Hl IH Hlt]; [constructor|]. cbn. constructor.
  - apply IH. intros b Hb. apply Hall. by right.
  - apply Forall_fmap, Forall_forall. intros b Hb. simpl.
    rewrite Forall_forall in Hlt. apply Qc_trunc_lt.
    + apply Hall. left.
    + apply Hall. by right.
    + by apply klt_Qc, Hlt.
Qed.

(** C3: the recommendation in Tourist mode, on a non-empty frame with the
    [hour] column the hourly section stores (integers or NaN) and a numeric
    [ridership] column, one row of which has an hour and a count.  The chart
    shows the per-hour averages, the mean of [ridership] over the rows of
    each hour.  The threshold, drawn as the reference line, is the 30th
    percentile of the averages that are numbers: the linear interpolation
    over these averages in ascending order at index 0.3 * (n - 1).  The
    hours listed in the message are exactly the hours whose average is at
    most the threshold, the boundary included, in ascending order. *)
Theorem tourist_threshold (s : state) (r : nat) (hf : DataFrame) (i j : nat)
    (x0 : row) (h0 v0 : Qc) :
  heap s !! r = Some hf ->
  Pandas.col_index "hour" (columns hf) = Some i ->
  Pandas.col_index "ridership" (columns hf) = Some j ->
  nth j (snd <$> columns hf) object = number ->
  (forall x, x ∈ rows hf -> hour_cell (Pandas.cell_at i x)) ->
  x0 ∈ rows hf ->
  Pandas.num_of_cell (Pandas.cell_at i x0) = Some h0 ->
  Pandas.num_of_cell (Pandas.cell_at j x0) = Some v0 ->
  let hour_of (x : row) := Pandas.num_of_cell (Pandas.cell_at i x) in
  exists avg sorted threshold hours,
    recommendation_section r Tourist s
    = (mkState (heap s)
         (rendered s ++ [TouristSuccess hours; RecChart avg (Some threshold)]), Ok tt) /\
    (forall h m, (h, m) ∈ avg <->
       (exists x, x ∈ rows hf /\ hour_of x = Some h) /\
       m = spec_mean (omap (fun x => Pandas.num_of_cell (Pandas.cell_at j x))
                        (List.filter (fun x => bool_decide (hour_of x = Some h)) (rows hf)))) /\
    sorted ≡ₚ omap snd avg /\ Sorted Qcle sorted /\ sorted <> [] /\
    threshold = spec_percentile (Q2Qc (3 # 10)) sorted /\
    StronglySorted Z.lt hours /\
    forall z : Z, z ∈ hours <-> exists m, (Qc_of_Z z, Some m) ∈ avg /\ m ≤ threshold.
Proof.
  intros Hs Hi Hj Hdt Hhour Hx0 Hh0 Hv0 hour_of.
  assert (Hrows : rows hf <> []) by (intros Hnil; rewrite Hnil in Hx0; by apply elem_of_nil in Hx0).
  destruct (avg_ridership_rows hf i j Hi Hj Hdt) as (avg & Havg & Hsorted & Hin).
  destruct (avg_ridership_number hf i j avg x0 h0 v0 Hin Hx0 Hh0 Hv0) as [m0 Hm0].
  assert (Hne : Pandas.dropna (snd <$> avg) <> []).
  { intros Hnil. assert (m0 ∈ Pandas.dropna (snd <$> avg)) as Hm by (apply elem_of_avg_numbers; eauto).
    rewrite Hnil in Hm. by apply elem_of_nil in Hm. }
  assert (Hint : forall a, a ∈ avg -> integral (fst a)).
  { intros [h m] [(x & Hx & Hh) _]%Hin. simpl.
    destruct (Hhour x Hx) as (o & Ho & Hio). apply Hio.
    unfold hour_of in Hh. by rewrite Ho in Hh. }
  set (sorted := Pandas.sort_Qc (Pandas.dropna (snd <$> avg))).
  set (threshold := spec_percentile (Q2Qc (3 # 10)) sorted).
  assert (Hq : Pandas.quantile (Q2Qc (3 # 10)) (snd <$> avg) = Some threshold).
  { apply quantile_spec_percentile; [by_compute|by_compute|done]. }
  set (recommended := List.filter (fun row : Qc * option Qc => le_nan (snd row) (Some threshold)) avg).
  exists avg, sorted, threshold, (hours_of recommended). split_and!.
  - rewrite (recommendation_section_run s r hf Tourist avg Hs Hrows Havg). cbn zeta.
    by rewrite Hq.
  - exact Hin.
  - unfold sorted. rewrite sort_Qc_perm. by rewrite dropna_fmap.
  - apply sort_Qc_sorted.
  - unfold sorted. intros Hnil. apply Hne.
    apply Permutation_nil_r. rewrite <- Hnil. symmetry. apply sort_Qc_perm.
  - done.
  - apply hours_of_ascending.
    + by apply StronglySorted_List_filter.
    + intros a [Ha _]%elem_of_List_filter. by apply Hint.
  - intros z. unfold hours_of, recommended. rewrite list_elem_of_fmap. split.
    + intros ([h m] & -> & [Ha Hle]%elem_of_List_filter). simpl in *.
      destruct m as [m|]; [|done]. apply bool_decide_eq_true in Hle.
      exists m. split; [|done]. pose proof (Hint _ Ha) as Hh. simpl in Hh. by rewrite <- Hh.
    + intros (m & Ha & Hle). exists (Qc_of_Z z, Some m). split.
      * simpl. by rewrite Qc_trunc_of_Z.
      * apply elem_of_List_filter. split; [done|]. simpl. by apply bool_decide_eq_true.
Qed.

(** C4: the recommendation in Worker mode, on a non-empty frame with the
    [hour] column the hourly section stores (integers or NaN) and a numeric
    [ridership] column.  The hours listed are the hours some row of the
    frame holds that lie in {7, 8, 9, 17, 18, 19}: the counts play no part.
    The chart shows the per-hour averages, and its reference line is their
    70th percentile, the linear interpolation over the averages that are
    numbers in ascending order at index 0.7 * (n - 1); there is no line
    when no average is a number. *)
Theorem worker_fixed_hours (s : state) (r : nat) (hf : DataFrame) (i j : nat) :
  heap s !! r = Some hf -> rows hf <> [] ->
  Pandas.col_index "hour" (columns hf) = Some i ->
  Pandas.col_index "ridership" (columns hf) = Some j ->
  nth j (snd <$> columns hf) object = number ->
  (forall row x, row ∈ rows hf ->
     Pandas.num_of_cell (Pandas.cell_at i row) = Some x -> integral x) ->
  let hour_of (x : row) := Pandas.num_of_cell (Pandas.cell_at i x) in
  exists avg hours hline,
    groupby_reset Pandas.num_of_cell Pandas.nanmean "hour" "ridership" hf = Ok avg /\
    recommendation_section r Worker s
    = (mkState (heap s) (rendered s ++ [WorkerInfo hours; RecChart avg hline]), Ok tt) /\
    hours = List.filter (fun h => bool_decide (h ∈ commute_hours))
                        ((fun row => Pandas.Qc_trunc (fst row)) <$> avg) /\
    StronglySorted Z.lt hours /\
    (forall h : Z, h ∈ hours <->
       h ∈ commute_hours /\
       exists row, row ∈ rows hf /\ hour_of row = Some (Qc_of_Z h)) /\
    (forall h m, (h, m) ∈ avg <->
       (exists x, x ∈ rows hf /\ hour_of x = Some h) /\
       m = spec_mean (omap (fun x => Pandas.num_of_cell (Pandas.cell_at j x))
                        (List.filter (fun x => bool_decide (hour_of x = Some h)) (rows hf)))) /\
    ((forall h m, (h, m) ∈ avg -> m = None) -> hline = None) /\
    forall x0 h0 v0,
      x0 ∈ rows hf -> hour_of x0 = Some h0 ->
      Pandas.num_of_cell (Pandas.cell_at j x0) = Some v0 ->
      exists sorted,
        sorted ≡ₚ omap snd avg /\ Sorted Qcle sorted /\ sorted <> [] /\
        hline = Some (spec_percentile (Q2Qc (7 # 10)) sorted).
Proof.
  intros Hs Hrows Hi Hj Hdt Hint hour_of.
  destruct (avg_ridership_rows hf i j Hi Hj Hdt) as (avg & Havg & Hsorted & Hin).
  assert (Hintegral : Forall (fun row => integral (fst row)) avg).
  { apply Forall_forall. intros [h m] [(x & Hx & Hh) _]%Hin. by apply (Hint x). }
  assert (Hhours : hours_of (List.filter (fun row : Qc * option Qc =>
                      between_Z 7 9 (fst row) || between_Z 17 19 (fst row)) avg)
                   = List.filter (fun h => bool_decide (h ∈ commute_hours))
                       ((fun row => Pandas.Qc_trunc (fst row)) <$> avg))
    by by apply hours_of_commute.
  exists avg,
    (hours_of (List.filter (fun row : Qc * option Qc =>
                  between_Z 7 9 (fst row) || between_Z 17 19 (fst row)) avg)),
    (Pandas.quantile (Q2Qc (7 # 10)) (snd <$> avg)).
  split_and!; [done| |exact Hhours| | |exact Hin| |].
  - by rewrite (recommendation_section_run _ _ _ _ _ Hs Hrows Havg).
  - apply hours_of_ascending.
    + by apply StronglySorted_List_filter.
    + intros a [Ha _]%elem_of_List_filter.
      rewrite Forall_forall in Hintegral. by apply Hintegral.
  - intros h. rewrite Hhours. rewrite elem_of_List_filter, bool_decide_eq_true.
    rewrite list_elem_of_fmap. split.
    + intros [([h' m] & -> & Ha) Hc]. split; [done|]. simpl in *.
      rewrite Forall_forall in Hintegral. specialize (Hintegral _ Ha). simpl in Hintegral.
      rewrite <- Hintegral. by apply Hin in Ha as [Hx _].
    + intros [Hc (x & Hx & Hh)]. split; [|done].
      eexists (Qc_of_Z h, _). split; [simpl; by rewrite Qc_trunc_of_Z|].
      apply Hin. split; [by exists x|done].
  - intros Hnone.
    assert (Hd : Pandas.dropna (snd <$> avg) = []).
    { destruct (Pandas.dropna (snd <$> avg)) as [|m l0] eqn:E; [done|].
      assert (m ∈ Pandas.dropna (snd <$> avg)) as [h Ha]%elem_of_avg_numbers
        by (rewrite E; left).
      by specialize (Hnone h (Some m) Ha). }
    unfold Pandas.quantile. by rewrite Hd.
  - intros x0 h0 v0 Hx0 Hh0 Hv0.
    destruct (avg_ridership_number hf i j avg x0 h0 v0 Hin Hx0 Hh0 Hv0) as [m0 Hm0].
    assert (Hne : Pandas.dropna (snd <$> avg) <> []).
    { intros Hnil. assert (m0 ∈ Pandas.dropna (snd <$> avg)) as Hm
        by (apply elem_of_avg_numbers; eauto).
      rewrite Hnil in Hm. by apply elem_of_nil in Hm. }
    exists (Pandas.sort_Qc (Pandas.dropna (snd <$> avg))). split_and!.
    + rewrite sort_Qc_perm. by rewrite dropna_fmap.
    + apply sort_Qc_sorted.
    + intros Hnil. apply Hne.
      apply Permutation_nil_r. rewrite <- Hnil. symmetry. apply sort_Qc_perm.
    + apply quantile_spec_percentile; [by_compute|by_compute|done].
Qed.

Lemma tourist_threshold_witness :
  recommendation_section 2 Tourist ex_state
  = (mkState (heap ex_state)
       [TouristSuccess [12%Z];
        RecChart [(Qc_of_Z 7, Some (Qc_of_Z 75)); (Qc_of_Z 8, Some (Qc_of_Z 200));
                  (Qc_of_Z 12, Some (Qc_of_Z 20))] (Some (Qc_of_Z 53))], Ok tt) /\
  spec_percentile (Q2Qc (3 # 10)) [Qc_of_Z 20; Qc_of_Z 75; Qc_of_Z 200] = Qc_of_Z 53 /\
  exists avg sorted threshold hours,
    recommendation_section 2 Tourist ex_state
    = (mkState (heap ex_state)
         (rendered ex_state ++ [TouristSuccess hours; RecChart avg (Some threshold)]), Ok tt) /\
    sorted ≡ₚ omap snd avg /\ Sorted Qcle sorted /\ sorted <> [] /\
    threshold = spec_percentile (Q2Qc (3 # 10)) sorted /\
    StronglySorted Z.lt hours /\
    forall z : Z, z ∈ hours <-> exists m, (Qc_of_Z z, Some m) ∈ avg /\ m ≤ threshold.
Proof.
  split; [by_compute|]. split; [by_compute|].
  destruct (tourist_threshold ex_state 2 ex_filtered 4 3
              [ex_ts 2024 1 1 7; ex_str "Weekday"; ex_str "A"; ex_num 100; ex_num 7]
              (Qc_of_Z 7) (Qc_of_Z 100))
    as (avg & sorted & threshold & hours & Hrun & _ & Hperm & Hsorted & Hne & Ht & Hasc & Hhours).
  - reflexivity.
  - reflexivity.
  - reflexivity.
  - reflexivity.
  - intros x Hx. unfold ex_filtered in Hx. simpl in Hx.
    repeat (apply elem_of_cons in Hx as [->|Hx];
            [eexists; split; [reflexivity|]; intros q [= <-]; apply integral_of_Z|]).
    by apply elem_of_nil in Hx.
  - left.
  - reflexivity.
  - reflexivity.
  - exists avg, sorted, threshold, hours.
    split; [exact Hrun|]. split; [exact Hperm|]. split; [exact Hsorted|].
    split; [exact Hne|]. split; [exact Ht|]. split; [exact Hasc|exact Hhours].
Defined.

Lemma worker_fixed_hours_witness :
  recommendation_section 2 Worker ex_state
  = (mkState (heap ex_state)
       [WorkerInfo [7%Z; 8%Z];
        RecChart [(Qc_of_Z 7, Some (Qc_of_Z 75)); (Qc_of_Z 8, Some (Qc_of_Z 200));
                  (Qc_of_Z 12, Some (Qc_of_Z 20))] (Some (Qc_of_Z 125))], Ok tt) /\
  spec_percentile (Q2Qc (7 # 10)) [Qc_of_Z 20; Qc_of_Z 75; Qc_of_Z 200] = Qc_of_Z 125 /\
  exists avg hours hline sorted,
    recommendation_section 2 Worker ex_state
    = (mkState (heap ex_state) (rendered ex_state ++ [WorkerInfo hours; RecChart avg hline]),
       Ok tt) /\
    (forall h : Z, h ∈ hours <->
       h ∈ commute_hours /\
       exists row, row ∈ rows ex_filtered /\
                   Pandas.num_of_cell (Pandas.cell_at 4 row) = Some (Qc_of_Z h)) /\
    sorted ≡ₚ omap snd avg /\ Sorted Qcle sorted /\ sorted <> [] /\
    hline = Some (spec_percentile (Q2Qc (7 # 10)) sorted).
Proof.
  split; [by_compute|]. split; [by_compute|].
  destruct (worker_fixed_hours ex_state 2 ex_filtered 4 3)
    as (avg & hours & hline & _ & Hrun & _ & _ & Hhours & _ & _ & Hline).
  - reflexivity.
  - done.
  - reflexivity.
  - reflexivity.
  - reflexivity.
  - intros row x Hrow. unfold ex_filtered, ex_filtered_passengers in Hrow. simpl in Hrow.
    repeat (apply elem_of_cons in Hrow as [->|Hrow];
            [simpl; intros [= <-]; unfold integral; by rewrite Qc_trunc_of_Z|]).
    by apply elem_of_nil in Hrow.
  - destruct (Hline [ex_ts 2024 1 1 7; ex_str "Weekday"; ex_str "A"; ex_num 100; ex_num 7]
                (Qc_of_Z 7) (Qc_of_Z 100))
      as (sorted & Hperm & Hsorted & Hne & Hl); [left|reflexivity|reflexivity|].
    exists avg, hours, hline, sorted.
    split; [exact Hrun|]. split; [exact Hhours|]. split; [exact Hperm|].
    split; [exact Hsorted|]. split; [exact Hne|exact Hl].
Defined.

(** ** Loading and the required columns *)

Lemma is_space_code (c : ascii) :
  PyStr.is_space c = true <-> space_code (nat_of_ascii c).
Proof.
  unfold PyStr.is_space, space_code.
  rewrite orb_true_iff, !andb_true_iff, !Nat.leb_le. lia.
Qed.

Lemma is_space_code_false (c : ascii) :
  PyStr.is_space c = false <-> ~ space_code (nat_of_ascii c).
Proof. rewrite <- is_space_code. by destruct (PyStr.is_space c). Qed.

Lemma lower_ascii_lowered (c : ascii) : lowered_char c (PyStr.lower_ascii c).
Proof.
  unfold lowered_char, PyStr.lower_ascii, upper_code.
  destruct (_ && _)%bool eqn:E.
  - apply andb_true_iff in E as [E1%Nat.leb_le E2%Nat.leb_le].
    split; [|lia]. intros _. apply nat_ascii_embedding. lia.
  - apply andb_false_iff in E. rewrite !Nat.leb_gt in E. split; [lia|done].
Qed.

Lemma lower_lowered (s : string) :
  Forall2 lowered_char (list_ascii_of_string s) (list_ascii_of_string (PyStr.lower s)).
Proof.
  induction s as [|c s IH]; simpl; constructor; [apply lower_ascii_lowered|done].
Qed.

Lemma lstrip_decomp (s : string) :
  exists pre,
    list_ascii_of_string s = pre ++ list_ascii_of_string (PyStr.lstrip s) /\
    Forall (fun c => space_code (nat_of_ascii c)) pre /\
    forall c, head (list_ascii_of_string (PyStr.lstrip s)) = Some c ->
              ~ space_code (nat_of_ascii c).
Proof.
  induction s as [|c s (pre & Hs & Hpre & Hhead)]; simpl.
  - exists []. by split_and!.
  - destruct (PyStr.is_space c) eqn:Hc.
    + exists (c :: pre). split_and!; [by rewrite Hs| |done].
      constructor; [by apply is_space_code|done].
    + exists []. split_and!; [done|constructor|].
      simpl. intros c' [= <-]. by apply is_space_code_false.
Qed.

Lemma rstrip_decomp (s : string) :
  exists post,
    list_ascii_of_string s = list_ascii_of_string (PyStr.rstrip s) ++ post /\
    Forall (fun c => space_code (nat_of_ascii c)) post /\
    forall c, last (list_ascii_of_string (PyStr.rstrip s)) = Some c ->
              ~ space_code (nat_of_ascii c).
Proof.
  induction s as [|c s (post & Hs & Hpost & Hlast)]; simpl.
  - exists []. by split_and!.
  - destruct (PyStr.rstrip s) as [|c1 t] eqn:Hr; simpl in *.
    + destruct (PyStr.is_space c) eqn:Hc; simpl.
      * exists (c :: post). split_and!; [by rewrite Hs| |done].
        constructor; [by apply is_space_code|done].
      * exists post. split_and!; [by rewrite Hs|done|].
        intros c' [= <-]. by apply is_space_code_false.
    + exists post. split_and!; [by rewrite Hs|done|].
      intros c'. exact (Hlast c').
Qed.

Lemma strip_lower_spec (raw : string) : stripped_lowered raw (normalize_name raw).
Proof.
  unfold normalize_name, PyStr.strip.
  destruct (rstrip_decomp raw) as (post & Hr & Hpost & Hlast).
  destruct (lstrip_decomp (PyStr.rstrip raw)) as (pre & Hl & Hpre & Hhead).
  set (core := list_ascii_of_string (PyStr.lstrip (PyStr.rstrip raw))) in *.
  exists pre, core, post. split_and!; [|done|done|done| |apply lower_lowered].
  - by rewrite Hr, Hl, <- app_assoc.
  - intros c Hc. apply Hlast. rewrite Hl, last_app. by rewrite Hc.
Qed.

Lemma lowered_char_not_upper (c c' : ascii) :
  lowered_char c c' -> ~ upper_code (nat_of_ascii c').
Proof.
  unfold lowered_char, upper_code. intros [Hup Hkeep] Hc'.
  destruct (decide (65 <= nat_of_ascii c <= 90)%nat) as [Hc|Hc].
  - rewrite (Hup Hc) in Hc'. lia.
  - rewrite (Hkeep Hc) in Hc'. lia.
Qed.

Section LoaderLabels.
Variable py_to_datetime : cell -> option Timestamp.

(** X4: what [load_data()] makes of the column labels, for labels in the
    ASCII range (the range on which [strip] and [lower] are modelled).  The
    labels of each frame are, column by column, the labels of the file
    without the white space at their ends (tab to carriage return, the
    separators 28 to 31, the space) and with every letter A-Z replaced by
    its lower-case letter; no label keeps an upper-case letter or white
    space at an end, and every column of the file is found under such a
    label. *)
Theorem load_data_labels (raw_daily raw_hourly : DataFrame) :
  Forall ascii_label (fst <$> columns raw_daily) ->
  Forall ascii_label (fst <$> columns raw_hourly) ->
  let frames := load_data py_to_datetime raw_daily raw_hourly in
  let normalized (raw df : DataFrame) :=
    Forall2 stripped_lowered (fst <$> columns raw) (fst <$> columns df) /\
    (forall name, name ∈ fst <$> columns df ->
       (forall c, c ∈ list_ascii_of_string name -> ~ upper_code (nat_of_ascii c)) /\
       (forall c, head (list_ascii_of_string name) = Some c -> ~ space_code (nat_of_ascii c)) /\
       (forall c, last (list_ascii_of_string name) = Some c -> ~ space_code (nat_of_ascii c))) /\
    (forall name, name ∈ fst <$> columns raw ->
       exists new, stripped_lowered name new /\ Pandas.has_column new df = true) in
  normalized raw_daily (fst frames) /\ normalized raw_hourly (snd frames).
Proof.
  intros _ _.
  assert (Hn : forall name raw,
    let df := parse_column py_to_datetime name (normalize_columns raw) in
    Forall2 stripped_lowered (fst <$> columns raw) (fst <$> columns df) /\
    (forall n, n ∈ fst <$> columns df ->
       (forall c, c ∈ list_ascii_of_string n -> ~ upper_code (nat_of_ascii c)) /\
       (forall c, head (list_ascii_of_string n) = Some c -> ~ space_code (nat_of_ascii c)) /\
       (forall c, last (list_ascii_of_string n) = Some c -> ~ space_code (nat_of_ascii c))) /\
    (forall n, n ∈ fst <$> columns raw ->
       exists new, stripped_lowered n new /\ Pandas.has_column new df = true)).
  { intros name raw df.
    assert (Hnames : fst <$> columns df = normalize_name <$> (fst <$> columns raw)).
    { unfold df. rewrite parse_column_names. unfold normalize_columns. simpl.
      by rewrite <- !list_fmap_compose. }
    split_and!.
    - rewrite Hnames. apply Forall2_fmap_r, Forall_Forall2_diag, Forall_forall.
      intros n _. apply strip_lower_spec.
    - intros n. rewrite Hnames. intros (n0 & -> & _)%list_elem_of_fmap.
      destruct (strip_lower_spec n0) as (pre & core & post & _ & _ & _ & Hhead & Hlast & Hlow).
      split_and!.
      + intros c Hc.
        apply (Forall2_Forall_r _ (fun c' => ~ upper_code (nat_of_ascii c'))) in Hlow.
        * rewrite Forall_forall in Hlow. by apply Hlow.
        * apply Forall_forall. intros c0 _ c1. apply lowered_char_not_upper.
      + intros c Hc. destruct Hlow as [|c0 c1 core' new' Hc01 Hlow]; [done|].
        simpl in Hc. injection Hc as <-.
        specialize (Hhead c0 eq_refl). destruct Hc01 as [Hup Hkeep].
        destruct (decide (upper_code (nat_of_ascii c0))) as [Hu|Hu].
        * unfold space_code, upper_code in *. rewrite (Hup Hu). lia.
        * by rewrite (Hkeep Hu).
      + intros c Hc.
        assert (Hl : exists c0, last core = Some c0 /\ lowered_char c0 c).
        { clear -Hlow Hc. induction Hlow as [|c0 c1 core' new' Hc01 Hlow IH]; [done|].
          destruct Hlow as [|c2 c3 core'' new'' Hc23 Hlow'].
          - simpl in Hc. injection Hc as <-. by exists c0.
          - apply IH. exact Hc. }
        destruct Hl as (c0 & Hc0 & [Hup Hkeep]). specialize (Hlast c0 Hc0).
        destruct (decide (upper_code (nat_of_ascii c0))) as [Hu|Hu].
        * unfold space_code, upper_code in *. rewrite (Hup Hu). lia.
        * by rewrite (Hkeep Hu).
    - intros n Hin. exists (normalize_name n). split; [apply strip_lower_spec|].
      apply has_column_true.
      assert (normalize_name n ∈ fst <$> columns df) as Hin'
        by (rewrite Hnames; by apply list_elem_of_fmap_2).
      apply list_elem_of_fmap in Hin' as ([n' dt] & Hn' & Hin'). simpl in Hn'. subst n'.
      destruct (col_index_elem_of _ _ _ Hin') as [i Hi]. eauto. }
  intros frames normalized. split; apply Hn.
Qed.

End LoaderLabels.

Lemma load_data_labels_witness :
  fst <$> columns (fst (load_data ex_parse ex_raw_daily ex_hourly))
  = ["date"; "line"; "ridership"] /\
  Forall2 stripped_lowered [" Date "; "Line"; "Ridership"]
          (fst <$> columns (fst (load_data ex_parse ex_raw_daily ex_hourly))).
Proof.
  split; [reflexivity|].
  apply (load_data_labels ex_parse ex_raw_daily ex_hourly).
  - repeat constructor; simpl; lia.
  - repeat constructor; simpl; lia.
Defined.

Section RequiredColumns.
Variable py_str : cell -> string.
Variable py_to_datetime : cell -> option Timestamp.
Variable py_int : cell -> option Z.

(** X6: the page needs three columns, and the first one missing, in the
    order the sidebar reads them, is the one the error names: without
    [day_type] in the hourly frame the run stops with [KeyError] on
    [day_type]; with it and without [line_tag], on [line_tag]; with both and
    without [date] in the daily frame, on [date].  In each case nothing is
    rendered and no frame is created. *)
Theorem missing_required_column_is_fatal (daily hourly : DataFrame) (sel : Selection) :
  let stops key :=
    run py_str py_to_datetime py_int daily hourly sel
    = (mkState [daily; hourly] [], Raise (KeyError key)) in
  (Pandas.col_index "day_type" (columns hourly) = None -> stops "day_type") /\
  (Pandas.col_index "day_type" (columns hourly) <> None ->
   Pandas.col_index "line_tag" (columns hourly) = None -> stops "line_tag") /\
  (Pandas.col_index "day_type" (columns hourly) <> None ->
   Pandas.col_index "line_tag" (columns hourly) <> None ->
   Pandas.col_index "date" (columns daily) = None -> stops "date").
Proof.
  intros stops. unfold stops, run, script.
  assert (Hno : forall name df, Pandas.col_index name (columns df) = None ->
                  Pandas.getitem name df = Raise (KeyError name)).
  { intros name df Hn. unfold Pandas.getitem. by rewrite Hn. }
  split_and!.
  - intros Hd. rewrite bind_run. simpl. rewrite bind_run. unfold lift at 1.
    by rewrite (Hno _ _ Hd).
  - intros Hd Hl. destruct (Pandas.col_index "day_type" (columns hourly)) as [d|] eqn:Ed; [|done].
    rewrite bind_run. simpl. rewrite bind_run. unfold lift at 1.
    rewrite (getitem_Some _ _ _ Ed).
    rewrite bind_run. unfold lift at 1. by rewrite (Hno _ _ Hl).
  - intros Hd Hl Hdate.
    destruct (Pandas.col_index "day_type" (columns hourly)) as [d|] eqn:Ed; [|done].
    destruct (Pandas.col_index "line_tag" (columns hourly)) as [l|] eqn:El; [|done].
    rewrite bind_run. simpl. rewrite bind_run. unfold lift at 1.
    rewrite (getitem_Some _ _ _ Ed).
    rewrite bind_run. unfold lift at 1. rewrite (getitem_Some _ _ _ El).
    rewrite bind_run. simpl. rewrite bind_run. unfold lift at 1.
    unfold date_mask. by rewrite (Hno _ _ Hdate).
Qed.

End RequiredColumns.

(** Hourly frames without a [day_type] and without a [line_tag] column. *)
Definition ex_hourly_no_day_type : DataFrame :=
  mkDF [("time", datetime); ("line_tag", object); ("ridership", number)]
    [ [ex_ts 2024 1 1 7; ex_str "A"; ex_num 100] ].

Definition ex_hourly_no_line_tag : DataFrame :=
  mkDF [("time", datetime); ("day_type", object); ("ridership", number)]
    [ [ex_ts 2024 1 1 7; ex_str "Weekday"; ex_num 100] ].

Lemma missing_required_column_is_fatal_witness :
  run no_str no_datetime no_int ex_daily ex_hourly_no_day_type (ex_sel Tourist "Weekday" "A")
  = (mkState [ex_daily; ex_hourly_no_day_type] [], Raise (KeyError "day_type")) /\
  run no_str no_datetime no_int ex_daily ex_hourly_no_line_tag (ex_sel Tourist "Weekday" "A")
  = (mkState [ex_daily; ex_hourly_no_line_tag] [], Raise (KeyError "line_tag")) /\
  run no_str no_datetime no_int ex_hourly ex_hourly (ex_sel Tourist "Weekday" "A")
  = (mkState [ex_hourly; ex_hourly] [], Raise (KeyError "date")).
Proof.
  split_and!.
  - apply (missing_required_column_is_fatal no_str no_datetime no_int
             ex_daily ex_hourly_no_day_type). reflexivity.
  - apply (missing_required_column_is_fatal no_str no_datetime no_int
             ex_daily ex_hourly_no_line_tag); [done|reflexivity].
  - apply (missing_required_column_is_fatal no_str no_datetime no_int
             ex_hourly ex_hourly); [done|done|reflexivity].
Defined.
